(** * AlphaGenome MCP server: the Python client wrapper

    A shallow embedding of [src/alphagenome_client.py]: the class
    [AlphaGenomeClient] (twenty public operations and four private
    serializers) and the command-line entry point [main].

    The [alphagenome] package is not part of the repository.  Everything
    the wrapper asks of it (the [create]d client object and its methods,
    the [Interval] and [Variant] classes, the [OutputType] enumeration) is
    gathered in the record [Lib] and stays abstract.  What the Python
    interpreter leaves to the process rather than to the program (the
    iteration order of a [set] of strings, the [repr] of floats and
    containers) is gathered in the record [PyRuntime]. *)

From Stdlib Require Import ZArith QArith List String Ascii Bool Lia.
From Stdlib Require Import DecimalString Permutation.
Import ListNotations.

Set Warnings "-register-all".

Open Scope Z_scope.
Open Scope list_scope.
Open Scope string_scope.

(* ================================================================== *)
(** * Python values and primitives *)
(* ================================================================== *)

Module Py.

(** The floats that are no rationals; [json.loads] yields them for
    [NaN], [Infinity] and [-Infinity]. *)
Inductive nonfinite : Type := NaN | PosInf | NegInf.

(** JSON-compatible Python values.  A finite [float] is kept as the
    exact rational it denotes, in lowest terms ([Qred]); binary64
    rounding is outside the model.  A [dict] is an association list in
    insertion order; [dict_get] reads the first binding of a key. *)
Inductive pyval : Type :=
| PyNone
| PyBool (b : bool)
| PyInt (z : Z)
| PyFloat (q : Q)
| PyNonFinite (x : nonfinite)
| PyStr (s : string)
| PyList (l : list pyval)
| PyDict (kv : list (string * pyval)).

(** An exception: [type(e).__name__] and [str(e)]. *)
Record exn : Type := Exn { exn_type : string; exn_msg : string }.

Definition ValueError (msg : string) : exn := Exn "ValueError" msg.
Definition TypeError (msg : string) : exn := Exn "TypeError" msg.
Definition AttributeError (msg : string) : exn := Exn "AttributeError" msg.
Definition ZeroDivisionError : exn := Exn "ZeroDivisionError" "division by zero".
(** [str(KeyError(k))] is [repr(k)]; keys here are plain identifiers. *)
Definition KeyError (key : string) : exn := Exn "KeyError" ("'" ++ key ++ "'").

Definition type_name (v : pyval) : string :=
  match v with
  | PyNone => "NoneType"
  | PyBool _ => "bool"
  | PyInt _ => "int"
  | PyFloat _ => "float"
  | PyNonFinite _ => "float"
  | PyStr _ => "str"
  | PyList _ => "list"
  | PyDict _ => "dict"
  end.

(** ** Characters and strings

    A [str] is a sequence of Unicode characters.  The model has 256 of
    them: the 128 characters of ASCII under their own codes and, under
    the codes 128 to 255, the 128 characters of [beyond_ascii], listed
    by code point in increasing order, so that comparing two codes is
    comparing two code points.  They are chosen for what the string
    methods do to them: letters whose other case is longer, is an ASCII
    letter or lies in another block, decimal digits and white space
    beyond ASCII, characters that [repr] escapes; the ideographs U+4E00
    to U+4E5E, which have no case and are neither digits nor white
    space, fill the rest.  What Python does to each of them is tabulated
    below from the Unicode character database. *)

Section Unicode.

Local Open Scope N_scope.

Definition ideographs : list N := map (fun i => 0x4E00 + N.of_nat i) (seq 0 95).

Definition beyond_ascii : list N :=
  ([0x80; 0x85; 0xA0; 0xAD; 0xB5; 0xC9; 0xDF; 0xE9; 0xFF; 0x130; 0x131; 0x178;
    0x17F; 0x307; 0x308; 0x39C; 0x3BC; 0x660; 0x661; 0x662; 0x663; 0x664; 0x665;
    0x666; 0x667; 0x668; 0x669; 0x1E97; 0x2003; 0x200B; 0x212A]
   ++ ideographs ++ [0xFF15; 0x1F600])%list.

(** [c.upper()] and [c.lower()], as code points, for the characters
    beyond ASCII that are not their own upper or lower case. *)
Definition upper_beyond : list (N * list N) :=
  [(0xB5, [0x39C]); (0xDF, [0x53; 0x53]); (0xE9, [0xC9]); (0xFF, [0x178]);
   (0x131, [0x49]); (0x17F, [0x53]); (0x3BC, [0x39C]); (0x1E97, [0x54; 0x308])].

Definition lower_beyond : list (N * list N) :=
  [(0xC9, [0xE9]); (0x130, [0x69; 0x307]); (0x178, [0xFF]); (0x39C, [0x3BC]);
   (0x212A, [0x6B])].

(** The decimal digits beyond ASCII, with their values. *)
Definition decimal_beyond : list (N * N) :=
  [(0x660, 0); (0x661, 1); (0x662, 2); (0x663, 3); (0x664, 4); (0x665, 5);
   (0x666, 6); (0x667, 7); (0x668, 8); (0x669, 9); (0xFF15, 5)].

(** The white space beyond ASCII. *)
Definition space_beyond : list N := [0x85; 0xA0; 0x2003].

(** The characters beyond ASCII that are not printable. *)
Definition unprintable_beyond : list N := [0x80; 0x85; 0xA0; 0xAD; 0x2003; 0x200B].

End Unicode.

Definition is_ascii (c : ascii) : bool := (nat_of_ascii c <? 128)%nat.

Definition code_point (c : ascii) : N :=
  if is_ascii c then N_of_ascii c
  else nth (nat_of_ascii c - 128) beyond_ascii 0%N.

Fixpoint position_of (cp : N) (l : list N) : option nat :=
  match l with
  | [] => None
  | x :: r => if N.eqb cp x then Some 0%nat else option_map S (position_of cp r)
  end.

(** The character with code point [cp]; every code point of the tables
    has one. *)
Definition char_of (cp : N) : ascii :=
  if (cp <? 128)%N then ascii_of_N cp
  else match position_of cp beyond_ascii with
       | Some i => ascii_of_nat (128 + i)
       | None => "?"%char
       end.

Fixpoint assoc {A} (cp : N) (l : list (N * A)) : option A :=
  match l with
  | [] => None
  | (x, a) :: r => if N.eqb cp x then Some a else assoc cp r
  end.

Definition is_lower (c : ascii) : bool :=
  ((97 <=? nat_of_ascii c) && (nat_of_ascii c <=? 122))%nat.

Definition is_upper (c : ascii) : bool :=
  ((65 <=? nat_of_ascii c) && (nat_of_ascii c <=? 90))%nat.

(** The two cases of an ASCII character. *)
Definition upper_char (c : ascii) : ascii :=
  if is_lower c then ascii_of_nat (nat_of_ascii c - 32) else c.

Definition lower_char (c : ascii) : ascii :=
  if is_upper c then ascii_of_nat (nat_of_ascii c + 32) else c.

(** [c.upper()] or [c.lower()] for one character: one character or
    several. *)
Definition case_of (beyond : list (N * list N)) (ascii_case : ascii -> ascii)
    (c : ascii) : string :=
  if is_ascii c then String (ascii_case c) EmptyString
  else match assoc (code_point c) beyond with
       | Some cps => string_of_list_ascii (map char_of cps)
       | None => String c EmptyString
       end.

Definition upper_of : ascii -> string := case_of upper_beyond upper_char.
Definition lower_of : ascii -> string := case_of lower_beyond lower_char.

Fixpoint flat_map_string (f : ascii -> string) (s : string) : string :=
  match s with
  | EmptyString => EmptyString
  | String c r => f c ++ flat_map_string f r
  end.

(** [s.upper()] and [s.lower()]. *)
Definition upper (s : string) : string := flat_map_string upper_of s.
Definition lower (s : string) : string := flat_map_string lower_of s.

(** The letter sharp s (U+00DF), whose upper case is ["SS"]. *)
Definition sharp_s : ascii := char_of 223.

Definition chars (s : string) : list ascii := list_ascii_of_string s.

(** [len(s)]. *)
Definition len (s : string) : Z := Z.of_nat (String.length s).

(** [c in s] for a one-character [c]. *)
Fixpoint contains (c : ascii) (s : string) : bool :=
  match s with
  | EmptyString => false
  | String d r => Ascii.eqb c d || contains c r
  end.

(** [s.count(c)] for a one-character [c]. *)
Fixpoint count (c : ascii) (s : string) : Z :=
  match s with
  | EmptyString => 0
  | String d r => (if Ascii.eqb c d then 1 else 0) + count c r
  end.

(** [s.split(sep)] for a one-character separator: never empty, one more
    piece than there are separators. *)
Fixpoint split (sep : ascii) (s : string) : list string :=
  match s with
  | EmptyString => [EmptyString]
  | String c r =>
      if Ascii.eqb c sep then EmptyString :: split sep r
      else match split sep r with
           | [] => [String c EmptyString]
           | p :: ps => String c p :: ps
           end
  end.

(** [str(z)] for an [int]. *)
Definition str_of_int (z : Z) : string := NilZero.string_of_int (Z.to_int z).

(** ** [repr(s)]

    Single quotes, unless the string has one and no double quote; the
    quote and the backslash are escaped, and so is every character that
    is not printable. *)

Definition double_quote : ascii := ascii_of_nat 34.

Definition hex_digit (n : N) : ascii :=
  match nth_error (chars "0123456789abcdef") (N.to_nat n) with
  | Some c => c
  | None => "0"%char
  end.

(** [n] in hexadecimal, on [width] digits. *)
Fixpoint hex (width : nat) (n : N) : string :=
  match width with
  | O => EmptyString
  | S w => hex w (n / 16)%N ++ String (hex_digit (n mod 16)%N) EmptyString
  end.

Definition mem_N (cp : N) (l : list N) : bool := existsb (N.eqb cp) l.

Definition escape (quote c : ascii) : string :=
  let n := nat_of_ascii c in
  if Ascii.eqb c quote || Ascii.eqb c "\" then String "\" (String c EmptyString)
  else if (n =? 9)%nat then "\t"
  else if (n =? 10)%nat then "\n"
  else if (n =? 13)%nat then "\r"
  else if ((n <? 32) || (n =? 127))%nat then "\x" ++ hex 2 (N.of_nat n)
  else if is_ascii c || negb (mem_N (code_point c) unprintable_beyond)
       then String c EmptyString
       else let cp := code_point c in
            if (cp <=? 255)%N then "\x" ++ hex 2 cp
            else if (cp <=? 65535)%N then "\u" ++ hex 4 cp
            else "\U" ++ hex 8 cp.

Definition repr_str (s : string) : string :=
  let quote := if contains "'" s && negb (contains double_quote s)
               then double_quote else "'"%char in
  String quote (flat_map_string (escape quote) s ++ String quote EmptyString).

(** ** Sets of characters

    [set(s)] is kept as the list of distinct characters of [s] in order of
    first occurrence; this is a representation only, the order in which
    Python hands the elements out is [set_order] of the runtime. *)

Fixpoint mem_char (c : ascii) (l : list ascii) : bool :=
  match l with
  | [] => false
  | d :: r => Ascii.eqb c d || mem_char c r
  end.

Fixpoint dedup (l : list ascii) : list ascii :=
  match l with
  | [] => []
  | c :: r => c :: filter (fun d => negb (Ascii.eqb c d)) (dedup r)
  end.

Definition set_of (s : string) : list ascii := dedup (chars s).

(** [a.issubset(b)] and [a - b]. *)
Definition issubset (a b : list ascii) : bool :=
  forallb (fun c => mem_char c b) a.

Definition set_diff (a b : list ascii) : list ascii :=
  filter (fun c => negb (mem_char c b)) a.

(** ** Truth value, equality and ordering *)

Definition Qnonzero (q : Q) : bool := negb (Qeq_bool q 0).

(** [bool(v)]. *)
Definition truthy (v : pyval) : bool :=
  match v with
  | PyNone => false
  | PyBool b => b
  | PyInt z => negb (z =? 0)%Z
  | PyFloat q => Qnonzero q
  | PyNonFinite _ => true
  | PyStr s => negb (String.eqb s EmptyString)
  | PyList l => match l with [] => false | _ => true end
  | PyDict kv => match kv with [] => false | _ => true end
  end.

(** A number: a rational, or one of the floats that are none. *)
Inductive number : Type :=
| Finite (q : Q)
| NonFinite (x : nonfinite).

(** The number a value stands for in comparisons ([bool] is a subclass
    of [int]). *)
Definition as_number (v : pyval) : option number :=
  match v with
  | PyBool b => Some (Finite (inject_Z (if b then 1 else 0)))
  | PyInt z => Some (Finite (inject_Z z))
  | PyFloat q => Some (Finite q)
  | PyNonFinite x => Some (NonFinite x)
  | _ => None
  end.

(** [a == b] on numbers: NaN equals nothing, itself included. *)
Definition eq_number (a b : number) : bool :=
  match a, b with
  | Finite p, Finite q => Qeq_bool p q
  | NonFinite PosInf, NonFinite PosInf => true
  | NonFinite NegInf, NonFinite NegInf => true
  | _, _ => false
  end.

Fixpoint dict_get (k : string) (kv : list (string * pyval)) : option pyval :=
  match kv with
  | [] => None
  | (k', v) :: r => if String.eqb k k' then Some v else dict_get k r
  end.

(** [a == b]. *)
Fixpoint py_eq (a b : pyval) {struct a} : bool :=
  match a, b with
  | PyNone, PyNone => true
  | PyStr s, PyStr t => String.eqb s t
  | PyList la, PyList lb =>
      (fix go (xs ys : list pyval) {struct xs} : bool :=
         match xs, ys with
         | [], [] => true
         | x :: xs', y :: ys' => py_eq x y && go xs' ys'
         | _, _ => false
         end) la lb
  | PyDict da, PyDict db =>
      (Nat.eqb (List.length da) (List.length db)) &&
      (fix go (kvs : list (string * pyval)) {struct kvs} : bool :=
         match kvs with
         | [] => true
         | (k, v) :: r =>
             match dict_get k db with
             | Some w => py_eq v w && go r
             | None => false
             end
         end) da
  | _, _ =>
      match as_number a, as_number b with
      | Some p, Some q => eq_number p q
      | _, _ => false
      end
  end.

Inductive cmp_op : Type := OpLt | OpGe.

Definition op_symbol (op : cmp_op) : string :=
  match op with OpLt => "<" | OpGe => ">=" end.

Definition cmp_Q (op : cmp_op) (p q : Q) : bool :=
  match op with
  | OpLt => negb (Qle_bool q p)
  | OpGe => Qle_bool q p
  end.

(** [a < b] on numbers.  Every comparison with NaN is false. *)
Definition lt_number (a b : number) : bool :=
  match a, b with
  | Finite p, Finite q => cmp_Q OpLt p q
  | NonFinite NaN, _ => false
  | _, NonFinite NaN => false
  | _, NonFinite NegInf => false
  | NonFinite NegInf, _ => true
  | NonFinite PosInf, _ => false
  | Finite _, NonFinite PosInf => true
  end.

Definition is_nan (a : number) : bool :=
  match a with NonFinite NaN => true | _ => false end.

Definition cmp_number (op : cmp_op) (a b : number) : bool :=
  match op with
  | OpLt => lt_number a b
  | OpGe => negb (is_nan a || is_nan b) && negb (lt_number a b)
  end.

Definition cmp_string (op : cmp_op) (s t : string) : bool :=
  match op with
  | OpLt => String.ltb s t
  | OpGe => negb (String.ltb s t)
  end.

Definition cmp_nat (op : cmp_op) (m n : nat) : bool :=
  match op with
  | OpLt => Nat.ltb m n
  | OpGe => Nat.leb n m
  end.

Definition not_supported (op : cmp_op) (a b : pyval) : exn :=
  TypeError ("'" ++ op_symbol op ++ "' not supported between instances of '"
             ++ type_name a ++ "' and '" ++ type_name b ++ "'").

(** [a < b] and [a >= b]: numbers with numbers, strings with strings,
    lists with lists (at the first pair of unequal items, else by
    length); anything else raises [TypeError]. *)
Fixpoint py_compare (op : cmp_op) (a b : pyval) {struct a} : exn + bool :=
  match a, b with
  | PyStr s, PyStr t => inr (cmp_string op s t)
  | PyList la, PyList lb =>
      (fix go (xs ys : list pyval) {struct xs} : exn + bool :=
         match xs, ys with
         | x :: xs', y :: ys' =>
             if py_eq x y then go xs' ys' else py_compare op x y
         | _, _ => inr (cmp_nat op (List.length xs) (List.length ys))
         end) la lb
  | _, _ =>
      match as_number a, as_number b with
      | Some p, Some q => inr (cmp_number op p q)
      | _, _ => inl (not_supported op a b)
      end
  end.

Definition py_lt : pyval -> pyval -> exn + bool := py_compare OpLt.
Definition py_ge : pyval -> pyval -> exn + bool := py_compare OpGe.

(** ** [int(s)]

    A string that is not ASCII is first rewritten: white space beyond
    ASCII becomes a blank, a decimal digit beyond ASCII the ASCII digit
    of its value, and the first other character beyond ASCII ends the
    string with a question mark.  Then white space is skipped, one sign
    is allowed, the digits may be grouped by single underscores, and
    white space may follow.  A literal of more than 4300 digits is
    refused (the default of [sys.set_int_max_str_digits]). *)

(** White space for [int]: blank, tab, line feed, vertical tab, form
    feed, carriage return. *)
Definition is_space (c : ascii) : bool :=
  let n := nat_of_ascii c in
  (((9 <=? n) && (n <=? 13)) || (n =? 32))%nat.

Definition is_digit (c : ascii) : bool :=
  ((48 <=? nat_of_ascii c) && (nat_of_ascii c <=? 57))%nat.

Definition digit_value (c : ascii) : Z := Z.of_nat (nat_of_ascii c - 48).

Fixpoint to_ascii (l : list ascii) : list ascii :=
  match l with
  | [] => []
  | c :: r =>
      if (nat_of_ascii c <? 127)%nat then c :: to_ascii r
      else if mem_N (code_point c) space_beyond then " "%char :: to_ascii r
      else match assoc (code_point c) decimal_beyond with
           | Some d => ascii_of_N (48 + d) :: to_ascii r
           | None => ["?"%char]
           end
  end.

Definition transform (l : list ascii) : list ascii :=
  if forallb is_ascii l then l else to_ascii l.

Fixpoint lstrip (l : list ascii) : list ascii :=
  match l with
  | c :: r => if is_space c then lstrip r else l
  | [] => []
  end.

(** The digits of a literal: the value, the number of digits and what
    follows them.  [after_us] says that the previous character was an
    underscore, after which a digit must come; it is set at the start,
    where a digit must come as well. *)
Fixpoint scan_digits (acc : Z) (digits : nat) (after_us : bool) (l : list ascii)
  : option (Z * nat * list ascii) :=
  match l with
  | [] => if after_us then None else Some (acc, digits, [])
  | c :: r =>
      if is_digit c then scan_digits (10 * acc + digit_value c) (S digits) false r
      else if Ascii.eqb c "_" then
             if after_us then None else scan_digits acc digits true r
           else if after_us then None else Some (acc, digits, l)
  end.

Definition max_str_digits : nat := 4300.

Inductive int_failure : Type :=
| Malformed
| TooManyDigits (digits : nat).

(** An ASCII literal ([PyLong_FromString]). *)
Definition int_of_ascii (l : list ascii) : int_failure + Z :=
  let l1 := lstrip l in
  let signed := match l1 with
                | c :: r => if Ascii.eqb c "-" then (true, r)
                            else if Ascii.eqb c "+" then (false, r)
                            else (false, l1)
                | [] => (false, [])
                end in
  match scan_digits 0 0 true (snd signed) with
  | None => inl Malformed
  | Some (value, digits, rest) =>
      if (max_str_digits <? digits)%nat then inl (TooManyDigits digits)
      else match lstrip rest with
           | [] => inr (if fst signed then - value else value)
           | _ => inl Malformed
           end
  end.

Definition int_of_chars (l : list ascii) : int_failure + Z :=
  int_of_ascii (transform l).

(** The error [int] raises on a literal it cannot read; the literal is
    quoted by [repr], cut after 200 characters. *)
Definition invalid_literal (s : string) : exn :=
  ValueError ("invalid literal for int() with base 10: "
              ++ substring 0 200 (repr_str s)).

Definition too_many_digits (digits : nat) : exn :=
  ValueError ("Exceeds the limit (4300 digits) for integer string conversion: value has "
              ++ str_of_int (Z.of_nat digits)
              ++ " digits; use sys.set_int_max_str_digits() to increase the limit").

(** [int(s)] *)
Definition int (s : string) : exn + Z :=
  match int_of_chars (chars s) with
  | inr z => inr z
  | inl Malformed => inl (invalid_literal s)
  | inl (TooManyDigits digits) => inl (too_many_digits digits)
  end.

(** The integer a string denotes, if [int] reads one. *)
Definition parse_int (s : string) : option Z :=
  match int s with
  | inr z => Some z
  | inl _ => None
  end.

(** ** Floats as exact rationals *)

Definition float_of_int (z : Z) : Q := inject_Z z.

(** [a / b] on two [int]s. *)
Definition truediv (a b : Z) : exn + Q :=
  if (b =? 0)%Z then inl ZeroDivisionError
  else inr (Qred (inject_Z a / inject_Z b)).

Definition fmul (p q : Q) : Q := Qred (p * q).
Definition fsub (p q : Q) : Q := Qred (p - q).

(** Nearest integer to [q], ties to even. *)
Definition round_half_even (q : Q) : Z :=
  let n := Qnum q in
  let d := Z.pos (Qden q) in
  let fl := n / d in
  let r2 := 2 * (n mod d) in
  if (r2 <? d)%Z then fl
  else if (d <? r2)%Z then fl + 1
  else if Z.even fl then fl else fl + 1.

(** [round(q, 2)] on a float. *)
Definition round2 (q : Q) : Q :=
  Qred (inject_Z (round_half_even (q * 100)) / 100).

End Py.

Export Py.

(* ================================================================== *)
(** * The interpreter and the [alphagenome] package *)
(* ================================================================== *)

(** What a run of the interpreter fixes and the program does not: the
    order in which a [set] of one-character strings is iterated (CPython
    derives it from the per-process string-hash seed), the text of
    [str(v)] for floats and containers, and the JSON parser. *)
Record PyRuntime : Type := {
  set_order : list ascii -> list ascii;
  (** Iterating a set hands out each of its elements once. *)
  set_order_elements : forall l, Permutation (set_order l) l;
  repr_other : pyval -> string;
  (** [json.loads], taken from the standard library as it is. *)
  json_loads : string -> exn + pyval
}.

Inductive Organism : Type := HOMO_SAPIENS | MUS_MUSCULUS.

Inductive VariantFormat : Type :=
  DEFAULT | GNOMAD | GTEX | OPEN_TARGETS | OPEN_TARGETS_BIGQUERY.

(** A member of the enumeration [OutputType], by name. *)
Definition OutputType : Type := string.

(** [alphagenome.data.genome.Interval] and [Variant] objects, as far as
    the wrapper reads them. *)
Record Interval : Type := {
  interval_chromosome : string;
  interval_start : Z;
  interval_end : Z
}.

Record Variant : Type := {
  variant_chromosome : string;
  variant_position : Z;
  reference_bases : string;
  alternate_bases : string;
  variant_name : string
}.

(** What reading an attribute of an object gives: a value, [None], or
    an exception (one that is no [AttributeError], which [hasattr] takes
    for a missing attribute). *)
Inductive attribute : Type :=
| AttrValue
| AttrNone
| AttrRaises (e : exn).

(** What the client hands back.  An object is known by what reading its
    attributes gives, an attribute that is not listed being missing; a
    list by its items. *)
Inductive extval : Type :=
| ExtObj (attrs : list (string * attribute))
| ExtList (items : list extval).

(** A method call on [self.client], with its keyword arguments. *)
Inductive client_call : Type :=
| call_predict_sequence (sequence : string) (organism : Organism)
    (requested_outputs : option (list OutputType))
    (ontology_terms : option (list string))
| call_predict_interval (interval : Interval) (organism : Organism)
    (requested_outputs : option (list OutputType))
    (ontology_terms : option (list string))
| call_predict_variant (interval : Interval) (variant : Variant)
    (organism : Organism) (requested_outputs : option (list OutputType))
    (ontology_terms : option (list string))
| call_score_variant (interval : Interval) (variant : Variant)
    (organism : Organism)
| call_output_metadata (organism : Organism)
| call_predict_sequences (sequences : list string) (organism : Organism)
    (requested_outputs : option (list OutputType))
    (ontology_terms : option (list string)) (max_workers : Z)
| call_predict_intervals (intervals : list Interval) (organism : Organism)
    (requested_outputs : option (list OutputType))
    (ontology_terms : option (list string)) (max_workers : Z)
| call_predict_variants (intervals : Interval) (variants : list Variant)
    (organism : Organism) (requested_outputs : option (list OutputType))
    (ontology_terms : option (list string)) (max_workers : Z)
| call_score_variants (intervals : Interval) (variants : list Variant)
    (organism : Organism) (max_workers : Z)
| call_score_interval (interval : Interval) (interval_scorers : list string)
    (organism : Organism)
| call_score_intervals (intervals : list Interval)
    (interval_scorers : list string) (organism : Organism) (max_workers : Z)
| call_score_ism_variants (interval ism_interval : Interval)
    (organism : Organism) (max_workers : Z).

(** The organism a call is made for. *)
Definition call_organism (c : client_call) : Organism :=
  match c with
  | call_predict_sequence _ o _ _ => o
  | call_predict_interval _ o _ _ => o
  | call_predict_variant _ _ o _ _ => o
  | call_score_variant _ _ o => o
  | call_output_metadata o => o
  | call_predict_sequences _ o _ _ _ => o
  | call_predict_intervals _ o _ _ _ => o
  | call_predict_variants _ _ o _ _ _ => o
  | call_score_variants _ _ o _ => o
  | call_score_interval _ _ o => o
  | call_score_intervals _ _ o _ => o
  | call_score_ism_variants _ _ o _ => o
  end.

(** The package.  [DnaClient] is the state of the object [create]
    returns; a method call may change it and either returns a value or
    raises.  The constructors of [Interval] and [Variant] may reject
    their arguments.  [overlaps] answers with a Boolean and [intersect]
    with an [Interval] or [None]; an [Interval] object counts as true
    where the wrapper tests [if intersection:]. *)
Record Lib : Type := {
  DnaClient : Type;
  create : string -> exn + DnaClient;
  invoke : DnaClient -> client_call -> DnaClient * (exn + extval);
  Interval_init : pyval -> pyval -> pyval -> exn + Interval;
  Interval_overlaps : Interval -> Interval -> bool;
  Interval_intersect : Interval -> Interval -> option Interval;
  Variant_init : pyval -> pyval -> pyval -> pyval -> exn + Variant;
  Variant_from_str : string -> VariantFormat -> exn + Variant;
  OutputType_hasattr : string -> bool
}.

(* ================================================================== *)
(** * Effects: the client object, the calls made, the exceptions raised *)
(* ================================================================== *)

(** What can be observed of a run besides its result. *)
Inductive event : Type :=
| Call (c : client_call)
| Raised (e : exn)
| Absorbed (e : exn).

Fixpoint calls_of (evs : list event) : list client_call :=
  match evs with
  | [] => []
  | Call c :: r => c :: calls_of r
  | _ :: r => calls_of r
  end.

(** The exceptions raised in the body of a method or of [main]. *)
Fixpoint raised_of (evs : list event) : list exn :=
  match evs with
  | [] => []
  | Raised e :: r => e :: raised_of r
  | _ :: r => raised_of r
  end.

(** The exceptions raised inside a private serializer, which its own
    handler answers. *)
Fixpoint absorbed_of (evs : list event) : list exn :=
  match evs with
  | [] => []
  | Absorbed e :: r => e :: absorbed_of r
  | _ :: r => absorbed_of r
  end.

(** What a private serializer leaves in the log: the exception that
    ended its body, if there was one. *)
Definition absorbing {A} (body : exn + A) : list event :=
  match body with
  | inl e => [Absorbed e]
  | inr _ => []
  end.

Section Effects.

Context (L : Lib).

(** The only field [__init__] sets. *)
Record AlphaGenomeClient : Type := { client : DnaClient L }.

(** A computation inside a method: it starts from [self], ends with
    [self], logs events in the order they happen and returns a value or
    leaves with an exception. *)
Definition M (A : Type) : Type :=
  AlphaGenomeClient -> (exn + A) * AlphaGenomeClient * list event.

Definition ret {A} (a : A) : M A := fun self => (inr a, self, []).

Definition bind {A B} (m : M A) (k : A -> M B) : M B :=
  fun self =>
    match m self with
    | (inl e, self1, evs) => (inl e, self1, evs)
    | (inr a, self1, evs) =>
        match k a self1 with
        | (r, self2, evs') => (r, self2, (evs ++ evs')%list)
        end
    end.

Definition raise {A} (e : exn) : M A := fun self => (inl e, self, [Raised e]).

(** A primitive that may raise. *)
Definition lift {A} (r : exn + A) : M A :=
  match r with
  | inl e => raise e
  | inr a => ret a
  end.

(** [self.client.method(...)]. *)
Definition call_client (c : client_call) : M extval :=
  fun self =>
    match invoke L (client self) c with
    | (cl, inl e) => (inl e, {| client := cl |}, [Call c; Raised e])
    | (cl, inr v) => (inr v, {| client := cl |}, [Call c])
    end.

(** A private serializer has run on [body]: the exception its own
    handler absorbed, if there was one, goes to the log. *)
Definition serializing {A} (body : exn + A) : M unit :=
  fun self => (inr tt, self, absorbing body).

End Effects.

Arguments ret {L A} a.
Arguments serializing {L A} body.
Arguments bind {L A B} m k.
Arguments raise {L A} e.
Arguments lift {L A} r.
Arguments call_client {L} c.
Arguments client {L} a.

Notation "x <- m ;; k" := (bind m (fun x => k))
  (at level 61, m at next level, right associativity).
Notation "m ;;; k" := (bind m (fun _ => k))
  (at level 61, right associativity).

Definition result_of {L A} (r : (exn + A) * AlphaGenomeClient L * list event)
  : exn + A := fst (fst r).
Definition self_of {L A} (r : (exn + A) * AlphaGenomeClient L * list event)
  : AlphaGenomeClient L := snd (fst r).
Definition events_of {L A} (r : (exn + A) * AlphaGenomeClient L * list event)
  : list event := snd r.

(* ================================================================== *)
(** * Dynamic operations on values *)
(* ================================================================== *)

(** [str(v)], as an f-string uses it. *)
Definition py_str (rt : PyRuntime) (v : pyval) : string :=
  match v with
  | PyNone => "None"
  | PyBool true => "True"
  | PyBool false => "False"
  | PyInt z => str_of_int z
  | PyNonFinite NaN => "nan"
  | PyNonFinite PosInf => "inf"
  | PyNonFinite NegInf => "-inf"
  | PyStr s => s
  | _ => repr_other rt v
  end.

(** [for x in v]: the items of a list, the keys of a dict, the
    characters of a string. *)
Definition py_iter (v : pyval) : exn + list pyval :=
  match v with
  | PyList l => inr l
  | PyDict kv => inr (map (fun p => PyStr (fst p)) kv)
  | PyStr s => inr (map (fun c => PyStr (String c EmptyString)) (chars s))
  | _ => inl (TypeError ("'" ++ type_name v ++ "' object is not iterable"))
  end.

(** [v[key]] for a string key. *)
Definition py_getitem (v : pyval) (key : string) : exn + pyval :=
  match v with
  | PyDict kv =>
      match dict_get key kv with
      | Some x => inr x
      | None => inl (KeyError key)
      end
  | PyList _ => inl (TypeError "list indices must be integers or slices, not str")
  | PyStr _ => inl (TypeError "string indices must be integers, not 'str'")
  | _ => inl (TypeError ("'" ++ type_name v ++ "' object is not subscriptable"))
  end.

(** [len(v)]. *)
Definition py_len (v : pyval) : exn + Z :=
  match v with
  | PyList l => inr (Z.of_nat (List.length l))
  | PyDict kv => inr (Z.of_nat (List.length kv))
  | PyStr s => inr (len s)
  | _ => inl (TypeError ("object of type '" ++ type_name v ++ "' has no len()"))
  end.

(** [v.upper()]. *)
Definition py_upper (v : pyval) : exn + string :=
  match v with
  | PyStr s => inr (upper s)
  | _ => inl (AttributeError ("'" ++ type_name v ++ "' object has no attribute 'upper'"))
  end.

(** [d.get(key, default)] on a dict. *)
Definition py_get (kv : list (string * pyval)) (key : string) (default : pyval) : pyval :=
  match dict_get key kv with
  | Some x => x
  | None => default
  end.

Definition is_none (v : pyval) : bool :=
  match v with PyNone => true | _ => false end.

(** Items of what the client returned. *)
Definition ext_iter (v : extval) : exn + list extval :=
  match v with
  | ExtList items => inr items
  | ExtObj _ => inl (TypeError "object is not iterable")
  end.

Fixpoint attr_get (name : string) (attrs : list (string * attribute)) : option attribute :=
  match attrs with
  | [] => None
  | (n, a) :: r => if String.eqb name n then Some a else attr_get name r
  end.

(** [hasattr(v, name) and v.name is not None]. *)
Definition read_attr (name : string) (v : extval) : exn + bool :=
  match v with
  | ExtObj attrs =>
      match attr_get name attrs with
      | Some AttrValue => inr true
      | Some AttrNone => inr false
      | Some (AttrRaises e) => inl e
      | None => inr false
      end
  | ExtList _ => inr false
  end.

(** The attribute is there, with a value. *)
Definition has_attr (name : string) (v : extval) : bool :=
  match read_attr name v with
  | inr present => present
  | inl _ => false
  end.

(** Steps that may raise, one after the other. *)
Definition and_then {A B} (r : exn + A) (k : A -> exn + B) : exn + B :=
  match r with
  | inl e => inl e
  | inr a => k a
  end.

Notation "x <~ r ;; k" := (and_then r (fun x => k))
  (at level 61, r at next level, right associativity).

Fixpoint enumerate_from {A} (i : Z) (l : list A) : list (Z * A) :=
  match l with
  | [] => []
  | x :: r => (i, x) :: enumerate_from (i + 1) r
  end.

Definition enumerate {A} (l : list A) : list (Z * A) := enumerate_from 0 l.

(** [l[i]] for [0 <= i < len(l)]. *)
Definition list_item (l : list pyval) (i : Z) : option pyval :=
  if (i <? 0)%Z then None else nth_error l (Z.to_nat i).

(* ================================================================== *)
(** * class AlphaGenomeClient *)
(* ================================================================== *)

Section Client.

Context (rt : PyRuntime) (L : Lib).

Local Abbreviation Cmd := (M L).

Fixpoint mapM {A B} (f : A -> Cmd B) (l : list A) : Cmd (list B) :=
  match l with
  | [] => ret []
  | x :: r => y <- f x ;; ys <- mapM f r ;; ret (y :: ys)
  end.

(** [__init__]: the object, or the exception that leaves the
    constructor. *)
Definition init (api_key : string) : exn + AlphaGenomeClient L :=
  if String.eqb api_key EmptyString then inl (ValueError "API key is required")
  else match create L api_key with
       | inl e => inl e
       | inr cl => inr {| client := cl |}
       end.

(** The handler every public method ends with:
    [except Exception as e: return {"success": False, ...}]. *)
Definition error_envelope (e : exn) : pyval :=
  PyDict [("success", PyBool false);
          ("error", PyStr (exn_msg e));
          ("type", PyStr (exn_type e))].

Definition try_except (body : Cmd pyval) : Cmd pyval :=
  fun self =>
    match body self with
    | (inl e, self', evs) => (inr (error_envelope e), self', evs)
    | (inr v, self', evs) => (inr v, self', evs)
    end.

(** ** Private serializers

    Each has a handler of its own:
    [except Exception as e: return {"error": f"... failed: {str(e)}"}]. *)

Definition serialized (prefix : string) (body : exn + pyval) : pyval :=
  match body with
  | inr v => v
  | inl e => PyDict [("error", PyStr (prefix ++ exn_msg e))]
  end.

Definition data_entry (name text : string) (output : extval)
  : exn + list (string * pyval) :=
  present <~ read_attr name output ;;
  inr (if present then [(name, PyStr text)] else []).

Definition serialize_output_body (output : extval) : exn + pyval :=
  atac <~ data_entry "atac" "ATAC-seq data available" output ;;
  cage <~ data_entry "cage" "CAGE data available" output ;;
  dnase <~ data_entry "dnase" "DNase data available" output ;;
  histone_marks <~ data_entry "histone_marks" "Histone marks data available" output ;;
  gene_expression <~ data_entry "gene_expression" "Gene expression data available" output ;;
  inr (PyDict [("type", PyStr "prediction_output");
               ("data", PyDict (atac ++ cage ++ dnase ++ histone_marks
                                ++ gene_expression)%list)]).

Definition _serialize_output (output : extval) : pyval :=
  serialized "Serialization failed: " (serialize_output_body output).

(** Nothing in the body of [_serialize_scores] raises. *)
Definition serialize_scores_body (scores : extval) : exn + pyval :=
  inr (PyDict [("type", PyStr "variant_scores");
               ("scores",
                PyList match scores with
                       | ExtList items =>
                           map (fun p => PyDict [("scorer_index", PyInt (fst p));
                                                 ("data", PyStr "Score data available (AnnData format)")])
                               (enumerate items)
                       | ExtObj _ => []
                       end)]).

Definition _serialize_scores (scores : extval) : pyval :=
  serialized "Score serialization failed: " (serialize_scores_body scores).

Definition serialize_variant_output_body (output : extval) : exn + pyval :=
  reference <~ data_entry "reference" "Reference prediction data available" output ;;
  alternate <~ data_entry "alternate" "Alternate prediction data available" output ;;
  difference <~ data_entry "difference" "Difference prediction data available" output ;;
  inr (PyDict [("type", PyStr "variant_prediction_output");
               ("data", PyDict (reference ++ alternate ++ difference)%list)]).

Definition _serialize_variant_output (output : extval) : pyval :=
  serialized "Variant output serialization failed: " (serialize_variant_output_body output).

Definition available (name : string) (metadata : extval) : exn + list pyval :=
  present <~ read_attr name metadata ;;
  inr (if present then [PyStr name] else []).

Definition serialize_metadata_body (metadata : extval) : exn + pyval :=
  atac <~ available "atac" metadata ;;
  cage <~ available "cage" metadata ;;
  dnase <~ available "dnase" metadata ;;
  histone_marks <~ available "histone_marks" metadata ;;
  gene_expression <~ available "gene_expression" metadata ;;
  inr (PyDict [("type", PyStr "output_metadata");
               ("available_outputs",
                PyList (atac ++ cage ++ dnase ++ histone_marks ++ gene_expression)%list)]).

Definition _serialize_metadata (metadata : extval) : pyval :=
  serialized "Metadata serialization failed: " (serialize_metadata_body metadata).

(** ** Expressions the methods repeat *)

(** [Organism.HOMO_SAPIENS if organism.lower() in [...] else
    Organism.HOMO_SAPIENS]. *)
Definition organism_enum_of (organism : string) : Organism :=
  if existsb (String.eqb (lower organism)) ["human"; "homo_sapiens"]
  then HOMO_SAPIENS else HOMO_SAPIENS.

(** [requested_outputs]: [None] unless [output_types] is a non-empty
    list, then the members of [OutputType] it names. *)
Definition requested_outputs_of (output_types : option (list string))
  : option (list OutputType) :=
  match output_types with
  | Some ((_ :: _) as ots) => Some (filter (OutputType_hasattr L) (map upper ots))
  | _ => None
  end.

Definition valid_chars : list ascii := set_of "ATGCN".

(** [f"{chromosome}:{start}-{end}"] *)
Definition interval_text (chromosome start end_ : string) : string :=
  chromosome ++ ":" ++ start ++ "-" ++ end_.

(** [f"{chromosome}:{position}{ref}>{alt}"] *)
Definition variant_text (chromosome position ref alt : string) : string :=
  chromosome ++ ":" ++ position ++ ref ++ ">" ++ alt.

(** [Interval(chromosome=d["chromosome"], start=d["start"], end=d["end"])] *)
Definition interval_from (d : pyval) : Cmd Interval :=
  c <- lift (py_getitem d "chromosome") ;;
  s <- lift (py_getitem d "start") ;;
  e <- lift (py_getitem d "end") ;;
  lift (Interval_init L c s e).

(** [Variant(chromosome=d["chromosome"], position=d["position"],
    reference_bases=d["ref"], alternate_bases=d["alt"])] *)
Definition variant_from (d : pyval) : Cmd Variant :=
  c <- lift (py_getitem d "chromosome") ;;
  p <- lift (py_getitem d "position") ;;
  r <- lift (py_getitem d "ref") ;;
  a <- lift (py_getitem d "alt") ;;
  lift (Variant_init L c p r a).

(** [f"{d['chromosome']}:{d['start']}-{d['end']}"] *)
Definition interval_text_from (d : pyval) : Cmd string :=
  c <- lift (py_getitem d "chromosome") ;;
  s <- lift (py_getitem d "start") ;;
  e <- lift (py_getitem d "end") ;;
  ret (interval_text (py_str rt c) (py_str rt s) (py_str rt e)).

(** ** Prediction and scoring *)

Definition predict_sequence (sequence organism : string)
    (output_types ontology_terms : option (list string)) : Cmd pyval :=
  try_except (
    (if negb (truthy (PyStr sequence))
     then raise (ValueError "Sequence must be a non-empty string")
     else ret tt) ;;;
    (if negb (issubset (set_of (upper sequence)) valid_chars)
     then raise (ValueError "Sequence contains invalid characters. Only A, T, G, C, N are allowed")
     else ret tt) ;;;
    let organism_enum := organism_enum_of organism in
    let requested_outputs := requested_outputs_of output_types in
    result <- call_client (call_predict_sequence (upper sequence) organism_enum
                             requested_outputs ontology_terms) ;;
    serializing (serialize_output_body result) ;;;
    ret (PyDict [("success", PyBool true);
                 ("result", _serialize_output result);
                 ("sequence_length", PyInt (len sequence))])).

Definition predict_interval (chromosome : string) (start end_ : Z) (organism : string)
    (output_types ontology_terms : option (list string)) : Cmd pyval :=
  try_except (
    interval <- lift (Interval_init L (PyStr chromosome) (PyInt start) (PyInt end_)) ;;
    let organism_enum := organism_enum_of organism in
    let requested_outputs := requested_outputs_of output_types in
    result <- call_client (call_predict_interval interval organism_enum
                             requested_outputs ontology_terms) ;;
    serializing (serialize_output_body result) ;;;
    ret (PyDict [("success", PyBool true);
                 ("result", _serialize_output result);
                 ("interval", PyStr (interval_text chromosome (str_of_int start)
                                                   (str_of_int end_)))])).

Definition predict_variant (chromosome : string) (position : Z) (ref alt : string)
    (interval_start interval_end : Z) (organism : string)
    (output_types ontology_terms : option (list string)) : Cmd pyval :=
  try_except (
    interval <- lift (Interval_init L (PyStr chromosome) (PyInt interval_start)
                                    (PyInt interval_end)) ;;
    variant <- lift (Variant_init L (PyStr chromosome) (PyInt position)
                                  (PyStr ref) (PyStr alt)) ;;
    let organism_enum := organism_enum_of organism in
    let requested_outputs := requested_outputs_of output_types in
    result <- call_client (call_predict_variant interval variant organism_enum
                             requested_outputs ontology_terms) ;;
    serializing (serialize_output_body result) ;;;
    ret (PyDict [("success", PyBool true);
                 ("result", _serialize_output result);
                 ("variant", PyStr (variant_text chromosome (str_of_int position) ref alt));
                 ("interval", PyStr (interval_text chromosome (str_of_int interval_start)
                                                   (str_of_int interval_end)))])).

Definition score_variant (chromosome : string) (position : Z) (ref alt : string)
    (interval_start interval_end : Z) (organism : string) : Cmd pyval :=
  try_except (
    interval <- lift (Interval_init L (PyStr chromosome) (PyInt interval_start)
                                    (PyInt interval_end)) ;;
    variant <- lift (Variant_init L (PyStr chromosome) (PyInt position)
                                  (PyStr ref) (PyStr alt)) ;;
    let organism_enum := organism_enum_of organism in
    result <- call_client (call_score_variant interval variant organism_enum) ;;
    serializing (serialize_scores_body result) ;;;
    ret (PyDict [("success", PyBool true);
                 ("result", _serialize_scores result);
                 ("variant", PyStr (variant_text chromosome (str_of_int position) ref alt));
                 ("interval", PyStr (interval_text chromosome (str_of_int interval_start)
                                                   (str_of_int interval_end)))])).

Definition get_output_metadata (organism : string) : Cmd pyval :=
  try_except (
    let organism_enum := organism_enum_of organism in
    metadata <- call_client (call_output_metadata organism_enum) ;;
    serializing (serialize_metadata_body metadata) ;;;
    ret (PyDict [("success", PyBool true);
                 ("result", _serialize_metadata metadata);
                 ("organism", PyStr organism)])).

Definition predict_sequences (sequences : pyval) (organism : string)
    (output_types ontology_terms : option (list string)) (max_workers : Z)
  : Cmd pyval :=
  try_except (
    items <- match sequences with
             | PyList ((_ :: _) as l) => ret l
             | _ => raise (ValueError "Sequences must be a non-empty list")
             end ;;
    let organism_enum := organism_enum_of organism in
    let requested_outputs := requested_outputs_of output_types in
    uppered <- mapM (fun seq => lift (py_upper seq)) items ;;
    results <- call_client (call_predict_sequences uppered organism_enum
                              requested_outputs ontology_terms max_workers) ;;
    outputs <- lift (ext_iter results) ;;
    mapM (fun output => serializing (serialize_output_body output)) outputs ;;;
    ret (PyDict [("success", PyBool true);
                 ("results", PyList (map _serialize_output outputs));
                 ("sequence_count", PyInt (Z.of_nat (List.length items)))])).

Definition predict_intervals (intervals : pyval) (organism : string)
    (output_types ontology_terms : option (list string)) (max_workers : Z)
  : Cmd pyval :=
  try_except (
    items <- lift (py_iter intervals) ;;
    interval_objs <- mapM interval_from items ;;
    let organism_enum := organism_enum_of organism in
    let requested_outputs := requested_outputs_of output_types in
    results <- call_client (call_predict_intervals interval_objs organism_enum
                              requested_outputs ontology_terms max_workers) ;;
    outputs <- lift (ext_iter results) ;;
    mapM (fun output => serializing (serialize_output_body output)) outputs ;;;
    n <- lift (py_len intervals) ;;
    ret (PyDict [("success", PyBool true);
                 ("results", PyList (map _serialize_output outputs));
                 ("interval_count", PyInt n)])).

Definition predict_variants (variants interval : pyval) (organism : string)
    (output_types ontology_terms : option (list string)) (max_workers : Z)
  : Cmd pyval :=
  try_except (
    interval_obj <- interval_from interval ;;
    items <- lift (py_iter variants) ;;
    variant_objs <- mapM variant_from items ;;
    let organism_enum := organism_enum_of organism in
    let requested_outputs := requested_outputs_of output_types in
    results <- call_client (call_predict_variants interval_obj variant_objs organism_enum
                              requested_outputs ontology_terms max_workers) ;;
    outputs <- lift (ext_iter results) ;;
    mapM (fun output => serializing (serialize_variant_output_body output)) outputs ;;;
    n <- lift (py_len variants) ;;
    text <- interval_text_from interval ;;
    ret (PyDict [("success", PyBool true);
                 ("results", PyList (map _serialize_variant_output outputs));
                 ("variant_count", PyInt n);
                 ("interval", PyStr text)])).

Definition score_variants (variants interval : pyval) (organism : string)
    (max_workers : Z) : Cmd pyval :=
  try_except (
    interval_obj <- interval_from interval ;;
    items <- lift (py_iter variants) ;;
    variant_objs <- mapM variant_from items ;;
    let organism_enum := organism_enum_of organism in
    results <- call_client (call_score_variants interval_obj variant_objs organism_enum
                              max_workers) ;;
    outputs <- lift (ext_iter results) ;;
    mapM (fun output => serializing (serialize_scores_body output)) outputs ;;;
    n <- lift (py_len variants) ;;
    text <- interval_text_from interval ;;
    ret (PyDict [("success", PyBool true);
                 ("results", PyList (map _serialize_scores outputs));
                 ("variant_count", PyInt n);
                 ("interval", PyStr text)])).

Definition score_interval (chromosome : string) (start end_ : Z) (organism : string)
  : Cmd pyval :=
  try_except (
    interval <- lift (Interval_init L (PyStr chromosome) (PyInt start) (PyInt end_)) ;;
    let organism_enum := organism_enum_of organism in
    results <- call_client (call_score_interval interval [] organism_enum) ;;
    serializing (serialize_scores_body results) ;;;
    ret (PyDict [("success", PyBool true);
                 ("results", _serialize_scores results);
                 ("interval", PyStr (interval_text chromosome (str_of_int start)
                                                   (str_of_int end_)))])).

Definition score_intervals (intervals : pyval) (organism : string) (max_workers : Z)
  : Cmd pyval :=
  try_except (
    items <- lift (py_iter intervals) ;;
    interval_objs <- mapM interval_from items ;;
    let organism_enum := organism_enum_of organism in
    results <- call_client (call_score_intervals interval_objs [] organism_enum
                              max_workers) ;;
    outputs <- lift (ext_iter results) ;;
    mapM (fun output => serializing (serialize_scores_body output)) outputs ;;;
    n <- lift (py_len intervals) ;;
    ret (PyDict [("success", PyBool true);
                 ("results", PyList (map _serialize_scores outputs));
                 ("interval_count", PyInt n)])).

Definition score_ism_variants (chromosome : string) (start end_ : Z)
    (ism_chromosome : string) (ism_start ism_end : Z) (organism : string)
    (max_workers : Z) : Cmd pyval :=
  try_except (
    interval <- lift (Interval_init L (PyStr chromosome) (PyInt start) (PyInt end_)) ;;
    ism_interval <- lift (Interval_init L (PyStr ism_chromosome) (PyInt ism_start)
                                        (PyInt ism_end)) ;;
    let organism_enum := organism_enum_of organism in
    results <- call_client (call_score_ism_variants interval ism_interval organism_enum
                              max_workers) ;;
    outputs <- lift (ext_iter results) ;;
    mapM (fun output => serializing (serialize_scores_body output)) outputs ;;;
    ret (PyDict [("success", PyBool true);
                 ("results", PyList (map _serialize_scores outputs));
                 ("interval", PyStr (interval_text chromosome (str_of_int start)
                                                   (str_of_int end_)));
                 ("ism_interval", PyStr (interval_text ism_chromosome (str_of_int ism_start)
                                                       (str_of_int ism_end)))])).

(** ** Utility and validation tools *)

(** The dictionary both manual formats of [parse_variant_string] return. *)
Definition parsed_variant (chromosome : pyval) (position : pyval) (ref alt name : pyval)
    (variant_format variant_string : string) : pyval :=
  PyDict [("success", PyBool true);
          ("result", PyDict [("chromosome", chromosome);
                             ("position", position);
                             ("reference_bases", ref);
                             ("alternate_bases", alt);
                             ("name", name);
                             ("parsed_format", PyStr variant_format)]);
          ("original_string", PyStr variant_string)].

(** One manual format: split on [sep]; four parts or nothing. *)
Definition parse_manual (sep : ascii) (variant_string variant_format : string)
  : Cmd (option pyval) :=
  match split sep variant_string with
  | [chromosome; position; ref; alt] =>
      p <- lift (int position) ;;
      ret (Some (parsed_variant (PyStr chromosome) (PyInt p) (PyStr ref) (PyStr alt)
                                (PyStr variant_string) variant_format variant_string))
  | _ => ret None
  end.

(** [format_map.get(variant_format.lower(), VariantFormat.DEFAULT)] *)
Definition format_map_get (key : string) : VariantFormat :=
  if String.eqb key "default" then DEFAULT
  else if String.eqb key "gnomad" then GNOMAD
  else if String.eqb key "gtex" then GTEX
  else if String.eqb key "open_targets" then OPEN_TARGETS
  else if String.eqb key "open_targets_bigquery" then OPEN_TARGETS_BIGQUERY
  else DEFAULT.

Definition parse_variant_string (variant_string variant_format : string) : Cmd pyval :=
  try_except (
    manual <- (if contains "-" variant_string
               then parse_manual "-" variant_string variant_format
               else if contains ":" variant_string
                    then parse_manual ":" variant_string variant_format
                    else ret None) ;;
    match manual with
    | Some d => ret d
    | None =>
        let format_enum := format_map_get (lower variant_format) in
        variant <- lift (Variant_from_str L variant_string format_enum) ;;
        ret (parsed_variant (PyStr (variant_chromosome variant))
                            (PyInt (variant_position variant))
                            (PyStr (reference_bases variant))
                            (PyStr (alternate_bases variant))
                            (PyStr (variant_name variant))
                            variant_format variant_string)
    end).

(** The dictionary [validation_results] while it is filled in. *)
Record validation : Type := {
  valid : bool;
  warnings : list string;
  errors : list string
}.

Definition validation_start : validation :=
  {| valid := true; warnings := []; errors := [] |}.

(** [errors.append(msg); validation_results["valid"] = False] *)
Definition add_error (msg : string) (v : validation) : validation :=
  {| valid := false; warnings := warnings v; errors := (errors v ++ [msg])%list |}.

Definition add_warning (msg : string) (v : validation) : validation :=
  {| valid := valid v; warnings := (warnings v ++ [msg])%list; errors := errors v |}.

Definition validation_dict (v : validation) : pyval :=
  PyDict [("valid", PyBool (valid v));
          ("warnings", PyList (map PyStr (warnings v)));
          ("errors", PyList (map PyStr (errors v)))].

(** [data.get(key, default)]; only a dict has the method. *)
Definition data_get (data : pyval) (key : string) (default : pyval) : exn + pyval :=
  match data with
  | PyDict kv => inr (py_get kv key default)
  | _ => inl (AttributeError ("'" ++ type_name data ++ "' object has no attribute 'get'"))
  end.

(** [repr] of a one-character string. *)
Definition repr_char (c : ascii) : string := repr_str (String c EmptyString).

Fixpoint join (sep : string) (l : list string) : string :=
  match l with
  | [] => EmptyString
  | [x] => x
  | x :: r => x ++ sep ++ join sep r
  end.

(** [str] of a non-empty set of one-character strings. *)
Definition set_text (elems : list ascii) : string :=
  "{" ++ join ", " (map repr_char (set_order rt elems)) ++ "}".

Definition supported_lengths : list Z := [2048; 16384; 131072; 524288; 1048576].

(** [str(supported_lengths)] *)
Definition supported_lengths_text : string :=
  "[" ++ join ", " (map str_of_int supported_lengths) ++ "]".

Definition validate_sequence (data : pyval) : Cmd validation :=
  sequence <- lift (data_get data "sequence" (PyStr EmptyString)) ;;
  if negb (truthy sequence) then ret (add_error "Sequence is empty" validation_start)
  else
    up <- lift (py_upper sequence) ;;
    let invalid_chars := set_diff (set_of up) valid_chars in
    let v1 := match invalid_chars with
              | [] => validation_start
              | _ => add_error ("Invalid characters found: " ++ set_text invalid_chars)
                               validation_start
              end in
    n <- lift (py_len sequence) ;;
    ret (if existsb (Z.eqb n) supported_lengths then v1
         else add_warning ("Sequence length " ++ str_of_int n
                           ++ " not in supported lengths: " ++ supported_lengths_text) v1).

Definition validate_interval (data : pyval) : Cmd validation :=
  chromosome <- lift (data_get data "chromosome" (PyStr EmptyString)) ;;
  start <- lift (data_get data "start" PyNone) ;;
  end_ <- lift (data_get data "end" PyNone) ;;
  let v1 := if negb (truthy chromosome)
            then add_error "Chromosome is required" validation_start
            else validation_start in
  if is_none start || is_none end_
  then ret (add_error "Start and end positions are required" v1)
  else
    ge <- lift (py_ge start end_) ;;
    if ge then ret (add_error "End position must be greater than start position" v1)
    else
      lt <- lift (py_lt start (PyInt 1)) ;;
      if lt then ret (add_error "Start position must be positive" v1)
      else ret v1.

Definition valid_alleles : list ascii := set_of "ATGC".

Definition validate_variant (data : pyval) : Cmd validation :=
  chromosome <- lift (data_get data "chromosome" (PyStr EmptyString)) ;;
  position <- lift (data_get data "position" PyNone) ;;
  ref <- lift (data_get data "ref" (PyStr EmptyString)) ;;
  alt <- lift (data_get data "alt" (PyStr EmptyString)) ;;
  let v1 := if negb (truthy chromosome)
            then add_error "Chromosome is required" validation_start
            else validation_start in
  bad_position <- (if is_none position then ret true
                   else lift (py_lt position (PyInt 1))) ;;
  let v2 := if bad_position
            then add_error "Position must be a positive integer" v1
            else v1 in
  if negb (truthy ref) || negb (truthy alt)
  then ret (add_error "Reference and alternate alleles are required" v2)
  else
    ref_up <- lift (py_upper ref) ;;
    let v3 := if negb (issubset (set_of ref_up) valid_alleles)
              then add_error "Reference allele contains invalid characters" v2
              else v2 in
    alt_up <- lift (py_upper alt) ;;
    ret (if negb (issubset (set_of alt_up) valid_alleles)
         then add_error "Alternate allele contains invalid characters" v3
         else v3).

Definition validate_genomic_data (data_type : string) (data : pyval) : Cmd pyval :=
  try_except (
    validation_results <-
      (if String.eqb data_type "sequence" then validate_sequence data
       else if String.eqb data_type "interval" then validate_interval data
       else if String.eqb data_type "variant" then validate_variant data
       else ret validation_start) ;;
    ret (PyDict [("success", PyBool true);
                 ("result", validation_dict validation_results);
                 ("data_type", PyStr data_type)])).

Definition str_dict (kv : list (string * string)) : pyval :=
  PyDict (map (fun p => (fst p, PyStr (snd p))) kv).

Definition int_dict (kv : list (string * Z)) : pyval :=
  PyDict (map (fun p => (fst p, PyInt (snd p))) kv).

Definition get_supported_outputs : Cmd pyval :=
  try_except (
    let output_types :=
      str_dict [("ATAC", "ATAC-seq chromatin accessibility data");
                ("CAGE", "CAGE transcription start site data");
                ("CHIP_HISTONE", "ChIP-seq histone modification data");
                ("CHIP_TF", "ChIP-seq transcription factor binding data");
                ("CONTACT_MAPS", "3D chromatin contact maps");
                ("DNASE", "DNase hypersensitivity data");
                ("PROCAP", "PRO-cap nascent transcription data");
                ("RNA_SEQ", "RNA-seq gene expression data");
                ("SPLICE_JUNCTIONS", "Splice junction predictions");
                ("SPLICE_SITES", "Splice site predictions");
                ("SPLICE_SITE_USAGE", "Splice site usage predictions")] in
    let lengths :=
      int_dict [("SEQUENCE_LENGTH_2KB", 2048);
                ("SEQUENCE_LENGTH_16KB", 16384);
                ("SEQUENCE_LENGTH_100KB", 131072);
                ("SEQUENCE_LENGTH_500KB", 524288);
                ("SEQUENCE_LENGTH_1MB", 1048576)] in
    ret (PyDict [("success", PyBool true);
                 ("result",
                  PyDict [("output_types", output_types);
                          ("supported_sequence_lengths", lengths);
                          ("max_ism_interval_width", PyInt 10);
                          ("max_variant_scorers_per_request", PyInt 20);
                          ("supported_organisms", PyList [PyStr "human"]);
                          ("variant_formats",
                           PyList (map PyStr ["default"; "gnomad"; "gtex"; "open_targets";
                                              "open_targets_bigquery"]))])])).

(** [(overlap_length / length) * 100] *)
Definition percentage (overlap_length length : Z) : exn + Q :=
  match truediv overlap_length length with
  | inl e => inl e
  | inr q => inr (fmul q (float_of_int 100))
  end.

(** The keys added to [result] when the intervals overlap and the
    intersection is not empty. *)
Definition overlap_entries (int1 int2 intersection : Interval)
  : Cmd (list (string * pyval)) :=
  let length := interval_end intersection - interval_start intersection + 1 in
  let int1_length := interval_end int1 - interval_start int1 + 1 in
  let int2_length := interval_end int2 - interval_start int2 + 1 in
  let overlap_length := interval_end intersection - interval_start intersection + 1 in
  p1 <- lift (percentage overlap_length int1_length) ;;
  p2 <- lift (percentage overlap_length int2_length) ;;
  ret [("intersection",
        PyDict [("chromosome", PyStr (interval_chromosome intersection));
                ("start", PyInt (interval_start intersection));
                ("end", PyInt (interval_end intersection));
                ("length", PyInt length)]);
       ("overlap_stats",
        PyDict [("overlap_length", PyInt overlap_length);
                ("interval1_length", PyInt int1_length);
                ("interval2_length", PyInt int2_length);
                ("overlap_percentage_int1", PyFloat p1);
                ("overlap_percentage_int2", PyFloat p2)])].

Definition calculate_genomic_overlap (interval1 interval2 : pyval) : Cmd pyval :=
  try_except (
    int1 <- interval_from interval1 ;;
    int2 <- interval_from interval2 ;;
    let overlaps := Interval_overlaps L int1 int2 in
    text1 <- interval_text_from interval1 ;;
    text2 <- interval_text_from interval2 ;;
    let result := [("overlaps", PyBool overlaps);
                   ("interval1", PyStr text1);
                   ("interval2", PyStr text2)] in
    more <- (if overlaps
             then match Interval_intersect L int1 int2 with
                  | Some intersection => overlap_entries int1 int2 intersection
                  | None => ret []
                  end
             else ret []) ;;
    ret (PyDict [("success", PyBool true);
                 ("result", PyDict (result ++ more)%list)])).

(** [round(v, 2)]: an [int] is returned as it is. *)
Definition py_round2 (v : pyval) : pyval :=
  match v with
  | PyFloat q => PyFloat (round2 q)
  | _ => v
  end.

(** [100 - v] for the number [v]. *)
Definition hundred_minus (v : pyval) : pyval :=
  match v with
  | PyFloat q => PyFloat (fsub (float_of_int 100) q)
  | PyInt z => PyInt (100 - z)
  | _ => v
  end.

(** [min(l, key=lambda x: abs(x - length))]: the first of the closest. *)
Fixpoint closest_from (best : Z) (length : Z) (l : list Z) : Z :=
  match l with
  | [] => best
  | x :: r =>
      closest_from (if (Z.abs (x - length) <? Z.abs (best - length))%Z then x else best)
                   length r
  end.

Definition closest (length : Z) (l : list Z) : exn + Z :=
  match l with
  | [] => inl (ValueError "min() arg is an empty sequence")
  | x :: r => inr (closest_from x length r)
  end.

Definition get_sequence_info (sequence : string) : Cmd pyval :=
  try_except (
    (if negb (truthy (PyStr sequence))
     then raise (ValueError "Sequence cannot be empty")
     else ret tt) ;;;
    let sequence := upper sequence in
    let length := len sequence in
    let count_A := count "A" sequence in
    let count_T := count "T" sequence in
    let count_G := count "G" sequence in
    let count_C := count "C" sequence in
    let count_N := count "N" sequence in
    let gc_count := count_G + count_C in
    let at_count := count_A + count_T in
    let known_bases := gc_count + at_count in
    gc_content <- (if (known_bases >? 0)%Z
                   then q <- lift (percentage gc_count known_bases) ;; ret (PyFloat q)
                   else ret (PyInt 0)) ;;
    let is_supported_length := existsb (Z.eqb length) supported_lengths in
    closest_length <- lift (closest length supported_lengths) ;;
    let invalid_chars := set_diff (set_of sequence) valid_chars in
    let is_valid := Nat.eqb (List.length invalid_chars) 0 in
    n_content <- lift (percentage count_N length) ;;
    ret (PyDict [("success", PyBool true);
                 ("result",
                  PyDict [("length", PyInt length);
                          ("base_counts", int_dict [("A", count_A); ("T", count_T);
                                                    ("G", count_G); ("C", count_C);
                                                    ("N", count_N)]);
                          ("gc_content", py_round2 gc_content);
                          ("at_content", py_round2 (hundred_minus gc_content));
                          ("n_content", PyFloat (round2 n_content));
                          ("is_valid", PyBool is_valid);
                          ("invalid_characters",
                           PyList (map (fun c => PyStr (String c EmptyString))
                                       (match invalid_chars with
                                        | [] => []
                                        | _ => set_order rt invalid_chars
                                        end)));
                          ("is_supported_length", PyBool is_supported_length);
                          ("closest_supported_length", PyInt closest_length);
                          ("supported_lengths", PyList (map PyInt supported_lengths))])])).

Definition analyze_gene_region (gene_symbol organism : string) (flanking_size : Z)
    (output_types : option (list string)) : Cmd pyval :=
  try_except (
    ret (PyDict [("success", PyBool false);
                 ("error", PyStr "Gene coordinate lookup requires integration with Ensembl/UCSC API. Please provide chromosome coordinates directly using predict_genomic_interval.");
                 ("type", PyStr "NotImplementedError");
                 ("suggestion", PyStr "Use predict_genomic_interval with gene coordinates from Ensembl: https://rest.ensembl.org/")])).

(** [not d[key]] *)
Definition item_falsy (d : pyval) (key : string) : Cmd bool :=
  v <- lift (py_getitem d key) ;;
  ret (negb (truthy v)).

Definition compare_sequences (sequence1 sequence2 organism : string)
    (output_types : option (list string)) : Cmd pyval :=
  try_except (
    result1 <- predict_sequence sequence1 organism output_types None ;;
    result2 <- predict_sequence sequence2 organism output_types None ;;
    failed1 <- item_falsy result1 "success" ;;
    failed2 <- (if failed1 then ret true else item_falsy result2 "success") ;;
    if failed2
    then ret (PyDict [("success", PyBool false);
                      ("error", PyStr "Failed to predict one or both sequences");
                      ("result1", result1);
                      ("result2", result2)])
    else
      predictions1 <- lift (py_getitem result1 "result") ;;
      predictions2 <- lift (py_getitem result2 "result") ;;
      ret (PyDict [("success", PyBool true);
                   ("result",
                    PyDict [("sequence1", PyDict [("length", PyInt (len sequence1));
                                                  ("predictions", predictions1)]);
                            ("sequence2", PyDict [("length", PyInt (len sequence2));
                                                  ("predictions", predictions2)]);
                            ("comparison",
                             PyDict [("length_difference",
                                      PyInt (Z.abs (len sequence1 - len sequence2)));
                                     ("note", PyStr "Detailed differential analysis requires post-processing of prediction outputs")])])])).

(** One entry of [ranked_variants]. *)
Definition variant_info (scores : list pyval) (p : Z * pyval) : Cmd pyval :=
  let (i, variant) := p in
  c <- lift (py_getitem variant "chromosome") ;;
  pos <- lift (py_getitem variant "position") ;;
  r <- lift (py_getitem variant "ref") ;;
  a <- lift (py_getitem variant "alt") ;;
  ret (PyDict [("rank", PyInt (i + 1));
               ("variant", PyStr (variant_text (py_str rt c) (py_str rt pos)
                                               (py_str rt r) (py_str rt a)));
               ("chromosome", c);
               ("position", pos);
               ("ref", r);
               ("alt", a);
               ("scores", if (i <? Z.of_nat (List.length scores))%Z
                          then match list_item scores i with
                               | Some v => v
                               | None => PyNone
                               end
                          else PyNone);
               ("impact_category", PyStr "unknown")]).

Definition rank_variants_by_impact (variants interval : pyval)
    (organism ranking_metric : string) (max_workers : Z) : Cmd pyval :=
  try_except (
    score_result <- score_variants variants interval organism max_workers ;;
    failed <- item_falsy score_result "success" ;;
    if failed then ret score_result
    else
      items <- lift (py_iter variants) ;;
      results <- lift (py_getitem score_result "results") ;;
      scores <- lift (py_iter results) ;;
      ranked_variants <- mapM (variant_info scores) (enumerate items) ;;
      n <- lift (py_len variants) ;;
      text <- interval_text_from interval ;;
      ret (PyDict [("success", PyBool true);
                   ("result",
                    PyDict [("ranked_variants", PyList ranked_variants);
                            ("total_variants", PyInt n);
                            ("ranking_metric", PyStr ranking_metric);
                            ("interval", PyStr text);
                            ("note", PyStr "Variants are returned with scores. Detailed ranking requires score interpretation based on specific algorithms.")])])).

End Client.

(* ================================================================== *)
(** * The command line *)
(* ================================================================== *)

(** The twenty [choices] of the positional argument [command]. *)
Inductive Command : Type :=
| cmd_predict_sequence | cmd_predict_interval | cmd_predict_variant
| cmd_score_variant | cmd_get_metadata | cmd_predict_sequences
| cmd_predict_intervals | cmd_predict_variants | cmd_score_variants
| cmd_score_interval | cmd_score_intervals | cmd_score_ism_variants
| cmd_parse_variant_string | cmd_validate_genomic_data
| cmd_get_supported_outputs | cmd_calculate_genomic_overlap
| cmd_get_sequence_info | cmd_analyze_gene_region | cmd_compare_sequences
| cmd_rank_variants_by_impact.

Definition command_name (c : Command) : string :=
  match c with
  | cmd_predict_sequence => "predict_sequence"
  | cmd_predict_interval => "predict_interval"
  | cmd_predict_variant => "predict_variant"
  | cmd_score_variant => "score_variant"
  | cmd_get_metadata => "get_metadata"
  | cmd_predict_sequences => "predict_sequences"
  | cmd_predict_intervals => "predict_intervals"
  | cmd_predict_variants => "predict_variants"
  | cmd_score_variants => "score_variants"
  | cmd_score_interval => "score_interval"
  | cmd_score_intervals => "score_intervals"
  | cmd_score_ism_variants => "score_ism_variants"
  | cmd_parse_variant_string => "parse_variant_string"
  | cmd_validate_genomic_data => "validate_genomic_data"
  | cmd_get_supported_outputs => "get_supported_outputs"
  | cmd_calculate_genomic_overlap => "calculate_genomic_overlap"
  | cmd_get_sequence_info => "get_sequence_info"
  | cmd_analyze_gene_region => "analyze_gene_region"
  | cmd_compare_sequences => "compare_sequences"
  | cmd_rank_variants_by_impact => "rank_variants_by_impact"
  end.

(** The object [parser.parse_args()] returns: one attribute for each
    [add_argument], named by its destination.  An option given without a
    default is [None] when absent; [type=int] options hold integers,
    [nargs="*"] options hold lists of strings. *)
Module Args.

Record Namespace : Type := {
  command : Command;
  api_key : string;
  sequence : option string;
  chromosome : option string;
  start : option Z;
  end_ : option Z;
  position : option Z;
  ref : option string;
  alt : option string;
  interval_start : option Z;
  interval_end : option Z;
  organism : string;
  output_types : option (list string);
  ontology_terms : option (list string);
  sequences : option string;
  intervals : option string;
  variants : option string;
  interval : option string;
  max_workers : Z;
  ism_chromosome : option string;
  ism_start : option Z;
  ism_end : option Z;
  gene_symbol : option string;
  flanking_size : Z;
  sequence1 : option string;
  sequence2 : option string;
  ranking_metric : string
}.

Definition of_str (o : option string) : pyval :=
  match o with Some s => PyStr s | None => PyNone end.

Definition of_int (o : option Z) : pyval :=
  match o with Some z => PyInt z | None => PyNone end.

Definition of_strs (o : option (list string)) : pyval :=
  match o with Some l => PyList (map PyStr l) | None => PyNone end.

(** [vars(args)]: every attribute the namespace has. *)
Definition vars (ns : Namespace) : list (string * pyval) :=
  [("command", PyStr (command_name (command ns)));
   ("api_key", PyStr (api_key ns));
   ("sequence", of_str (sequence ns));
   ("chromosome", of_str (chromosome ns));
   ("start", of_int (start ns));
   ("end", of_int (end_ ns));
   ("position", of_int (position ns));
   ("ref", of_str (ref ns));
   ("alt", of_str (alt ns));
   ("interval_start", of_int (interval_start ns));
   ("interval_end", of_int (interval_end ns));
   ("organism", PyStr (organism ns));
   ("output_types", of_strs (output_types ns));
   ("ontology_terms", of_strs (ontology_terms ns));
   ("sequences", of_str (sequences ns));
   ("intervals", of_str (intervals ns));
   ("variants", of_str (variants ns));
   ("interval", of_str (interval ns));
   ("max_workers", PyInt (max_workers ns));
   ("ism_chromosome", of_str (ism_chromosome ns));
   ("ism_start", of_int (ism_start ns));
   ("ism_end", of_int (ism_end ns));
   ("gene_symbol", of_str (gene_symbol ns));
   ("flanking_size", PyInt (flanking_size ns));
   ("sequence1", of_str (sequence1 ns));
   ("sequence2", of_str (sequence2 ns));
   ("ranking_metric", PyStr (ranking_metric ns))].

(** [args.name]: reading an attribute no [add_argument] declared raises
    [AttributeError]. *)
Definition getattr (ns : Namespace) (name : string) : exn + pyval :=
  match dict_get name (vars ns) with
  | Some v => inr v
  | None => inl (AttributeError ("'Namespace' object has no attribute '" ++ name ++ "'"))
  end.

End Args.

(** What a run of [main] leaves behind: the value whose JSON text is
    printed, the exit status, and the events along the way. *)
Record outcome : Type := {
  printed : pyval;
  exit_status : Z;
  trace : list event
}.

Section Main.

Context (rt : PyRuntime) (L : Lib).

Local Abbreviation Cmd := (M L).

(** [not args.x] for a string option. *)
Definition missing (o : option string) : bool := negb (truthy (Args.of_str o)).

(** A string option known to be set. *)
Definition given (o : option string) : string :=
  match o with Some s => s | None => EmptyString end.

(** A value read with [getattr] where a method wants a string. *)
Definition expect_str (v : pyval) : exn + string :=
  match v with
  | PyStr s => inr s
  | _ => inl (TypeError ("expected str, got " ++ type_name v))
  end.

(** The chain of [if args.command == ...] inside [try]. *)
Definition dispatch (args : Args.Namespace) : Cmd pyval :=
  let organism := Args.organism args in
  let output_types := Args.output_types args in
  let ontology_terms := Args.ontology_terms args in
  let max_workers := Args.max_workers args in
  match Args.command args with
  | cmd_predict_sequence =>
      if missing (Args.sequence args)
      then raise (ValueError "--sequence is required for predict_sequence")
      else predict_sequence L (given (Args.sequence args)) organism output_types ontology_terms
  | cmd_predict_interval =>
      match Args.chromosome args, Args.start args, Args.end_ args with
      | Some (String _ _ as chromosome), Some start, Some end_ =>
          predict_interval L chromosome start end_ organism output_types ontology_terms
      | _, _, _ =>
          raise (ValueError "--chromosome, --start, and --end are required for predict_interval")
      end
  | cmd_predict_variant =>
      match Args.chromosome args, Args.position args, Args.ref args, Args.alt args,
            Args.interval_start args, Args.interval_end args with
      | Some chromosome, Some position, Some ref, Some alt, Some istart, Some iend =>
          predict_variant L chromosome position ref alt istart iend organism
                          output_types ontology_terms
      | _, _, _, _, _, _ =>
          raise (ValueError "All variant and interval parameters are required for predict_variant")
      end
  | cmd_score_variant =>
      match Args.chromosome args, Args.position args, Args.ref args, Args.alt args,
            Args.interval_start args, Args.interval_end args with
      | Some chromosome, Some position, Some ref, Some alt, Some istart, Some iend =>
          score_variant L chromosome position ref alt istart iend organism
      | _, _, _, _, _, _ =>
          raise (ValueError "All variant and interval parameters are required for score_variant")
      end
  | cmd_get_metadata => get_output_metadata L organism
  | cmd_predict_sequences =>
      if missing (Args.sequences args)
      then raise (ValueError "--sequences is required for predict_sequences")
      else
        sequences <- lift (json_loads rt (given (Args.sequences args))) ;;
        predict_sequences L sequences organism output_types ontology_terms max_workers
  | cmd_predict_intervals =>
      if missing (Args.intervals args)
      then raise (ValueError "--intervals is required for predict_intervals")
      else
        intervals <- lift (json_loads rt (given (Args.intervals args))) ;;
        predict_intervals L intervals organism output_types ontology_terms max_workers
  | cmd_predict_variants =>
      if missing (Args.variants args) || missing (Args.interval args)
      then raise (ValueError "--variants and --interval are required for predict_variants")
      else
        variants <- lift (json_loads rt (given (Args.variants args))) ;;
        interval <- lift (json_loads rt (given (Args.interval args))) ;;
        predict_variants rt L variants interval organism output_types ontology_terms
                         max_workers
  | cmd_score_variants =>
      if missing (Args.variants args) || missing (Args.interval args)
      then raise (ValueError "--variants and --interval are required for score_variants")
      else
        variants <- lift (json_loads rt (given (Args.variants args))) ;;
        interval <- lift (json_loads rt (given (Args.interval args))) ;;
        score_variants rt L variants interval organism max_workers
  | cmd_score_interval =>
      match Args.chromosome args, Args.start args, Args.end_ args with
      | Some (String _ _ as chromosome), Some start, Some end_ =>
          score_interval L chromosome start end_ organism
      | _, _, _ =>
          raise (ValueError "--chromosome, --start, and --end are required for score_interval")
      end
  | cmd_score_intervals =>
      if missing (Args.intervals args)
      then raise (ValueError "--intervals is required for score_intervals")
      else
        intervals <- lift (json_loads rt (given (Args.intervals args))) ;;
        score_intervals L intervals organism max_workers
  | cmd_score_ism_variants =>
      match Args.chromosome args, Args.start args, Args.end_ args,
            Args.ism_chromosome args, Args.ism_start args, Args.ism_end args with
      | Some (String _ _ as chromosome), Some start, Some end_,
        Some (String _ _ as ism_chromosome), Some ism_start, Some ism_end =>
          score_ism_variants L chromosome start end_ ism_chromosome ism_start ism_end
                             organism max_workers
      | _, _, _, _, _, _ =>
          raise (ValueError "All interval and ISM parameters are required for score_ism_variants")
      end
  | cmd_parse_variant_string =>
      variant_string <- lift (Args.getattr args "variant_string") ;;
      if negb (truthy variant_string)
      then raise (ValueError "--variant-string is required for parse_variant_string")
      else
        variant_format <- lift (Args.getattr args "variant_format") ;;
        s <- lift (expect_str variant_string) ;;
        f <- lift (expect_str (if truthy variant_format then variant_format
                               else PyStr "default")) ;;
        parse_variant_string L s f
  | cmd_validate_genomic_data =>
      data_type <- lift (Args.getattr args "data_type") ;;
      no_data <- (if negb (truthy data_type) then ret true
                  else d <- lift (Args.getattr args "data") ;; ret (negb (truthy d))) ;;
      if no_data
      then raise (ValueError "--data-type and --data are required for validate_genomic_data")
      else
        text <- lift (Args.getattr args "data") ;;
        text <- lift (expect_str text) ;;
        data <- lift (json_loads rt text) ;;
        data_type <- lift (expect_str data_type) ;;
        validate_genomic_data rt L data_type data
  | cmd_get_supported_outputs => get_supported_outputs L
  | cmd_calculate_genomic_overlap =>
      interval1 <- lift (Args.getattr args "interval1") ;;
      no_interval <- (if negb (truthy interval1) then ret true
                      else i2 <- lift (Args.getattr args "interval2") ;;
                           ret (negb (truthy i2))) ;;
      if no_interval
      then raise (ValueError "--interval1 and --interval2 are required for calculate_genomic_overlap")
      else
        text1 <- lift (expect_str interval1) ;;
        interval1 <- lift (json_loads rt text1) ;;
        text2 <- lift (Args.getattr args "interval2") ;;
        text2 <- lift (expect_str text2) ;;
        interval2 <- lift (json_loads rt text2) ;;
        calculate_genomic_overlap rt L interval1 interval2
  | cmd_get_sequence_info =>
      if missing (Args.sequence args)
      then raise (ValueError "--sequence is required for get_sequence_info")
      else get_sequence_info rt L (given (Args.sequence args))
  | cmd_analyze_gene_region =>
      if missing (Args.gene_symbol args)
      then raise (ValueError "--gene-symbol is required for analyze_gene_region")
      else analyze_gene_region L (given (Args.gene_symbol args)) organism
                               (Args.flanking_size args) output_types
  | cmd_compare_sequences =>
      if missing (Args.sequence1 args) || missing (Args.sequence2 args)
      then raise (ValueError "--sequence1 and --sequence2 are required for compare_sequences")
      else compare_sequences L (given (Args.sequence1 args)) (given (Args.sequence2 args))
                             organism output_types
  | cmd_rank_variants_by_impact =>
      if missing (Args.variants args) || missing (Args.interval args)
      then raise (ValueError "--variants and --interval are required for rank_variants_by_impact")
      else
        variants <- lift (json_loads rt (given (Args.variants args))) ;;
        interval <- lift (json_loads rt (given (Args.interval args))) ;;
        rank_variants_by_impact rt L variants interval organism
                                (Args.ranking_metric args) max_workers
  end.

(** [main], from the parsed arguments on. *)
Definition main (args : Args.Namespace) : outcome :=
  match init L (Args.api_key args) with
  | inl e => {| printed := error_envelope e; exit_status := 1; trace := [Raised e] |}
  | inr self =>
      match dispatch args self with
      | (inr result, _, evs) => {| printed := result; exit_status := 0; trace := evs |}
      | (inl e, _, evs) => {| printed := error_envelope e; exit_status := 1; trace := evs |}
      end
  end.

End Main.

(* ================================================================== *)
(** * A stand-in for the package, for concrete runs *)
(* ================================================================== *)

Module Sample.

(** Half-open intervals on one chromosome, as [alphagenome] documents
    them. *)
Definition new_interval (c s e : pyval) : exn + Interval :=
  match c, s, e with
  | PyStr c, PyInt s, PyInt e =>
      if (e <? s)%Z then inl (ValueError "end must not be less than start")
      else inr {| interval_chromosome := c; interval_start := s; interval_end := e |}
  | _, _, _ => inl (TypeError "Interval(chromosome: str, start: int, end: int)")
  end.

Definition overlaps (a b : Interval) : bool :=
  String.eqb (interval_chromosome a) (interval_chromosome b)
  && (interval_start a <? interval_end b)%Z
  && (interval_start b <? interval_end a)%Z.

Definition intersect (a b : Interval) : option Interval :=
  if overlaps a b
  then Some {| interval_chromosome := interval_chromosome a;
               interval_start := Z.max (interval_start a) (interval_start b);
               interval_end := Z.min (interval_end a) (interval_end b) |}
  else None.

Definition new_variant (c p r a : pyval) : exn + Variant :=
  match c, p, r, a with
  | PyStr c, PyInt p, PyStr r, PyStr a =>
      inr {| variant_chromosome := c; variant_position := p;
             reference_bases := r; alternate_bases := a;
             variant_name := EmptyString |}
  | _, _, _, _ => inl (TypeError "Variant(chromosome: str, position: int, ...)")
  end.

(** A parser that accepts nothing: what the wrapper does not parse
    itself is rejected. *)
Definition from_str (s : string) (f : VariantFormat) : exn + Variant :=
  inl (ValueError ("Invalid variant format: " ++ s)).

Definition output_type_names : list string :=
  ["ATAC"; "CAGE"; "CHIP_HISTONE"; "CHIP_TF"; "CONTACT_MAPS"; "DNASE"; "PROCAP";
   "RNA_SEQ"; "SPLICE_JUNCTIONS"; "SPLICE_SITES"; "SPLICE_SITE_USAGE"].

(** The client counts the calls it has served and answers each with an
    object carrying ATAC and DNase tracks, or a list of two of them. *)
Definition answer (c : client_call) : extval :=
  let one := ExtObj [("atac", AttrValue); ("dnase", AttrValue)] in
  match c with
  | call_predict_sequence _ _ _ _ | call_predict_interval _ _ _ _
  | call_predict_variant _ _ _ _ _ | call_output_metadata _ => one
  | _ => ExtList [one; one]
  end.

Definition lib : Lib := {|
  DnaClient := nat;
  create := fun _ => inr 0%nat;
  invoke := fun n c => (S n, inr (answer c));
  Interval_init := new_interval;
  Interval_overlaps := overlaps;
  Interval_intersect := intersect;
  Variant_init := new_variant;
  Variant_from_str := from_str;
  OutputType_hasattr := fun name => existsb (String.eqb name) output_type_names
|}.

Definition self : AlphaGenomeClient lib :=
  Build_AlphaGenomeClient lib (0%nat : DnaClient lib).

(** A client whose answers have a track that cannot be read. *)
Definition track_error : exn := Exn "RuntimeError" "track not loaded".

Definition faulty : Lib := {|
  DnaClient := nat;
  create := fun _ => inr 0%nat;
  invoke := fun n c => (S n, inr (ExtObj [("atac", AttrValue);
                                          ("cage", AttrRaises track_error)]));
  Interval_init := new_interval;
  Interval_overlaps := overlaps;
  Interval_intersect := intersect;
  Variant_init := new_variant;
  Variant_from_str := from_str;
  OutputType_hasattr := fun name => existsb (String.eqb name) output_type_names
|}.

Definition faulty_self : AlphaGenomeClient faulty :=
  Build_AlphaGenomeClient faulty (0%nat : DnaClient faulty).

(** A client that refuses every request with the words of the wrapper's
    own check. *)
Definition refusing : Lib := {|
  DnaClient := nat;
  create := fun _ => inr 0%nat;
  invoke := fun n c => (S n, inl (ValueError "Sequence must be a non-empty string"));
  Interval_init := new_interval;
  Interval_overlaps := overlaps;
  Interval_intersect := intersect;
  Variant_init := new_variant;
  Variant_from_str := from_str;
  OutputType_hasattr := fun name => existsb (String.eqb name) output_type_names
|}.

Definition refusing_self : AlphaGenomeClient refusing :=
  Build_AlphaGenomeClient refusing (0%nat : DnaClient refusing).

(** Two interpreters that differ in the order they iterate a set, and
    a third that agrees with the first on that order only. *)
Definition runtime : PyRuntime := {|
  set_order := fun l => l;
  set_order_elements := fun l => Permutation_refl l;
  repr_other := fun _ => "<object>";
  json_loads := fun s => inl (Exn "JSONDecodeError" "Expecting value: line 1 column 1 (char 0)")
|}.

Definition runtime' : PyRuntime := {|
  set_order := fun l => rev l;
  set_order_elements := fun l => Permutation_sym (Permutation_rev l);
  repr_other := fun _ => "<object>";
  json_loads := fun s => inl (Exn "JSONDecodeError" "Expecting value: line 1 column 1 (char 0)")
|}.

(** [alphagenome_client.py COMMAND --api-key KEY]: every other option
    at its default. *)
Definition args (c : Command) : Args.Namespace := {|
  Args.command := c;
  Args.api_key := "KEY";
  Args.sequence := None;
  Args.chromosome := None;
  Args.start := None;
  Args.end_ := None;
  Args.position := None;
  Args.ref := None;
  Args.alt := None;
  Args.interval_start := None;
  Args.interval_end := None;
  Args.organism := "human";
  Args.output_types := None;
  Args.ontology_terms := None;
  Args.sequences := None;
  Args.intervals := None;
  Args.variants := None;
  Args.interval := None;
  Args.max_workers := 5;
  Args.ism_chromosome := None;
  Args.ism_start := None;
  Args.ism_end := None;
  Args.gene_symbol := None;
  Args.flanking_size := 10000;
  Args.sequence1 := None;
  Args.sequence2 := None;
  Args.ranking_metric := "composite"
|}.

Definition runtime'' : PyRuntime := {|
  set_order := fun l => l;
  set_order_elements := fun l => Permutation_refl l;
  repr_other := fun _ => "?";
  json_loads := fun s => inr PyNone
|}.

End Sample.

(* ================================================================== *)
(** * The public operations as one function *)
(* ================================================================== *)

(** A call of a public method of [AlphaGenomeClient] with its
    arguments. *)
Inductive request : Type :=
| req_predict_sequence (sequence organism : string)
    (output_types ontology_terms : option (list string))
| req_predict_interval (chromosome : string) (start end_ : Z) (organism : string)
    (output_types ontology_terms : option (list string))
| req_predict_variant (chromosome : string) (position : Z) (ref alt : string)
    (interval_start interval_end : Z) (organism : string)
    (output_types ontology_terms : option (list string))
| req_score_variant (chromosome : string) (position : Z) (ref alt : string)
    (interval_start interval_end : Z) (organism : string)
| req_get_output_metadata (organism : string)
| req_predict_sequences (sequences : pyval) (organism : string)
    (output_types ontology_terms : option (list string)) (max_workers : Z)
| req_predict_intervals (intervals : pyval) (organism : string)
    (output_types ontology_terms : option (list string)) (max_workers : Z)
| req_predict_variants (variants interval : pyval) (organism : string)
    (output_types ontology_terms : option (list string)) (max_workers : Z)
| req_score_variants (variants interval : pyval) (organism : string) (max_workers : Z)
| req_score_interval (chromosome : string) (start end_ : Z) (organism : string)
| req_score_intervals (intervals : pyval) (organism : string) (max_workers : Z)
| req_score_ism_variants (chromosome : string) (start end_ : Z)
    (ism_chromosome : string) (ism_start ism_end : Z) (organism : string)
    (max_workers : Z)
| req_parse_variant_string (variant_string variant_format : string)
| req_validate_genomic_data (data_type : string) (data : pyval)
| req_get_supported_outputs
| req_calculate_genomic_overlap (interval1 interval2 : pyval)
| req_get_sequence_info (sequence : string)
| req_analyze_gene_region (gene_symbol organism : string) (flanking_size : Z)
    (output_types : option (list string))
| req_compare_sequences (sequence1 sequence2 organism : string)
    (output_types : option (list string))
| req_rank_variants_by_impact (variants interval : pyval)
    (organism ranking_metric : string) (max_workers : Z).

Definition perform (rt : PyRuntime) (L : Lib) (q : request) : M L pyval :=
  match q with
  | req_predict_sequence s o ots terms => predict_sequence L s o ots terms
  | req_predict_interval c s e o ots terms => predict_interval L c s e o ots terms
  | req_predict_variant c p r a s e o ots terms =>
      predict_variant L c p r a s e o ots terms
  | req_score_variant c p r a s e o => score_variant L c p r a s e o
  | req_get_output_metadata o => get_output_metadata L o
  | req_predict_sequences ss o ots terms w => predict_sequences L ss o ots terms w
  | req_predict_intervals is_ o ots terms w => predict_intervals L is_ o ots terms w
  | req_predict_variants vs i o ots terms w => predict_variants rt L vs i o ots terms w
  | req_score_variants vs i o w => score_variants rt L vs i o w
  | req_score_interval c s e o => score_interval L c s e o
  | req_score_intervals is_ o w => score_intervals L is_ o w
  | req_score_ism_variants c s e ic is_ ie o w =>
      score_ism_variants L c s e ic is_ ie o w
  | req_parse_variant_string vs vf => parse_variant_string L vs vf
  | req_validate_genomic_data dt d => validate_genomic_data rt L dt d
  | req_get_supported_outputs => get_supported_outputs L
  | req_calculate_genomic_overlap i1 i2 => calculate_genomic_overlap rt L i1 i2
  | req_get_sequence_info s => get_sequence_info rt L s
  | req_analyze_gene_region g o f ots => analyze_gene_region L g o f ots
  | req_compare_sequences s1 s2 o ots => compare_sequences L s1 s2 o ots
  | req_rank_variants_by_impact vs i o m w => rank_variants_by_impact rt L vs i o m w
  end.

(** The same request made for another organism. *)
Definition with_organism (o : string) (q : request) : request :=
  match q with
  | req_predict_sequence s _ ots terms => req_predict_sequence s o ots terms
  | req_predict_interval c s e _ ots terms => req_predict_interval c s e o ots terms
  | req_predict_variant c p r a s e _ ots terms =>
      req_predict_variant c p r a s e o ots terms
  | req_score_variant c p r a s e _ => req_score_variant c p r a s e o
  | req_get_output_metadata _ => req_get_output_metadata o
  | req_predict_sequences ss _ ots terms w => req_predict_sequences ss o ots terms w
  | req_predict_intervals is_ _ ots terms w => req_predict_intervals is_ o ots terms w
  | req_predict_variants vs i _ ots terms w => req_predict_variants vs i o ots terms w
  | req_score_variants vs i _ w => req_score_variants vs i o w
  | req_score_interval c s e _ => req_score_interval c s e o
  | req_score_intervals is_ _ w => req_score_intervals is_ o w
  | req_score_ism_variants c s e ic is_ ie _ w =>
      req_score_ism_variants c s e ic is_ ie o w
  | req_analyze_gene_region g _ f ots => req_analyze_gene_region g o f ots
  | req_compare_sequences s1 s2 _ ots => req_compare_sequences s1 s2 o ots
  | req_rank_variants_by_impact vs i _ m w => req_rank_variants_by_impact vs i o m w
  | _ => q
  end.

(** The three utilities of the statelessness claim. *)
Definition is_utility (q : request) : bool :=
  match q with
  | req_parse_variant_string _ _ | req_validate_genomic_data _ _
  | req_get_sequence_info _ => true
  | _ => false
  end.

Definition is_compare_sequences (q : request) : bool :=
  match q with
  | req_compare_sequences _ _ _ _ => true
  | _ => false
  end.

(** A dictionary with a boolean under ["success"]. *)
Definition has_success (v : pyval) : Prop :=
  exists kv b, v = PyDict kv /\ dict_get "success" kv = Some (PyBool b).

(** A dictionary with a boolean under ["success"] that is not the
    uniform envelope of any exception. *)
Definition own_answer (v : pyval) : Prop :=
  has_success v /\ forall e, v <> error_envelope e.

(** A dictionary that starts with ["success": True]. *)
Definition succeeded (v : pyval) : Prop :=
  exists rest, v = PyDict (("success", PyBool true) :: rest).

(** What [compare_sequences] returns when a prediction failed. *)
Definition comparison_failed (result1 result2 : pyval) : pyval :=
  PyDict [("success", PyBool false);
          ("error", PyStr "Failed to predict one or both sequences");
          ("result1", result1);
          ("result2", result2)].

(** The [Interval] object a dictionary stands for:
    [Interval(chromosome=d["chromosome"], start=d["start"], end=d["end"])]
    as a value, or the exception the expression raises. *)
Definition interval_object (L : Lib) (d : pyval) : exn + Interval :=
  match py_getitem d "chromosome" with
  | inl e => inl e
  | inr c =>
      match py_getitem d "start" with
      | inl e => inl e
      | inr s =>
          match py_getitem d "end" with
          | inl e => inl e
          | inr e => Interval_init L c s e
          end
      end
  end.

(** The attribute a branch of [main] reads although no [add_argument]
    declares it. *)
Definition undeclared_attribute (c : Command) : option string :=
  match c with
  | cmd_parse_variant_string => Some "variant_string"
  | cmd_validate_genomic_data => Some "data_type"
  | cmd_calculate_genomic_overlap => Some "interval1"
  | _ => None
  end.

(** ** Notions the statements use *)

(** The two errors raised by the checks of [predict_sequence]. *)
Definition empty_sequence_error : exn :=
  ValueError "Sequence must be a non-empty string".

Definition invalid_characters_error : exn :=
  ValueError "Sequence contains invalid characters. Only A, T, G, C, N are allowed".

(** The failure envelope with error message [msg], whatever its
    ["type"]. *)
Definition failure_with (msg : string) (v : pyval) : Prop :=
  exists type, v = error_envelope (Exn type msg).

(** The characters [predict_sequence] accepts. *)
Definition dna_alphabet : list ascii := ["A"; "T"; "G"; "C"; "N"]%char.

(** Every character of [s.upper()] is one of A, T, G, C, N. *)
Definition dna_only (s : string) : Prop :=
  forall c, In c (chars (upper s)) -> In c dna_alphabet.

(** [c], [p], [r] and [a] joined by the separator [sep]. *)
Definition notation (sep : ascii) (c p r a : string) : string :=
  c ++ String sep (p ++ String sep (r ++ String sep a)).

(** The bounds an interval may have: [1 <= start < end] for two
    rationals.  With NaN or an infinity on one side, the bounds for
    which neither [start >= end] nor [start < 1] is true: any [end] for
    a NaN [start]; a NaN or infinite [end] for a [start] of at least 1;
    a NaN [end] for an infinite [start]. *)
Definition bounds_accepted (s e : number) : Prop :=
  match s, e with
  | Finite p, Finite q => (p < q)%Q /\ (1 <= p)%Q
  | Finite p, NonFinite NaN => (1 <= p)%Q
  | Finite p, NonFinite PosInf => (1 <= p)%Q
  | Finite _, NonFinite NegInf => False
  | NonFinite NaN, _ => True
  | NonFinite PosInf, NonFinite NaN => True
  | NonFinite PosInf, _ => False
  | NonFinite NegInf, _ => False
  end.

(** The condition under which an interval is reported valid. *)
Definition interval_accepted (kv : list (string * pyval)) : Prop :=
  truthy (py_get kv "chromosome" (PyStr EmptyString)) = true
  /\ exists s e, as_number (py_get kv "start" PyNone) = Some s
                 /\ as_number (py_get kv "end" PyNone) = Some e
                 /\ bounds_accepted s e.

(** What [validate_genomic_data] returns around [validation_results]. *)
Definition validated (data_type : string) (res : list (string * pyval)) : pyval :=
  PyDict [("success", PyBool true);
          ("result", PyDict res);
          ("data_type", PyStr data_type)].

(** The error of reading [args.name] for an undeclared [name]. *)
Definition no_attribute (name : string) : exn :=
  AttributeError ("'Namespace' object has no attribute '" ++ name ++ "'").

(** The six methods that work on their arguments alone. *)
Definition is_local (q : request) : bool :=
  match q with
  | req_parse_variant_string _ _ | req_validate_genomic_data _ _
  | req_get_supported_outputs | req_calculate_genomic_overlap _ _
  | req_get_sequence_info _ | req_analyze_gene_region _ _ _ _ => true
  | _ => false
  end.

(** The number of client calls a method can make at most. *)
Definition call_budget (q : request) : nat :=
  if is_compare_sequences q then 2%nat else 1%nat.

(** The attributes the serializers look for. *)
Definition output_tracks : list string :=
  ["atac"; "cage"; "dnase"; "histone_marks"; "gene_expression"].

Definition variant_tracks : list string := ["reference"; "alternate"; "difference"].

(** The exception of the first read among [names] that raises on [v],
    if one does. *)
Fixpoint failing_read (names : list string) (v : extval) : option exn :=
  match names with
  | [] => None
  | name :: rest =>
      match read_attr name v with
      | inl e => Some e
      | inr _ => failing_read rest v
      end
  end.

(** What a serializer returns when its body raised [e]. *)
Definition serialization_error (prefix : string) (e : exn) : pyval :=
  PyDict [("error", PyStr (prefix ++ exn_msg e))].

(** The entry of a track that is there. *)
Definition track_entry (name text : string) (v : extval) : list (string * pyval) :=
  if has_attr name v then [(name, PyStr text)] else [].

Definition track_name (name : string) (v : extval) : list pyval :=
  if has_attr name v then [PyStr name] else [].

(** The entry [_serialize_scores] writes for the score at index [i]. *)
Definition score_entry (i : nat) : pyval :=
  PyDict [("scorer_index", PyInt (Z.of_nat i));
          ("data", PyStr "Score data available (AnnData format)")].

(** The characters an allele may have. *)
Definition allele_alphabet : list ascii := ["A"; "T"; "G"; "C"]%char.

(** Every character of [s.upper()] is one of A, T, G, C. *)
Definition alleles_only (s : string) : Prop :=
  forall c, In c (chars (upper s)) -> In c allele_alphabet.

(** The positions a variant may have: the numbers for which
    [position < 1] is not true, that is the rationals from 1 on, NaN and
    positive infinity. *)
Definition position_accepted (p : number) : Prop :=
  match p with
  | Finite q => (1 <= q)%Q
  | NonFinite NaN => True
  | NonFinite PosInf => True
  | NonFinite NegInf => False
  end.

(** The condition under which a variant is reported valid. *)
Definition variant_accepted (kv : list (string * pyval)) : Prop :=
  truthy (py_get kv "chromosome" (PyStr EmptyString)) = true
  /\ (exists p, as_number (py_get kv "position" PyNone) = Some p
                /\ position_accepted p)
  /\ exists r a, py_get kv "ref" (PyStr EmptyString) = PyStr r
                 /\ py_get kv "alt" (PyStr EmptyString) = PyStr a
                 /\ r <> EmptyString /\ a <> EmptyString
                 /\ alleles_only r /\ alleles_only a.

(** What [compare_sequences] returns when both predictions
    succeeded. *)
Definition comparison_done (sequence1 sequence2 : string) (predictions1 predictions2 : pyval)
  : pyval :=
  PyDict [("success", PyBool true);
          ("result",
           PyDict [("sequence1", PyDict [("length", PyInt (len sequence1));
                                         ("predictions", predictions1)]);
                   ("sequence2", PyDict [("length", PyInt (len sequence2));
                                         ("predictions", predictions2)]);
                   ("comparison",
                    PyDict [("length_difference",
                             PyInt (Z.abs (len sequence1 - len sequence2)));
                            ("note", PyStr "Detailed differential analysis requires post-processing of prediction outputs")])])].

(** [ranked] lists the variants [items] in their order: the entry at
    position [k] has rank [first + k + 1] and repeats the four fields of
    the variant at position [k]. *)
Definition ranked_in_order (first : Z) (items ranked : list pyval) : Prop :=
  List.length ranked = List.length items
  /\ forall k d, nth_error items k = Some d ->
       exists info c p r a,
         nth_error ranked k = Some (PyDict info)
         /\ dict_get "rank" info = Some (PyInt (first + Z.of_nat k + 1))
         /\ py_getitem d "chromosome" = inr c /\ dict_get "chromosome" info = Some c
         /\ py_getitem d "position" = inr p /\ dict_get "position" info = Some p
         /\ py_getitem d "ref" = inr r /\ dict_get "ref" info = Some r
         /\ py_getitem d "alt" = inr a /\ dict_get "alt" info = Some a
         /\ dict_get "impact_category" info = Some (PyStr "unknown").

(** What the result of [rank_variants_by_impact] satisfies when it has
    the shape of its own success dictionary. *)
Definition ranking_shown (variants out : pyval) : Prop :=
  forall res,
    out = PyDict [("success", PyBool true); ("result", PyDict res)] ->
    exists items ranked,
      py_iter variants = inr items
      /\ dict_get "ranked_variants" res = Some (PyList ranked)
      /\ dict_get "total_variants" res = Some (PyInt (Z.of_nat (List.length items)))
      /\ ranked_in_order 0 items ranked.

(** The [Variant] object a dictionary stands for:
    [Variant(chromosome=d["chromosome"], position=d["position"],
    reference_bases=d["ref"], alternate_bases=d["alt"])] as a value, or
    the exception the expression raises. *)
Definition variant_object (L : Lib) (d : pyval) : exn + Variant :=
  match py_getitem d "chromosome" with
  | inl e => inl e
  | inr c =>
      match py_getitem d "position" with
      | inl e => inl e
      | inr p =>
          match py_getitem d "ref" with
          | inl e => inl e
          | inr r =>
              match py_getitem d "alt" with
              | inl e => inl e
              | inr a => Variant_init L c p r a
              end
          end
      end
  end.

(** The [requested_outputs] argument of a call, for the calls that have
    one. *)
Definition call_outputs (c : client_call) : option (list OutputType) :=
  match c with
  | call_predict_sequence _ _ r _ => r
  | call_predict_interval _ _ r _ => r
  | call_predict_variant _ _ _ r _ => r
  | call_predict_sequences _ _ r _ _ => r
  | call_predict_intervals _ _ r _ _ => r
  | call_predict_variants _ _ _ r _ _ => r
  | _ => None
  end.

(** The [interval_scorers] argument of a call, for the calls that have
    one. *)
Definition call_scorers (c : client_call) : option (list string) :=
  match c with
  | call_score_interval _ s _ => Some s
  | call_score_intervals _ s _ _ => Some s
  | _ => None
  end.

(** A call asks only for output types the package has, and for the
    default scorers. *)
Definition plain_call (L : Lib) (c : client_call) : Prop :=
  (forall ots, call_outputs c = Some ots ->
     Forall (fun o => OutputType_hasattr L o = true) ots)
  /\ (forall scorers, call_scorers c = Some scorers -> scorers = []).

(** ** Properties of computations *)

Section Properties.

Context {L : Lib}.

(** [m] leaves with an exception exactly when it logged that exception,
    and otherwise logged none and returns a value satisfying [P]. *)
Definition logged {A} (P : A -> Prop) (m : M L A) : Prop :=
  forall self,
    match m self with
    | (inl e, _, evs) => raised_of evs = [e]
    | (inr a, _, evs) => raised_of evs = [] /\ P a
    end.

(** [m] never leaves with an exception: it returns a dictionary with a
    boolean ["success"], which is the envelope of the one exception
    raised in its body if there was one, and no envelope otherwise. *)
Definition enveloped (m : M L pyval) : Prop :=
  forall self,
    match m self with
    | (inl _, _, _) => False
    | (inr v, _, evs) =>
        (raised_of evs = [] /\ own_answer v)
        \/ (exists e, raised_of evs = [e] /\ v = error_envelope e)
    end.

(** Unless an exception was raised in its body, [m] reports success. *)
Definition succeeds (m : M L pyval) : Prop :=
  forall self,
    match m self with
    | (inl _, _, _) => True
    | (inr v, _, evs) => raised_of evs = [] -> succeeded v
    end.

(** Every call [m] makes is made for [Organism.HOMO_SAPIENS]. *)
Definition human {A} (m : M L A) : Prop :=
  forall self,
    Forall (fun c => call_organism c = HOMO_SAPIENS) (calls_of (events_of (m self))).

(** [m] neither reads nor writes [self] and makes no call. *)
Definition pure_cmd {A} (m : M L A) : Prop :=
  exists r evs, calls_of evs = [] /\ forall self, m self = (r, self, evs).

(** [m] makes no call. *)
Definition quiet {A} (m : M L A) : Prop :=
  forall self, calls_of (events_of (m self)) = [].

(** [m] makes at most [n] calls. *)
Definition calls_at_most {A} (n : nat) (m : M L A) : Prop :=
  forall self, (List.length (calls_of (events_of (m self))) <= n)%nat.

(** What [m] returns, when it returns, satisfies [P]. *)
Definition yields {A} (P : A -> Prop) (m : M L A) : Prop :=
  forall self,
    match result_of (m self) with
    | inr a => P a
    | inl _ => True
    end.

(** An exception that leaves [m] is among those it logged. *)
Definition raise_traced {A} (m : M L A) : Prop :=
  forall self,
    match m self with
    | (inl e, _, evs) => In e (raised_of evs)
    | (inr _, _, _) => True
    end.

(** When [m] leaves with an exception, it has made no call. *)
Definition fails_early {A} (m : M L A) : Prop :=
  forall self,
    match result_of (m self) with
    | inl _ => calls_of (events_of (m self)) = []
    | inr _ => True
    end.

(** Every call [m] makes satisfies [P]. *)
Definition calls_all {A} (P : client_call -> Prop) (m : M L A) : Prop :=
  forall self, Forall P (calls_of (events_of (m self))).

(** [m] changes the object only by calling the client. *)
Definition steady {A} (m : M L A) : Prop :=
  forall self, calls_of (events_of (m self)) = [] -> self_of (m self) = self.

End Properties.

(* ================================================================== *)
(** * Strings, sets and lists: basic facts *)
(* ================================================================== *)

Lemma mem_char_In (c : ascii) (l : list ascii) : mem_char c l = true <-> In c l.
Proof.
  induction l as [|d l IH]; simpl.
  - split; [discriminate | tauto].
  - rewrite orb_true_iff, IH. split.
    + intros [H|H]; [left; symmetry; now apply Ascii.eqb_eq | now right].
    + intros [H|H]; [left; apply Ascii.eqb_eq; now symmetry | now right].
Qed.

Lemma In_dedup (c : ascii) (l : list ascii) : In c (dedup l) <-> In c l.
Proof.
  induction l as [|d l IH]; simpl; [tauto|].
  rewrite filter_In, IH. split.
  - intros [H|[H _]]; tauto.
  - intros [H|H]; [now left|].
    destruct (Ascii.eqb_spec d c) as [->|Hne]; [now left|].
    right. split; [assumption|].
    destruct (Ascii.eqb_spec d c); [contradiction|reflexivity].
Qed.

(** [set(s).issubset(set(t))] says that every character of [s] occurs
    in [t]. *)
Lemma issubset_spec (s t : string) :
  issubset (set_of s) (set_of t) = true
  <-> forall c, In c (chars s) -> In c (chars t).
Proof.
  unfold issubset, set_of. rewrite forallb_forall. split.
  - intros H c Hc. apply In_dedup, mem_char_In, H, In_dedup, Hc.
  - intros H c Hc. apply mem_char_In, In_dedup, H, In_dedup, Hc.
Qed.

Lemma set_diff_nil (s t : string) :
  set_diff (set_of s) (set_of t) = [] <-> forall c, In c (chars s) -> In c (chars t).
Proof.
  unfold set_diff, set_of. split.
  - intros H c Hc.
    destruct (mem_char c (dedup (chars t))) eqn:E.
    + now apply In_dedup, mem_char_In.
    + assert (Hin : In c (filter (fun c => negb (mem_char c (dedup (chars t))))
                                 (dedup (chars s)))).
      { apply filter_In. split; [now apply In_dedup | now rewrite E]. }
      rewrite H in Hin. destruct Hin.
  - intros H.
    destruct (filter _ _) as [|c r] eqn:E; [reflexivity|].
    assert (Hin : In c (c :: r)) by now left.
    rewrite <- E in Hin. apply filter_In in Hin as [Hc Hn].
    apply In_dedup, H, In_dedup, mem_char_In in Hc.
    rewrite Hc in Hn. discriminate.
Qed.

Lemma forallb_false_exists {A} (f : A -> bool) (l : list A) :
  forallb f l = false -> exists x, In x l /\ f x = false.
Proof.
  induction l as [|x l IH]; simpl; [discriminate|].
  destruct (f x) eqn:E; simpl.
  - intros H. destruct (IH H) as [y [Hy Hf]]. exists y. auto.
  - intros _. exists x. auto.
Qed.

Lemma truthy_str (s : string) : truthy (PyStr s) = true <-> s <> EmptyString.
Proof.
  simpl. destruct s; simpl; split; intro H; try reflexivity; try discriminate.
  now contradiction H.
Qed.

Lemma organism_enum_of_human (organism : string) :
  organism_enum_of organism = HOMO_SAPIENS.
Proof. unfold organism_enum_of. now destruct (existsb _ _). Qed.

(* ================================================================== *)
(** * Rules for the three properties of computations *)
(* ================================================================== *)

Lemma raised_of_app (a b : list event) :
  raised_of (a ++ b)%list = (raised_of a ++ raised_of b)%list.
Proof.
  induction a as [|[c|e|e] a IH]; simpl;
    [reflexivity | assumption | now rewrite IH | assumption].
Qed.

Lemma calls_of_app (a b : list event) :
  calls_of (a ++ b)%list = (calls_of a ++ calls_of b)%list.
Proof.
  induction a as [|[c|e|e] a IH]; simpl;
    [reflexivity | now rewrite IH | assumption | assumption].
Qed.

Lemma absorbed_of_app (a b : list event) :
  absorbed_of (a ++ b)%list = (absorbed_of a ++ absorbed_of b)%list.
Proof.
  induction a as [|[c|e|e] a IH]; simpl;
    [reflexivity | assumption | assumption | now rewrite IH].
Qed.

Lemma raised_of_absorbing {A} (body : exn + A) : raised_of (absorbing body) = [].
Proof. now destruct body. Qed.

Lemma calls_of_absorbing {A} (body : exn + A) : calls_of (absorbing body) = [].
Proof. now destruct body. Qed.

Section Rules.

Context {L : Lib}.

Implicit Types self : AlphaGenomeClient L.

Lemma bind_inr {A B} (m : M L A) (k : A -> M L B) self a self1 evs :
  m self = (inr a, self1, evs) ->
  bind m k self = (let '(r, self2, evs') := k a self1 in (r, self2, (evs ++ evs')%list)).
Proof. intros H. unfold bind. rewrite H. now destruct (k a self1) as [[r s2] evs']. Qed.

Lemma bind_inl {A B} (m : M L A) (k : A -> M L B) self e self1 evs :
  m self = (inl e, self1, evs) -> bind m k self = (inl e, self1, evs).
Proof. intros H. unfold bind. now rewrite H. Qed.

Lemma lift_inr {A} (a : A) : lift (L:=L) (inr a) = ret a.
Proof. reflexivity. Qed.

Lemma lift_inl {A} (e : exn) : lift (L:=L) (A:=A) (inl e) = raise e.
Proof. reflexivity. Qed.

Lemma bind_ret {A B} (a : A) (k : A -> M L B) self : bind (ret a) k self = k a self.
Proof. unfold bind, ret. now destruct (k a self) as [[r s] evs]. Qed.

Lemma bind_raise {A B} (e : exn) (k : A -> M L B) self :
  bind (raise e) k self = (inl e, self, [Raised e]).
Proof. reflexivity. Qed.

Lemma bind_assoc {A B C} (m : M L A) (k : A -> M L B) (h : B -> M L C) self :
  bind (bind m k) h self = bind m (fun a => bind (k a) h) self.
Proof.
  unfold bind. destruct (m self) as [[[e|a] self1] evs]; [reflexivity|].
  destruct (k a self1) as [[[e|b] self2] evs']; [reflexivity|].
  destruct (h b self2) as [[r self3] evs'']. now rewrite app_assoc.
Qed.

(** *** [logged] *)

Lemma logged_ret {A} (P : A -> Prop) (a : A) : P a -> logged (L:=L) P (ret a).
Proof. intros H self. simpl. now split. Qed.

Lemma logged_raise {A} (P : A -> Prop) (e : exn) : logged (L:=L) P (raise e).
Proof. intros self. reflexivity. Qed.

Lemma logged_lift {A} (r : exn + A) : logged (L:=L) (fun _ => True) (lift r).
Proof. destruct r; [apply logged_raise | now apply logged_ret]. Qed.

Lemma logged_call (c : client_call) : logged (L:=L) (fun _ => True) (call_client c).
Proof.
  intros self. unfold call_client.
  destruct (invoke L (client self) c) as [cl [e|v]]; simpl; auto.
Qed.

Lemma logged_serializing {A} (body : exn + A) :
  logged (L:=L) (fun _ => True) (serializing body).
Proof. intros self. unfold serializing, absorbing. now destruct body. Qed.

Lemma logged_bind {A B} (Q : A -> Prop) (P : B -> Prop) (m : M L A) (k : A -> M L B) :
  logged Q m -> (forall a, Q a -> logged P (k a)) -> logged P (bind m k).
Proof.
  intros Hm Hk self. unfold bind. specialize (Hm self).
  destruct (m self) as [[[e|a] self1] evs]; [assumption|].
  destruct Hm as [Hevs Ha]. specialize (Hk a Ha self1).
  destruct (k a self1) as [[[e|b] self2] evs'];
    rewrite raised_of_app, Hevs; simpl; assumption.
Qed.

Lemma logged_mapM {A B} (f : A -> M L B) (l : list A) :
  (forall x, logged (fun _ => True) (f x)) -> logged (fun _ => True) (mapM L f l).
Proof.
  intros Hf. induction l as [|x l IH]; simpl.
  - now apply logged_ret.
  - eapply logged_bind; [apply Hf|]. intros y _.
    eapply logged_bind; [apply IH|]. intros ys _. now apply logged_ret.
Qed.

(** The handler turns a logged body into an enveloped method. *)
Lemma enveloped_try_except (body : M L pyval) :
  logged own_answer body -> enveloped (try_except L body).
Proof.
  intros Hb self. unfold try_except. specialize (Hb self).
  destruct (body self) as [[[e|v] self1] evs].
  - right. now exists e.
  - left. assumption.
Qed.

(** *** [human] *)

Lemma human_ret {A} (a : A) : human (L:=L) (ret a).
Proof. intros self. constructor. Qed.

Lemma human_raise {A} (e : exn) : human (L:=L) (raise (A:=A) e).
Proof. intros self. constructor. Qed.

Lemma human_lift {A} (r : exn + A) : human (L:=L) (lift r).
Proof. destruct r; [apply human_raise | apply human_ret]. Qed.

Lemma human_call (c : client_call) :
  call_organism c = HOMO_SAPIENS -> human (L:=L) (call_client c).
Proof.
  intros H self. unfold call_client, events_of.
  destruct (invoke L (client self) c) as [cl [e|v]]; simpl; now repeat constructor.
Qed.

Lemma human_serializing {A} (body : exn + A) : human (L:=L) (serializing body).
Proof. intros self. unfold serializing, absorbing, events_of. destruct body; constructor. Qed.

Lemma human_bind {A B} (m : M L A) (k : A -> M L B) :
  human m -> (forall a, human (k a)) -> human (bind m k).
Proof.
  intros Hm Hk self. unfold bind, events_of. specialize (Hm self). unfold events_of in Hm.
  destruct (m self) as [[[e|a] self1] evs]; simpl in *; [assumption|].
  specialize (Hk a self1). unfold events_of in Hk.
  destruct (k a self1) as [[r self2] evs']; simpl in *.
  rewrite calls_of_app. now apply Forall_app.
Qed.

Lemma human_mapM {A B} (f : A -> M L B) (l : list A) :
  (forall x, human (f x)) -> human (mapM L f l).
Proof.
  intros Hf. induction l as [|x l IH]; simpl; [apply human_ret|].
  apply human_bind; [apply Hf|]. intros y.
  apply human_bind; [apply IH|]. intros ys. apply human_ret.
Qed.

Lemma human_try_except (body : M L pyval) : human body -> human (try_except L body).
Proof.
  intros Hb self. specialize (Hb self). unfold try_except, events_of in *.
  destruct (body self) as [[[e|v] self1] evs]; assumption.
Qed.

(** *** [pure_cmd] *)

Lemma pure_ret {A} (a : A) : pure_cmd (L:=L) (ret a).
Proof. now exists (inr a), []. Qed.

Lemma pure_raise {A} (e : exn) : pure_cmd (L:=L) (raise (A:=A) e).
Proof. now exists (inl e), [Raised e]. Qed.

Lemma pure_lift {A} (r : exn + A) : pure_cmd (L:=L) (lift r).
Proof. destruct r; [apply pure_raise | apply pure_ret]. Qed.

Lemma pure_serializing {A} (body : exn + A) : pure_cmd (L:=L) (serializing body).
Proof.
  exists (inr tt), (absorbing body).
  split; [now destruct body | reflexivity].
Qed.

Lemma pure_bind {A B} (m : M L A) (k : A -> M L B) :
  pure_cmd m -> (forall a, pure_cmd (k a)) -> pure_cmd (bind m k).
Proof.
  intros [[e|a] [evs [Hc Hm]]] Hk.
  - exists (inl e), evs. split; [assumption|]. intros self. unfold bind. now rewrite Hm.
  - destruct (Hk a) as [r [evs' [Hc' Hka]]].
    exists r, (evs ++ evs')%list. split.
    + now rewrite calls_of_app, Hc, Hc'.
    + intros self. unfold bind. now rewrite Hm, Hka.
Qed.

Lemma pure_try_except (body : M L pyval) : pure_cmd body -> pure_cmd (try_except L body).
Proof.
  intros [[e|v] [evs [Hc Hb]]].
  - exists (inr (error_envelope e)), evs. split; [assumption|].
    intros self. unfold try_except. now rewrite Hb.
  - exists (inr v), evs. split; [assumption|].
    intros self. unfold try_except. now rewrite Hb.
Qed.

End Rules.

(* ================================================================== *)
(** * Every method ends in its handler *)
(* ================================================================== *)

Lemma logged_bind_any {L A B} (P : B -> Prop) (m : M L A) (k : A -> M L B) :
  logged (fun _ => True) m -> (forall a, logged P (k a)) -> logged P (bind m k).
Proof. intros Hm Hk. eapply logged_bind; [exact Hm|]. intros a _. apply Hk. Qed.

Lemma has_success_true (rest : list (string * pyval)) :
  has_success (PyDict (("success", PyBool true) :: rest)).
Proof. now exists (("success", PyBool true) :: rest), true. Qed.

Lemma has_success_false (rest : list (string * pyval)) :
  has_success (PyDict (("success", PyBool false) :: rest)).
Proof. now exists (("success", PyBool false) :: rest), false. Qed.

Lemma has_success_envelope (e : exn) : has_success (error_envelope e).
Proof. apply has_success_false. Qed.

Lemma own_answer_true (rest : list (string * pyval)) :
  own_answer (PyDict (("success", PyBool true) :: rest)).
Proof. split; [apply has_success_true | intros e H; discriminate H]. Qed.

Create HintDb cmds.

#[local] Hint Unfold interval_from variant_from interval_text_from item_falsy
  overlap_entries validate_sequence validate_interval validate_variant
  parse_manual variant_info : cmds.

Ltac logged_step :=
  match goal with
  | |- logged _ (bind _ _) => apply logged_bind_any; [ | intros ? ]
  | |- logged (fun _ => True) (ret _) => apply logged_ret; exact I
  | |- logged succeeded (ret _) => apply logged_ret; eexists; reflexivity
  | |- logged own_answer (ret _) =>
      apply logged_ret;
      first [ apply own_answer_true
            | split; [apply has_success_false | intros ? H; discriminate H] ]
  | |- logged _ (raise _) => apply logged_raise
  | |- logged _ (lift _) => apply logged_lift
  | |- logged _ (call_client _) => apply logged_call
  | |- logged _ (serializing _) => apply logged_serializing
  | |- logged _ (mapM _ _ _) => apply logged_mapM; intros ?
  | |- logged _ (if ?b then _ else _) => destruct b
  | |- logged _ (match ?x with _ => _ end) => destruct x
  | |- logged _ (let (_, _) := ?x in _) => destruct x
  | |- logged _ _ => progress cbv zeta
  | |- logged _ _ => progress autounfold with cmds
  end.

Ltac logged_auto := repeat logged_step.

Ltac enveloped_auto := apply enveloped_try_except; logged_auto.

Section Handlers.

Context (rt : PyRuntime) (L : Lib).

Lemma predict_sequence_enveloped s o ots terms :
  enveloped (predict_sequence L s o ots terms).
Proof. enveloped_auto. Qed.

Lemma predict_interval_enveloped c s e o ots terms :
  enveloped (predict_interval L c s e o ots terms).
Proof. enveloped_auto. Qed.

Lemma predict_variant_enveloped c p r a s e o ots terms :
  enveloped (predict_variant L c p r a s e o ots terms).
Proof. enveloped_auto. Qed.

Lemma score_variant_enveloped c p r a s e o :
  enveloped (score_variant L c p r a s e o).
Proof. enveloped_auto. Qed.

Lemma get_output_metadata_enveloped o : enveloped (get_output_metadata L o).
Proof. enveloped_auto. Qed.

Lemma predict_sequences_enveloped ss o ots terms w :
  enveloped (predict_sequences L ss o ots terms w).
Proof. enveloped_auto. Qed.

Lemma predict_intervals_enveloped is_ o ots terms w :
  enveloped (predict_intervals L is_ o ots terms w).
Proof. enveloped_auto. Qed.

Lemma predict_variants_enveloped vs i o ots terms w :
  enveloped (predict_variants rt L vs i o ots terms w).
Proof. enveloped_auto. Qed.

Lemma score_variants_enveloped vs i o w : enveloped (score_variants rt L vs i o w).
Proof. enveloped_auto. Qed.

Lemma score_interval_enveloped c s e o : enveloped (score_interval L c s e o).
Proof. enveloped_auto. Qed.

Lemma score_intervals_enveloped is_ o w : enveloped (score_intervals L is_ o w).
Proof. enveloped_auto. Qed.

Lemma score_ism_variants_enveloped c s e ic is_ ie o w :
  enveloped (score_ism_variants L c s e ic is_ ie o w).
Proof. enveloped_auto. Qed.

Lemma parse_manual_logged sep vs vf :
  logged (fun o => forall d, o = Some d -> own_answer d) (parse_manual L sep vs vf).
Proof.
  unfold parse_manual.
  destruct (split sep vs) as [|c [|p [|r [|a [|x l]]]]];
    try (apply logged_ret; discriminate).
  apply logged_bind_any; [apply logged_lift|]. intros n.
  apply logged_ret. intros d [= <-]. apply own_answer_true.
Qed.

Lemma parse_variant_string_enveloped vs vf : enveloped (parse_variant_string L vs vf).
Proof.
  apply enveloped_try_except.
  eapply logged_bind with (Q := fun o => forall d, o = Some d -> own_answer d).
  - destruct (contains "-" vs); [apply parse_manual_logged|].
    destruct (contains ":" vs); [apply parse_manual_logged|].
    apply logged_ret. discriminate.
  - intros [d|] Hd.
    + apply logged_ret. now apply Hd.
    + logged_auto.
Qed.

Lemma validate_genomic_data_enveloped dt d :
  enveloped (validate_genomic_data rt L dt d).
Proof. enveloped_auto. Qed.

Lemma get_supported_outputs_enveloped : enveloped (get_supported_outputs L).
Proof. enveloped_auto. Qed.

Lemma calculate_genomic_overlap_enveloped i1 i2 :
  enveloped (calculate_genomic_overlap rt L i1 i2).
Proof. enveloped_auto. Qed.

Lemma get_sequence_info_enveloped s : enveloped (get_sequence_info rt L s).
Proof. enveloped_auto. Qed.

Lemma analyze_gene_region_enveloped g o f ots :
  enveloped (analyze_gene_region L g o f ots).
Proof. enveloped_auto. Qed.

End Handlers.

(* ================================================================== *)
(** * [predict_sequence], case by case *)
(* ================================================================== *)

Lemma issubset_dna (s : string) :
  issubset (set_of (upper s)) valid_chars = true <-> dna_only s.
Proof. unfold valid_chars. rewrite issubset_spec. reflexivity. Qed.

Lemma issubset_not_dna (s : string) :
  issubset (set_of (upper s)) valid_chars = false
  <-> exists c, In c (chars (upper s)) /\ ~ In c dna_alphabet.
Proof.
  split.
  - intros H. unfold issubset in H.
    apply forallb_false_exists in H as [c [Hc Hn]].
    exists c. split; [exact (proj1 (In_dedup _ _) Hc)|].
    intros Hin. apply (mem_char_In c dna_alphabet) in Hin.
    change valid_chars with dna_alphabet in Hn. now rewrite Hin in Hn.
  - intros [c [Hc Hn]].
    destruct (issubset (set_of (upper s)) valid_chars) eqn:E; [|reflexivity].
    apply issubset_dna in E. now apply E in Hc.
Qed.

Section PredictSequence.

Context (L : Lib).

(** The three ways a run of [predict_sequence] goes. *)
Lemma predict_sequence_run s o ots terms (self : AlphaGenomeClient L) :
  predict_sequence L s o ots terms self =
  if negb (truthy (PyStr s))
  then (inr (error_envelope empty_sequence_error), self, [Raised empty_sequence_error])
  else if negb (issubset (set_of (upper s)) valid_chars)
       then (inr (error_envelope invalid_characters_error), self,
             [Raised invalid_characters_error])
       else
         let c := call_predict_sequence (upper s) HOMO_SAPIENS
                    (requested_outputs_of L ots) terms in
         match invoke L (client self) c with
         | (cl, inl e) => (inr (error_envelope e), {| client := cl |}, [Call c; Raised e])
         | (cl, inr v) =>
             (inr (PyDict [("success", PyBool true);
                           ("result", _serialize_output v);
                           ("sequence_length", PyInt (len s))]),
              {| client := cl |}, Call c :: absorbing (serialize_output_body v))
         end.
Proof.
  unfold predict_sequence, try_except, bind, raise, ret, call_client, serializing.
  rewrite organism_enum_of_human.
  destruct (negb (truthy (PyStr s))); [reflexivity|].
  destruct (negb (issubset (set_of (upper s)) valid_chars)); [reflexivity|].
  cbv zeta.
  destruct (invoke L (client self) _) as [cl [e|v]]; [reflexivity|].
  simpl. now rewrite app_nil_r.
Qed.


(** Either the envelope of the one exception raised, or a success
    dictionary carrying a ["result"]. *)
Lemma predict_sequence_cases s o ots terms (self : AlphaGenomeClient L) :
  exists self' evs,
    (exists e, predict_sequence L s o ots terms self = (inr (error_envelope e), self', evs)
               /\ raised_of evs = [e])
    \/ (exists x n,
          predict_sequence L s o ots terms self
          = (inr (PyDict [("success", PyBool true); ("result", x);
                          ("sequence_length", n)]), self', evs)
          /\ raised_of evs = []).
Proof.
  rewrite predict_sequence_run.
  destruct (negb (truthy (PyStr s))).
  { do 2 eexists. left. eexists. split; reflexivity. }
  destruct (negb (issubset (set_of (upper s)) valid_chars)).
  { do 2 eexists. left. eexists. split; reflexivity. }
  cbv zeta. destruct (invoke L (client self) _) as [cl [e|v]].
  - do 2 eexists. left. eexists. split; reflexivity.
  - do 2 eexists. right. do 2 eexists. split; [reflexivity|].
    simpl. apply raised_of_absorbing.
Qed.

(** [compare_sequences]: success without any exception, or the
    dedicated failure dictionary around the envelopes of the nested
    predictions. *)
Lemma compare_sequences_outcome s1 s2 o ots (self : AlphaGenomeClient L) :
  let r := compare_sequences L s1 s2 o ots self in
  (raised_of (events_of r) = []
   /\ exists rest, result_of r = inr (PyDict (("success", PyBool true) :: rest)))
  \/ (exists r1 r2,
        result_of r = inr (comparison_failed r1 r2)
        /\ forall e, In e (raised_of (events_of r)) ->
                     r1 = error_envelope e \/ r2 = error_envelope e).
Proof.
  intros r. subst r. unfold compare_sequences, try_except.
  destruct (predict_sequence_cases s1 o ots None self) as [self1 [evs1 H1]].
  destruct (predict_sequence_cases s2 o ots None self1) as [self2 [evs2 H2]].
  destruct H1 as [[e1 [H1 Hr1]] | [x1 [n1 [H1 Hr1]]]];
    destruct H2 as [[e2 [H2 Hr2]] | [x2 [n2 [H2 Hr2]]]];
    rewrite (bind_inr _ _ _ _ _ _ H1), (bind_inr _ _ _ _ _ _ H2);
    cbn; rewrite ?app_nil_r, ?raised_of_app, ?Hr1, ?Hr2; cbn.
  - right. do 2 eexists. split; [reflexivity|].
    intros e [<-|[<-|[]]]; auto.
  - right. do 2 eexists. split; [reflexivity|].
    intros e [<-|[]]; auto.
  - right. do 2 eexists. split; [reflexivity|].
    intros e [<-|[]]; auto.
  - left. split; [reflexivity|]. eexists. reflexivity.
Qed.

End PredictSequence.

(* ================================================================== *)
(** * A method that calls another method *)
(* ================================================================== *)

Section Nested.

Context (rt : PyRuntime) (L : Lib).

(** A body that starts with an enveloped method, passes its envelope on
    and otherwise continues with a logged computation. *)
Lemma enveloped_bind_nested (m : M L pyval) (k : pyval -> M L pyval) :
  enveloped m ->
  (forall e self, k (error_envelope e) self = (inr (error_envelope e), self, [])) ->
  (forall v, own_answer v -> logged own_answer (k v)) ->
  enveloped (try_except L (bind m k)).
Proof.
  intros Hm Henv Hk self. unfold try_except. specialize (Hm self).
  destruct (m self) as [[[e|v] self1] evs] eqn:Hrun; [contradiction|].
  rewrite (bind_inr _ _ _ _ _ _ Hrun).
  destruct Hm as [[Hr Hv] | [e [Hr ->]]].
  - specialize (Hk v Hv self1).
    destruct (k v self1) as [[[e|w] self2] evs'].
    + right. exists e. rewrite raised_of_app, Hr, Hk. auto.
    + left. rewrite raised_of_app, Hr. destruct Hk as [-> Hw]. auto.
  - rewrite Henv. right. exists e. rewrite app_nil_r. auto.
Qed.

Lemma rank_variants_by_impact_enveloped vs i o metric w :
  enveloped (rank_variants_by_impact rt L vs i o metric w).
Proof.
  unfold rank_variants_by_impact. apply enveloped_bind_nested.
  - apply score_variants_enveloped.
  - reflexivity.
  - intros v Hv. logged_auto; try (apply logged_ret; assumption).
Qed.

Lemma compare_sequences_has_success s1 s2 o ots (self : AlphaGenomeClient L) :
  exists v, result_of (compare_sequences L s1 s2 o ots self) = inr v /\ has_success v.
Proof.
  destruct (compare_sequences_outcome L s1 s2 o ots self)
    as [[_ [rest ->]] | [r1 [r2 [-> _]]]]; eexists; split; try reflexivity.
  - apply has_success_true.
  - apply has_success_false.
Qed.

(** Every method but [compare_sequences] is enveloped. *)
Lemma perform_enveloped (q : request) :
  is_compare_sequences q = false -> enveloped (perform rt L q).
Proof.
  destruct q; simpl; intros Hq; try discriminate.
  - apply predict_sequence_enveloped.
  - apply predict_interval_enveloped.
  - apply predict_variant_enveloped.
  - apply score_variant_enveloped.
  - apply get_output_metadata_enveloped.
  - apply predict_sequences_enveloped.
  - apply predict_intervals_enveloped.
  - apply predict_variants_enveloped.
  - apply score_variants_enveloped.
  - apply score_interval_enveloped.
  - apply score_intervals_enveloped.
  - apply score_ism_variants_enveloped.
  - apply parse_variant_string_enveloped.
  - apply validate_genomic_data_enveloped.
  - apply get_supported_outputs_enveloped.
  - apply calculate_genomic_overlap_enveloped.
  - apply get_sequence_info_enveloped.
  - apply analyze_gene_region_enveloped.
  - apply rank_variants_by_impact_enveloped.
Qed.

End Nested.

(* ================================================================== *)
(** * Success unless an exception was raised *)
(* ================================================================== *)

Lemma succeeds_try_except {L} (body : M L pyval) :
  logged succeeded body -> succeeds (try_except L body).
Proof.
  intros Hb self. unfold try_except. specialize (Hb self).
  destruct (body self) as [[[e|v] self1] evs].
  - rewrite Hb. discriminate.
  - intros _. apply Hb.
Qed.

Lemma succeeds_bind_nested {L} (m : M L pyval) (k : pyval -> M L pyval) :
  succeeds m -> enveloped m ->
  (forall v, succeeded v -> logged succeeded (k v)) ->
  succeeds (try_except L (bind m k)).
Proof.
  intros Hs Hm Hk self. unfold try_except, bind.
  specialize (Hs self). specialize (Hm self).
  destruct (m self) as [[[e|v] self1] evs]; [contradiction|].
  destruct (k v self1) as [[[e|w] self2] evs'] eqn:Hrun; rewrite raised_of_app.
  - intros H. apply app_eq_nil in H as [Hr Hr'].
    specialize (Hk v (Hs Hr) self1). rewrite Hrun in Hk. rewrite Hk in Hr'. discriminate.
  - intros H. apply app_eq_nil in H as [Hr Hr'].
    specialize (Hk v (Hs Hr) self1). rewrite Hrun in Hk. apply Hk.
Qed.

Ltac succeeds_auto := apply succeeds_try_except; logged_auto.

Section Succeeds.

Context (rt : PyRuntime) (L : Lib).

Lemma predict_sequence_succeeds s o ots terms :
  succeeds (predict_sequence L s o ots terms).
Proof. succeeds_auto. Qed.

Lemma predict_interval_succeeds c s e o ots terms :
  succeeds (predict_interval L c s e o ots terms).
Proof. succeeds_auto. Qed.

Lemma predict_variant_succeeds c p r a s e o ots terms :
  succeeds (predict_variant L c p r a s e o ots terms).
Proof. succeeds_auto. Qed.

Lemma score_variant_succeeds c p r a s e o :
  succeeds (score_variant L c p r a s e o).
Proof. succeeds_auto. Qed.

Lemma get_output_metadata_succeeds o : succeeds (get_output_metadata L o).
Proof. succeeds_auto. Qed.

Lemma predict_sequences_succeeds ss o ots terms w :
  succeeds (predict_sequences L ss o ots terms w).
Proof. succeeds_auto. Qed.

Lemma predict_intervals_succeeds ivs o ots terms w :
  succeeds (predict_intervals L ivs o ots terms w).
Proof. succeeds_auto. Qed.

Lemma predict_variants_succeeds vs ivs o ots terms w :
  succeeds (predict_variants rt L vs ivs o ots terms w).
Proof. succeeds_auto. Qed.

Lemma score_variants_succeeds vs ivs o w :
  succeeds (score_variants rt L vs ivs o w).
Proof. succeeds_auto. Qed.

Lemma score_interval_succeeds c s e scorers :
  succeeds (score_interval L c s e scorers).
Proof. succeeds_auto. Qed.

Lemma score_intervals_succeeds ivs scorers w :
  succeeds (score_intervals L ivs scorers w).
Proof. succeeds_auto. Qed.

Lemma score_ism_variants_succeeds c s e ic is_ ie scorers w :
  succeeds (score_ism_variants L c s e ic is_ ie scorers w).
Proof. succeeds_auto. Qed.

Lemma parse_variant_string_succeeds vs fmt :
  succeeds (parse_variant_string L vs fmt).
Proof.
  unfold parse_variant_string. apply succeeds_try_except.
  eapply logged_bind with (Q := fun o => forall d, o = Some d -> succeeded d).
  - assert (Hm : forall sep,
               logged (fun o => forall d, o = Some d -> succeeded d)
                      (parse_manual L sep vs fmt)).
    { intros sep. unfold parse_manual.
      destruct (split sep vs) as [|c [|p [|r [|a [|x l]]]]];
        try (apply logged_ret; discriminate).
      apply logged_bind_any; [apply logged_lift|]. intros n.
      apply logged_ret. intros d [= <-]. eexists. reflexivity. }
    destruct (contains "-" vs); [apply Hm|].
    destruct (contains ":" vs); [apply Hm|].
    apply logged_ret. discriminate.
  - intros [d|] Hd.
    + apply logged_ret. now apply Hd.
    + logged_auto.
Qed.

Lemma validate_genomic_data_succeeds ty data :
  succeeds (validate_genomic_data rt L ty data).
Proof. succeeds_auto. Qed.

Lemma get_supported_outputs_succeeds : succeeds (get_supported_outputs L).
Proof. succeeds_auto. Qed.

Lemma calculate_genomic_overlap_succeeds i1 i2 :
  succeeds (calculate_genomic_overlap rt L i1 i2).
Proof. succeeds_auto. Qed.

Lemma get_sequence_info_succeeds s : succeeds (get_sequence_info rt L s).
Proof. succeeds_auto. Qed.

Lemma rank_variants_by_impact_succeeds vs ivs o metric w :
  succeeds (rank_variants_by_impact rt L vs ivs o metric w).
Proof.
  unfold rank_variants_by_impact. apply succeeds_bind_nested.
  - apply score_variants_succeeds.
  - apply score_variants_enveloped.
  - intros v Hv. logged_auto; try (apply logged_ret; assumption).
Qed.

(** Every method but [compare_sequences] and [analyze_gene_region],
    which always reports a failure, reports success unless an exception
    was raised in its body. *)
Lemma perform_succeeds (q : request) :
  is_compare_sequences q = false ->
  (forall g o f ots, q <> req_analyze_gene_region g o f ots) ->
  succeeds (perform rt L q).
Proof.
  destruct q; simpl; intros Hq Ha; try discriminate.
  - apply predict_sequence_succeeds.
  - apply predict_interval_succeeds.
  - apply predict_variant_succeeds.
  - apply score_variant_succeeds.
  - apply get_output_metadata_succeeds.
  - apply predict_sequences_succeeds.
  - apply predict_intervals_succeeds.
  - apply predict_variants_succeeds.
  - apply score_variants_succeeds.
  - apply score_interval_succeeds.
  - apply score_intervals_succeeds.
  - apply score_ism_variants_succeeds.
  - apply parse_variant_string_succeeds.
  - apply validate_genomic_data_succeeds.
  - apply get_supported_outputs_succeeds.
  - apply calculate_genomic_overlap_succeeds.
  - apply get_sequence_info_succeeds.
  - now contradiction (Ha gene_symbol organism flanking_size output_types eq_refl).
  - apply rank_variants_by_impact_succeeds.
Qed.

End Succeeds.

(* ================================================================== *)
(** * The success/error envelope *)
(* ================================================================== *)

(** C1, as amended.  Every public method returns (no exception leaves
    it) a dictionary with a boolean under ["success"].  For every method
    other than [compare_sequences], an exception raised in the body of
    the method is answered with the uniform envelope of that exception,
    and the envelope is returned in no other case.  An exception raised
    inside a private serializer ([Absorbed] in the log) is answered by
    the serializer itself and not with the envelope: unless an exception
    is raised in the body as well, the method reports success.
    [compare_sequences] answers an exception raised in one of its nested
    predictions with its own failure dictionary, which has no ["type"]
    and carries the nested envelopes as ["result1"] and ["result2"]. *)
Theorem envelope_of_every_method (rt : PyRuntime) (L : Lib) (q : request)
    (self : AlphaGenomeClient L) :
  let r := perform rt L q self in
  (exists v, result_of r = inr v /\ has_success v)
  /\ (is_compare_sequences q = false ->
      forall e, In e (raised_of (events_of r)) -> result_of r = inr (error_envelope e))
  /\ (is_compare_sequences q = false ->
      raised_of (events_of r) = [] ->
      forall e, result_of r <> inr (error_envelope e))
  /\ (is_compare_sequences q = false ->
      forall e, In e (absorbed_of (events_of r)) ->
      raised_of (events_of r) = [] ->
      exists rest, result_of r = inr (PyDict (("success", PyBool true) :: rest)))
  /\ (is_compare_sequences q = true ->
      forall e, In e (raised_of (events_of r)) ->
      exists r1 r2, result_of r = inr (comparison_failed r1 r2)
                    /\ (r1 = error_envelope e \/ r2 = error_envelope e)).
Proof.
  intros r. subst r. destruct (is_compare_sequences q) eqn:Hq.
  - destruct q; try discriminate. simpl.
    split; [|split; [discriminate|split; [discriminate|split; [discriminate|]]]].
    + apply compare_sequences_has_success.
    + intros _ e He.
      destruct (compare_sequences_outcome L sequence1 sequence2 organism output_types self)
        as [[Hr _] | [r1 [r2 [Hres Hin]]]].
      * rewrite Hr in He. destruct He.
      * exists r1, r2. split; [assumption | now apply Hin].
  - pose proof (perform_enveloped rt L q Hq self) as H.
    assert (Hs : forall e, In e (absorbed_of (events_of (perform rt L q self))) ->
                 raised_of (events_of (perform rt L q self)) = [] ->
                 exists rest, result_of (perform rt L q self)
                              = inr (PyDict (("success", PyBool true) :: rest))).
    { intros e He Hr.
      assert (Ha : forall g o f ots, q <> req_analyze_gene_region g o f ots).
      { intros g o f ots ->. destruct He. }
      pose proof (perform_succeeds rt L q Hq Ha self) as Hsucc.
      unfold result_of, events_of in *.
      destruct (perform rt L q self) as [[[x|v] self1] evs]; [contradiction|].
      destruct (Hsucc Hr) as [rest ->]. now exists rest. }
    unfold result_of, events_of in *.
    destruct (perform rt L q self) as [[[e|v] self1] evs]; [contradiction|]. simpl in *.
    split; [|split; [|split; [|split; [|discriminate]]]].
    + exists v. split; [reflexivity|].
      destruct H as [[_ [Hv _]] | [e [_ ->]]]; [assumption | apply has_success_envelope].
    + intros _ e He. destruct H as [[Hr _] | [e' [Hr ->]]]; rewrite Hr in He.
      * destruct He.
      * destruct He as [<-|[]]. reflexivity.
    + intros _ Hr e [= ->]. destruct H as [[_ [_ Hv]] | [e' [Hr' _]]].
      * now apply (Hv e).
      * rewrite Hr in Hr'. discriminate.
    + intros _. exact Hs.
Qed.

Lemma envelope_of_every_method_witness :
  let r := perform Sample.runtime Sample.faulty (req_get_output_metadata "human")
             Sample.faulty_self in
  In Sample.track_error (absorbed_of (events_of r))
  /\ raised_of (events_of r) = []
  /\ exists rest, result_of r = inr (PyDict (("success", PyBool true) :: rest)).
Proof.
  intros r.
  assert (Ha : In Sample.track_error (absorbed_of (events_of r))) by (now left).
  assert (Hr : raised_of (events_of r) = []) by reflexivity.
  split; [exact Ha|]. split; [exact Hr|].
  exact (proj1 (proj2 (proj2 (proj2
           (envelope_of_every_method Sample.runtime Sample.faulty
              (req_get_output_metadata "human") Sample.faulty_self))))
           eq_refl Sample.track_error Ha Hr).
Defined.

(** C1, as stated, fails: in [compare_sequences("X", "A")] the nested
    prediction of ["X"] raises [ValueError], and what is returned is not
    the envelope of that exception. *)
Lemma compare_sequences_not_uniform :
  let r := compare_sequences Sample.lib "X" "A" "human" None Sample.self in
  In invalid_characters_error (raised_of (events_of r))
  /\ result_of r <> inr (error_envelope invalid_characters_error)
  /\ (forall kv, result_of r = inr (PyDict kv) -> dict_get "type" kv = None).
Proof.
  vm_compute. split; [now left|]. split; [discriminate|].
  intros kv [= <-]. reflexivity.
Qed.

(** C1, as stated, fails in a second way: when reading an attribute of
    what the client returned raises, the serializer absorbs the
    exception and the method reports success around the serializer's
    ["error"] entry. *)
Lemma serializer_exception_not_enveloped :
  let r := get_output_metadata Sample.faulty "human" Sample.faulty_self in
  absorbed_of (events_of r) = [Sample.track_error]
  /\ raised_of (events_of r) = []
  /\ result_of r
     = inr (PyDict [("success", PyBool true);
                    ("result",
                     PyDict [("error",
                              PyStr "Metadata serialization failed: track not loaded")]);
                    ("organism", PyStr "human")]).
Proof. vm_compute. repeat split. Qed.

(* ================================================================== *)
(** * Validation in [predict_sequence] *)
(* ================================================================== *)

(** C3, as amended.  Let the client be one that raises neither of the
    two messages itself.  Then, for every string [sequence], [predict_sequence]
    returns the failure envelope with the message "Sequence must be a
    non-empty string" if and only if [sequence] is empty, and the one
    with "Sequence contains invalid characters.  Only A, T, G, C, N are
    allowed" if and only if [sequence] is not empty and its upper-cased
    form has a character outside A, T, G, C, N; both are envelopes of a
    [ValueError].  The client is called only when both checks pass, and
    then exactly once, with the upper-cased sequence; what is returned
    then is the envelope of the exception the client raised or the
    success dictionary around its serialized answer. *)
Theorem predict_sequence_validation (L : Lib) (self : AlphaGenomeClient L)
    (sequence organism : string) (output_types ontology_terms : option (list string)) :
  let r := predict_sequence L sequence organism output_types ontology_terms self in
  let c := call_predict_sequence (upper sequence) HOMO_SAPIENS
             (requested_outputs_of L output_types) ontology_terms in
  (forall e, snd (invoke L (client self) c) = inl e ->
             exn_msg e <> exn_msg empty_sequence_error
             /\ exn_msg e <> exn_msg invalid_characters_error) ->
  ((exists v, result_of r = inr v /\ failure_with (exn_msg empty_sequence_error) v)
   <-> sequence = EmptyString)
  /\ (sequence = EmptyString -> result_of r = inr (error_envelope empty_sequence_error))
  /\ ((exists v, result_of r = inr v
                 /\ failure_with (exn_msg invalid_characters_error) v)
      <-> sequence <> EmptyString
          /\ exists ch, In ch (chars (upper sequence)) /\ ~ In ch dna_alphabet)
  /\ (sequence <> EmptyString -> ~ dna_only sequence ->
      result_of r = inr (error_envelope invalid_characters_error))
  /\ (calls_of (events_of r) <> [] -> sequence <> EmptyString /\ dna_only sequence)
  /\ (sequence <> EmptyString -> dna_only sequence ->
      calls_of (events_of r) = [c]
      /\ result_of r
         = match snd (invoke L (client self) c) with
           | inl e => inr (error_envelope e)
           | inr v => inr (PyDict [("success", PyBool true);
                                   ("result", _serialize_output v);
                                   ("sequence_length", PyInt (len sequence))])
           end).
Proof.
  intros r c Hclient. subst r. rewrite predict_sequence_run.
  destruct (truthy (PyStr sequence)) eqn:Ht; simpl negb; cbv iota.
  - assert (Hne : sequence <> EmptyString) by now apply truthy_str.
    destruct (issubset (set_of (upper sequence)) valid_chars) eqn:Hs; simpl negb; cbv iota.
    + assert (Hd : dna_only sequence) by now apply issubset_dna.
      cbv zeta. fold c. fold c in Hclient.
      destruct (invoke L (client self) c) as [cl [e|v]];
        unfold result_of, events_of; cbn [fst snd] in *.
      * destruct (Hclient e eq_refl) as [H1 H2].
        split; [|split; [|split; [|split; [|split]]]].
        -- split; [|contradiction].
           intros [v [[= <-] [t Hv]]]. unfold error_envelope in Hv.
           injection Hv as Hm _. now contradiction H1.
        -- contradiction.
        -- split; [|intros [_ [ch [Hc Hn]]]; now apply Hd in Hc].
           intros [v [[= <-] [t Hv]]]. unfold error_envelope in Hv.
           injection Hv as Hm _. now contradiction H2.
        -- contradiction.
        -- auto.
        -- intros _ _. split; reflexivity.
      * split; [|split; [|split; [|split; [|split]]]].
        -- split; [|contradiction]. intros [v' [[= <-] [t Hv]]]. discriminate Hv.
        -- contradiction.
        -- split; [|intros [_ [ch [Hc Hn]]]; now apply Hd in Hc].
           intros [v' [[= <-] [t Hv]]]. discriminate Hv.
        -- contradiction.
        -- auto.
        -- intros _ _. split; [|reflexivity].
           simpl. now rewrite calls_of_absorbing.
    + assert (Hx : exists ch, In ch (chars (upper sequence)) /\ ~ In ch dna_alphabet)
        by now apply issubset_not_dna.
      unfold result_of, events_of; simpl.
      split; [|split; [|split; [|split; [|split]]]].
      * split; [|contradiction]. intros [v [[= <-] [t Hv]]]. discriminate Hv.
      * contradiction.
      * split; [auto|]. intros _. eexists. split; [reflexivity|]. now exists "ValueError".
      * reflexivity.
      * contradiction.
      * intros _ Hd. destruct Hx as [ch [Hc Hn]]. now apply Hd in Hc.
  - assert (He : sequence = EmptyString).
    { destruct sequence; [reflexivity | discriminate]. }
    subst sequence. unfold result_of, events_of; simpl.
    split; [|split; [|split; [|split; [|split]]]].
    + split; [auto|]. intros _. eexists. split; [reflexivity|]. now exists "ValueError".
    + reflexivity.
    + split; [|now intros [H _]]. intros [v [[= <-] [t Hv]]]. discriminate Hv.
    + contradiction.
    + contradiction.
    + contradiction.
Qed.

Lemma predict_sequence_validation_witness :
  let r := predict_sequence Sample.lib "acgtn" "human" None None Sample.self in
  (exists v, result_of r = inr v
             /\ failure_with (exn_msg invalid_characters_error) v)
  <-> "acgtn" <> EmptyString
      /\ exists ch, In ch (chars (upper "acgtn")) /\ ~ In ch dna_alphabet.
Proof.
  intros r. subst r.
  apply (predict_sequence_validation Sample.lib Sample.self "acgtn" "human" None None).
  intros e H. discriminate H.
Defined.

(** C3, as stated, fails: the handler of [predict_sequence] answers the
    exceptions of the client as well, so with a client that raises a
    [ValueError] carrying the words of the first check, the sequence
    ["A"] passes both checks, the client is called, and the failure
    envelope with "Sequence must be a non-empty string" is returned for
    a sequence that is not empty. *)
Lemma predict_sequence_client_refusal :
  let r := predict_sequence Sample.refusing "A" "human" None None Sample.refusing_self in
  calls_of (events_of r) = [call_predict_sequence "A" HOMO_SAPIENS None None]
  /\ result_of r
     = inr (PyDict [("success", PyBool false);
                    ("error", PyStr "Sequence must be a non-empty string");
                    ("type", PyStr "ValueError")])
  /\ ~ ((exists v, result_of r = inr v
                   /\ failure_with "Sequence must be a non-empty string" v)
        <-> "A" = EmptyString).
Proof.
  assert (Hrun : result_of (predict_sequence Sample.refusing "A" "human" None None
                              Sample.refusing_self)
                 = inr (error_envelope empty_sequence_error)) by (vm_compute; reflexivity).
  cbv zeta. split; [vm_compute; reflexivity|]. split; [vm_compute; reflexivity|].
  intros [H _]. enough (He : "A" = EmptyString) by discriminate He.
  apply H. eexists. split; [exact Hrun|]. now exists "ValueError".
Qed.

(* ================================================================== *)
(** * The organism argument *)
(* ================================================================== *)

Create HintDb methods.

#[local] Hint Unfold predict_sequence predict_interval predict_variant score_variant
  get_output_metadata predict_sequences predict_intervals predict_variants
  score_variants score_interval score_intervals score_ism_variants
  parse_variant_string validate_genomic_data get_supported_outputs
  calculate_genomic_overlap get_sequence_info analyze_gene_region
  compare_sequences rank_variants_by_impact : methods.

Ltac human_step :=
  match goal with
  | |- human (try_except _ _) => apply human_try_except
  | |- human (bind _ _) => apply human_bind; [ | intros ? ]
  | |- human (ret _) => apply human_ret
  | |- human (raise _) => apply human_raise
  | |- human (lift _) => apply human_lift
  | |- human (call_client _) => apply human_call; simpl; apply organism_enum_of_human
  | |- human (serializing _) => apply human_serializing
  | |- human (mapM _ _ _) => apply human_mapM; intros ?
  | |- human (if ?b then _ else _) => destruct b
  | |- human (match ?x with _ => _ end) => destruct x
  | |- human (let (_, _) := ?x in _) => destruct x
  | |- human _ => progress cbv zeta
  | |- human _ => progress autounfold with cmds
  | |- human _ => progress autounfold with methods
  end.

Lemma perform_human (rt : PyRuntime) (L : Lib) (q : request) : human (perform rt L q).
Proof. destruct q; simpl; repeat human_step. Qed.

(** The calls a method makes do not depend on [organism]. *)
Lemma perform_calls_organism (rt : PyRuntime) (L : Lib) (q : request) (o1 o2 : string)
    (self : AlphaGenomeClient L) :
  calls_of (events_of (perform rt L (with_organism o1 q) self))
  = calls_of (events_of (perform rt L (with_organism o2 q) self)).
Proof.
  destruct q; simpl; try reflexivity; autounfold with methods;
    unfold organism_enum_of;
    destruct (existsb (String.eqb (lower o1)) _), (existsb (String.eqb (lower o2)) _);
    try reflexivity;
    unfold try_except, bind, call_client, ret, events_of;
    destruct (invoke L (client self) _) as [cl [e|v]]; reflexivity.
Qed.

(** C9.  Whatever the [organism] argument, every call a public method
    makes on the client (in particular by the twelve methods that pass
    their arguments on to it) is made for [Organism.HOMO_SAPIENS], and
    two runs that differ only in [organism] make the same calls. *)
Theorem organism_never_reaches_client (rt : PyRuntime) (L : Lib) (q : request)
    (o1 o2 : string) (self : AlphaGenomeClient L) :
  let r1 := perform rt L (with_organism o1 q) self in
  let r2 := perform rt L (with_organism o2 q) self in
  calls_of (events_of r1) = calls_of (events_of r2)
  /\ Forall (fun c => call_organism c = HOMO_SAPIENS) (calls_of (events_of r1)).
Proof.
  intros r1 r2. split.
  - apply perform_calls_organism.
  - apply perform_human.
Qed.

(* ================================================================== *)
(** * The utilities and the state of the object *)
(* ================================================================== *)

Ltac pure_step :=
  match goal with
  | |- pure_cmd (try_except _ _) => apply pure_try_except
  | |- pure_cmd (bind _ _) => apply pure_bind; [ | intros ? ]
  | |- pure_cmd (ret _) => apply pure_ret
  | |- pure_cmd (raise _) => apply pure_raise
  | |- pure_cmd (lift _) => apply pure_lift
  | |- pure_cmd (if ?b then _ else _) => destruct b
  | |- pure_cmd (match ?x with _ => _ end) => destruct x
  | |- pure_cmd _ => progress cbv zeta
  | |- pure_cmd _ => progress autounfold with cmds
  | |- pure_cmd _ => progress autounfold with methods
  end.

Lemma utility_pure (rt : PyRuntime) (L : Lib) (q : request) :
  is_utility q = true -> pure_cmd (perform rt L q).
Proof. destruct q; simpl; intros Hq; try discriminate; repeat pure_step. Qed.

Section SetOrder.

Context (rt1 rt2 : PyRuntime) (L : Lib).
Hypothesis same_order : forall l, set_order rt1 l = set_order rt2 l.

Lemma set_text_same (l : list ascii) : set_text rt1 l = set_text rt2 l.
Proof. unfold set_text. now rewrite same_order. Qed.

Lemma validate_genomic_data_same dt d (self : AlphaGenomeClient L) :
  validate_genomic_data rt1 L dt d self = validate_genomic_data rt2 L dt d self.
Proof.
  unfold validate_genomic_data.
  destruct (String.eqb dt "sequence"); [|reflexivity].
  unfold validate_sequence, try_except, bind, lift, raise, ret.
  destruct (data_get d "sequence" (PyStr EmptyString)) as [e|v]; [reflexivity|].
  destruct (negb (truthy v)); [reflexivity|].
  destruct (py_upper v) as [e|up]; [reflexivity|].
  destruct (py_len v) as [e|n]; [reflexivity|].
  rewrite set_text_same. reflexivity.
Qed.

Lemma get_sequence_info_same s (self : AlphaGenomeClient L) :
  get_sequence_info rt1 L s self = get_sequence_info rt2 L s self.
Proof.
  unfold get_sequence_info. rewrite same_order. reflexivity.
Qed.

End SetOrder.

(** C4, as amended.  [parse_variant_string], [validate_genomic_data] and
    [get_sequence_info] never call [self.client] and leave [self] as it
    was, and two runs on equal arguments return equal results whatever
    the state of the client object, provided the two interpreters
    iterate sets in the same order. *)
Theorem utilities_stateless (rt1 rt2 : PyRuntime) (L : Lib) (q : request)
    (self1 self2 : AlphaGenomeClient L) :
  is_utility q = true ->
  (forall l, set_order rt1 l = set_order rt2 l) ->
  let r1 := perform rt1 L q self1 in
  let r2 := perform rt2 L q self2 in
  result_of r1 = result_of r2
  /\ calls_of (events_of r1) = [] /\ self_of r1 = self1
  /\ calls_of (events_of r2) = [] /\ self_of r2 = self2.
Proof.
  intros Hq Hord r1 r2. subst r1 r2.
  assert (Heq : perform rt1 L q self2 = perform rt2 L q self2).
  { destruct q; try discriminate; simpl.
    - reflexivity.
    - now apply validate_genomic_data_same.
    - now apply get_sequence_info_same. }
  destruct (utility_pure rt1 L q Hq) as [r [evs [Hc Hrun]]].
  rewrite <- Heq, (Hrun self1), (Hrun self2).
  unfold result_of, self_of, events_of. simpl. auto.
Qed.

Lemma utilities_stateless_witness :
  let q := req_get_sequence_info "ACGTNxy" in
  let r1 := perform Sample.runtime Sample.lib q Sample.self in
  let r2 := perform Sample.runtime'' Sample.lib q (Build_AlphaGenomeClient Sample.lib 7%nat) in
  result_of r1 = result_of r2
  /\ calls_of (events_of r1) = [] /\ self_of r1 = Sample.self
  /\ calls_of (events_of r2) = []
  /\ self_of r2 = Build_AlphaGenomeClient Sample.lib 7%nat.
Proof.
  intros q r1 r2.
  apply (utilities_stateless Sample.runtime Sample.runtime'' Sample.lib q).
  - reflexivity.
  - reflexivity.
Defined.

(** C4, as stated, fails: [get_sequence_info("XY")] lists the invalid
    characters in the order the interpreter iterates the set, so two
    runs on the same argument can return different results. *)
Lemma get_sequence_info_order_dependent :
  result_of (get_sequence_info Sample.runtime Sample.lib "XY" Sample.self)
  <> result_of (get_sequence_info Sample.runtime' Sample.lib "XY" Sample.self).
Proof. vm_compute. discriminate. Qed.

(* ================================================================== *)
(** * The two manual notations of [parse_variant_string] *)
(* ================================================================== *)

Lemma contains_app (c : ascii) (s t : string) :
  contains c (s ++ t) = contains c s || contains c t.
Proof.
  induction s as [|d s IH]; simpl; [reflexivity|].
  now rewrite IH, orb_assoc.
Qed.

Lemma split_without (sep : ascii) (s : string) :
  contains sep s = false -> split sep s = [s].
Proof.
  induction s as [|d s IH]; simpl; [reflexivity|].
  intros H. apply orb_false_iff in H as [Hd Hs].
  rewrite Ascii.eqb_sym, Hd, (IH Hs). reflexivity.
Qed.

Lemma split_app (sep : ascii) (s rest : string) :
  contains sep s = false ->
  split sep (s ++ String sep rest) = s :: split sep rest.
Proof.
  induction s as [|d s IH]; simpl.
  - intros _. now rewrite Ascii.eqb_refl.
  - intros H. apply orb_false_iff in H as [Hd Hs].
    rewrite Ascii.eqb_sym, Hd, (IH Hs). reflexivity.
Qed.

Lemma split_notation (sep : ascii) (c p r a : string) :
  contains sep c = false -> contains sep p = false ->
  contains sep r = false -> contains sep a = false ->
  split sep (notation sep c p r a) = [c; p; r; a].
Proof.
  intros Hc Hp Hr Ha. unfold notation.
  now rewrite !split_app, split_without.
Qed.

Lemma contains_notation (x sep : ascii) (c p r a : string) :
  contains x (notation sep c p r a)
  = contains x c || Ascii.eqb x sep || contains x p || contains x r || contains x a.
Proof.
  unfold notation. repeat (rewrite contains_app; simpl).
  destruct (contains x c), (Ascii.eqb x sep), (contains x p), (contains x r),
    (contains x a); reflexivity.
Qed.

(** A literal [int] accepts has no colon. *)
Lemma contains_In (c : ascii) (s : string) : contains c s = true <-> In c (chars s).
Proof.
  induction s as [|d s IH]; simpl.
  - split; [discriminate | tauto].
  - rewrite orb_true_iff, IH. split.
    + intros [H|H]; [left; symmetry; now apply Ascii.eqb_eq | now right].
    + intros [H|H]; [left; apply Ascii.eqb_eq; now symmetry | now right].
Qed.

Lemma lstrip_keeps (c : ascii) (l : list ascii) :
  is_space c = false -> In c l -> In c (lstrip l).
Proof.
  intros Hc. induction l as [|d l IH]; simpl; [tauto|].
  intros [->|H].
  - rewrite Hc. now left.
  - destruct (is_space d); [now apply IH | now right].
Qed.

Lemma scan_digits_keeps (x : ascii) (l : list ascii) :
  is_digit x = false -> Ascii.eqb x "_" = false ->
  forall acc digits after_us value digits' rest,
    scan_digits acc digits after_us l = Some (value, digits', rest) ->
    In x l -> In x rest.
Proof.
  intros Hd Hu. induction l as [|d l IH]; simpl; [tauto|].
  intros acc digits after_us value digits' rest Hscan [->|Hin].
  - rewrite Hd, Hu in Hscan. destruct after_us; [discriminate|].
    injection Hscan as _ _ <-. now left.
  - destruct (is_digit d); [now apply (IH _ _ _ _ _ _ Hscan)|].
    destruct (Ascii.eqb d "_").
    + destruct after_us; [discriminate | now apply (IH _ _ _ _ _ _ Hscan)].
    + destruct after_us; [discriminate|]. injection Hscan as _ _ <-. now right.
Qed.

(** A literal with a character that is neither white space, a digit, an
    underscore nor a sign is refused. *)
Lemma int_of_ascii_refuses (x : ascii) (l : list ascii) (z : Z) :
  is_space x = false -> is_digit x = false -> Ascii.eqb x "_" = false ->
  Ascii.eqb x "+" = false -> Ascii.eqb x "-" = false ->
  In x l -> int_of_ascii l <> inr z.
Proof.
  intros Hs Hd Hu Hp Hm Hin. unfold int_of_ascii. cbv zeta.
  apply (lstrip_keeps x l Hs) in Hin.
  set (signed := match lstrip l with
                 | c :: r => if Ascii.eqb c "-" then (true, r)
                             else if Ascii.eqb c "+" then (false, r)
                             else (false, lstrip l)
                 | [] => (false, [])
                 end).
  assert (Hin' : In x (snd signed)).
  { subst signed. destruct (lstrip l) as [|c r]; [destruct Hin|].
    destruct (Ascii.eqb_spec c "-") as [->|Hc].
    - destruct Hin as [<-|Hin]; [now rewrite Ascii.eqb_refl in Hm | exact Hin].
    - destruct (Ascii.eqb_spec c "+") as [->|Hc'].
      + destruct Hin as [<-|Hin]; [now rewrite Ascii.eqb_refl in Hp | exact Hin].
      + exact Hin. }
  destruct (scan_digits 0 0 true (snd signed)) as [[[value digits] rest]|] eqn:Hscan;
    [|discriminate].
  destruct (max_str_digits <? digits)%nat; [discriminate|].
  apply (scan_digits_keeps x _ Hd Hu _ _ _ _ _ _ Hscan), (lstrip_keeps x rest Hs) in Hin'.
  destruct (lstrip rest); [destruct Hin' | discriminate].
Qed.

Lemma to_ascii_colon (l : list ascii) :
  In ":"%char l -> In ":"%char (to_ascii l) \/ In "?"%char (to_ascii l).
Proof.
  induction l as [|d l IH]; [intros []|].
  cbn [to_ascii]. intros [->|Hin].
  - left. now left.
  - destruct (nat_of_ascii d <? 127)%nat.
    + destruct (IH Hin); [left | right]; now right.
    + destruct (mem_N (code_point d) space_beyond).
      * destruct (IH Hin); [left | right]; now right.
      * destruct (assoc (code_point d) decimal_beyond).
        -- destruct (IH Hin); [left | right]; now right.
        -- right. now left.
Qed.

(** A literal [int] accepts has no colon. *)
Lemma int_no_colon (s : string) (n : Z) : int s = inr n -> contains ":" s = false.
Proof.
  intros H. destruct (contains ":" s) eqn:E; [|reflexivity]. exfalso.
  apply contains_In in E. unfold int, int_of_chars in H.
  destruct (int_of_ascii (transform (chars s))) as [[|digits]|z] eqn:Hz;
    try discriminate.
  assert (Hin : In ":"%char (transform (chars s)) \/ In "?"%char (transform (chars s))).
  { unfold transform. destruct (forallb is_ascii (chars s)); [now left|].
    now apply to_ascii_colon. }
  destruct Hin as [Hin|Hin];
    now apply (int_of_ascii_refuses _ _ z) in Hin.
Qed.

Section ParseVariant.

Context (L : Lib).

Lemma parse_manual_notation sep c p r a n fmt (self : AlphaGenomeClient L) :
  contains sep c = false -> contains sep p = false ->
  contains sep r = false -> contains sep a = false ->
  int p = inr n ->
  parse_manual L sep (notation sep c p r a) fmt self
  = (inr (Some (parsed_variant (PyStr c) (PyInt n) (PyStr r) (PyStr a)
                  (PyStr (notation sep c p r a)) fmt (notation sep c p r a))),
     self, []).
Proof.
  intros Hc Hp Hr Ha Hn. unfold parse_manual.
  rewrite split_notation by assumption.
  rewrite Hn. reflexivity.
Qed.

Lemma parse_manual_none sep vs fmt :
  List.length (split sep vs) <> 4%nat -> parse_manual L sep vs fmt = ret None.
Proof.
  intros Hl. unfold parse_manual.
  destruct (split sep vs) as [|x1 [|x2 [|x3 [|x4 [|x5 l]]]]]; try reflexivity.
  now contradiction Hl.
Qed.

(** When neither manual format applies, the answer is the library's. *)
Lemma parse_variant_string_delegates vs fmt (self : AlphaGenomeClient L) :
  (if contains "-" vs then List.length (split "-" vs) <> 4%nat
   else if contains ":" vs then List.length (split ":" vs) <> 4%nat else True) ->
  result_of (parse_variant_string L vs fmt self)
  = match Variant_from_str L vs (format_map_get (lower fmt)) with
    | inl e => inr (error_envelope e)
    | inr v => inr (parsed_variant (PyStr (variant_chromosome v))
                      (PyInt (variant_position v)) (PyStr (reference_bases v))
                      (PyStr (alternate_bases v)) (PyStr (variant_name v)) fmt vs)
    end.
Proof.
  intros H. unfold parse_variant_string.
  destruct (contains "-" vs).
  - rewrite (parse_manual_none _ _ _ H).
    unfold try_except, bind, ret, lift, raise, result_of. simpl.
    destruct (Variant_from_str L vs _); reflexivity.
  - destruct (contains ":" vs).
    + rewrite (parse_manual_none _ _ _ H).
      unfold try_except, bind, ret, lift, raise, result_of. simpl.
      destruct (Variant_from_str L vs _); reflexivity.
    + unfold try_except, bind, ret, lift, raise, result_of. simpl.
      destruct (Variant_from_str L vs _); reflexivity.
Qed.

End ParseVariant.

(** C5, as amended.  For chromosome and allele strings [c], [r], [a]
    without ['-'] and [':'], and a position string [p] without ['-'] that
    [int] reads as [n], [parse_variant_string] succeeds on ["c-p-r-a"]
    and on ["c:p:r:a"] with the same chromosome, position [n],
    reference and alternate bases. *)
Theorem parse_variant_string_notations (L : Lib) (self : AlphaGenomeClient L)
    (c p r a fmt : string) (n : Z) :
  contains "-" c = false -> contains ":" c = false ->
  contains "-" r = false -> contains ":" r = false ->
  contains "-" a = false -> contains ":" a = false ->
  contains "-" p = false -> int p = inr n ->
  let dash := notation "-" c p r a in
  let colon := notation ":" c p r a in
  result_of (parse_variant_string L dash fmt self)
  = inr (parsed_variant (PyStr c) (PyInt n) (PyStr r) (PyStr a) (PyStr dash) fmt dash)
  /\ result_of (parse_variant_string L colon fmt self)
     = inr (parsed_variant (PyStr c) (PyInt n) (PyStr r) (PyStr a) (PyStr colon) fmt colon).
Proof.
  intros Hc Hc' Hr Hr' Ha Ha' Hp Hn dash colon.
  pose proof (int_no_colon p n Hn) as Hp'.
  split.
  - unfold parse_variant_string, try_except.
    assert (Hd : contains "-" dash = true).
    { unfold dash. rewrite contains_notation. simpl. now rewrite orb_true_r. }
    rewrite Hd.
    rewrite (bind_inr _ _ _ _ _ _
               (parse_manual_notation L "-" c p r a n fmt self Hc Hp Hr Ha Hn)).
    reflexivity.
  - unfold parse_variant_string, try_except.
    assert (Hd : contains "-" colon = false).
    { unfold colon. rewrite contains_notation, Hc, Hp, Hr, Ha. reflexivity. }
    assert (Hd' : contains ":" colon = true).
    { unfold colon. rewrite contains_notation. simpl. now rewrite orb_true_r. }
    rewrite Hd, Hd'.
    rewrite (bind_inr _ _ _ _ _ _
               (parse_manual_notation L ":" c p r a n fmt self Hc' Hp' Hr' Ha' Hn)).
    reflexivity.
Qed.

Lemma parse_variant_string_notations_witness :
  result_of (parse_variant_string Sample.lib "chr1-1001000-A-G" "gnomad" Sample.self)
  = inr (parsed_variant (PyStr "chr1") (PyInt 1001000) (PyStr "A") (PyStr "G")
           (PyStr "chr1-1001000-A-G") "gnomad" "chr1-1001000-A-G")
  /\ result_of (parse_variant_string Sample.lib "chr1:1001000:A:G" "gnomad" Sample.self)
     = inr (parsed_variant (PyStr "chr1") (PyInt 1001000) (PyStr "A") (PyStr "G")
              (PyStr "chr1:1001000:A:G") "gnomad" "chr1:1001000:A:G").
Proof.
  apply (parse_variant_string_notations Sample.lib Sample.self
           "chr1" "1001000" "A" "G" "gnomad" 1001000); reflexivity.
Defined.

(** C5, as stated, fails: ["-5"] is a position [int] reads, yet neither
    ["chr1--5-A-G"] nor ["chr1:-5:A:G"] is parsed by the wrapper (the
    first splits into five parts, the second is split on ['-'] as well);
    both go to the library's parser, and a parser that rejects them
    makes both calls fail. *)
Lemma parse_variant_string_negative_position :
  parse_int "-5" = Some (-5)
  /\ contains "-" "chr1" = false /\ contains ":" "chr1" = false
  /\ notation "-" "chr1" "-5" "A" "G" = "chr1--5-A-G"
  /\ notation ":" "chr1" "-5" "A" "G" = "chr1:-5:A:G"
  /\ result_of (parse_variant_string Sample.lib "chr1--5-A-G" "default" Sample.self)
     = inr (error_envelope (ValueError "Invalid variant format: chr1--5-A-G"))
  /\ result_of (parse_variant_string Sample.lib "chr1:-5:A:G" "default" Sample.self)
     = inr (error_envelope (ValueError "Invalid variant format: chr1:-5:A:G")).
Proof. repeat split; reflexivity. Qed.

(* ================================================================== *)
(** * [validate_genomic_data] *)
(* ================================================================== *)

Lemma py_compare_number (op : cmp_op) (a b : pyval) (p : number) :
  as_number a = Some p ->
  py_compare op a b
  = match as_number b with
    | Some q => inr (cmp_number op p q)
    | None => inl (not_supported op a b)
    end.
Proof. destruct a; try discriminate; intros [= <-]; destruct b; reflexivity. Qed.

Lemma py_compare_int (op : cmp_op) (a : pyval) (z : Z) :
  py_compare op a (PyInt z)
  = match as_number a with
    | Some p => inr (cmp_number op p (Finite (inject_Z z)))
    | None => inl (not_supported op a (PyInt z))
    end.
Proof. destruct a; reflexivity. Qed.

Lemma cmp_Q_lt (p q : Q) : cmp_Q OpLt p q = false <-> (q <= p)%Q.
Proof. unfold cmp_Q. rewrite negb_false_iff. apply Qle_bool_iff. Qed.

Lemma cmp_Q_lt_true (p q : Q) : cmp_Q OpLt p q = true <-> (p < q)%Q.
Proof.
  unfold cmp_Q. rewrite negb_true_iff. split.
  - intros H. apply Qnot_le_lt. intros Hle. apply Qle_bool_iff in Hle. congruence.
  - intros H. destruct (Qle_bool q p) eqn:E; [|reflexivity].
    apply Qle_bool_iff in E. now apply Qlt_not_le in H.
Qed.

(** [position < 1] is false exactly for the positions accepted. *)
Lemma position_comparison (p : number) :
  cmp_number OpLt p (Finite (inject_Z 1)) = false <-> position_accepted p.
Proof.
  destruct p as [q|[| |]]; cbn [cmp_number lt_number position_accepted];
    try apply cmp_Q_lt; split; try reflexivity; try discriminate; tauto.
Qed.

(** [start >= end] and [start < 1] are both false exactly for the bounds
    accepted. *)
Lemma bounds_comparisons (s e : number) :
  cmp_number OpGe s e = false /\ cmp_number OpLt s (Finite (inject_Z 1)) = false
  <-> bounds_accepted s e.
Proof.
  destruct s as [p|[| |]], e as [q|[| |]];
    cbn [cmp_number lt_number bounds_accepted is_nan orb negb andb];
    rewrite ?negb_false_iff, ?cmp_Q_lt, ?cmp_Q_lt_true;
    (split; [intros [H1 H2]; try discriminate; tauto
            | intros H; repeat split; try reflexivity; tauto]).
Qed.

(** The two comparisons of the interval branch come out false exactly
    for numbers with the bounds accepted. *)
Lemma interval_comparisons (start end_ : pyval) :
  py_ge start end_ = inr false /\ py_lt start (PyInt 1) = inr false
  <-> exists s e, as_number start = Some s /\ as_number end_ = Some e
                  /\ bounds_accepted s e.
Proof.
  unfold py_ge, py_lt. rewrite py_compare_int. split.
  - intros [Hge Hlt].
    destruct (as_number start) as [s|] eqn:Hs; [|discriminate].
    rewrite (py_compare_number _ _ _ _ Hs) in Hge.
    destruct (as_number end_) as [e|] eqn:He; [|discriminate].
    exists s, e. repeat split. apply bounds_comparisons.
    split; congruence.
  - intros [s [e [Hs [He Hb]]]].
    apply bounds_comparisons in Hb as [Hge Hlt].
    rewrite (py_compare_number _ _ _ _ Hs), Hs, He. split; now f_equal.
Qed.

Section Validate.

Context (rt : PyRuntime) (L : Lib).

Lemma as_number_not_none (v : pyval) (q : number) :
  as_number v = Some q -> is_none v = false.
Proof. destruct v; try discriminate; reflexivity. Qed.

Lemma validate_interval_spec (kv : list (string * pyval)) (self : AlphaGenomeClient L) :
  exists out evs,
    validate_interval L (PyDict kv) self = (out, self, evs)
    /\ match out with
       | inl _ => ~ interval_accepted kv
       | inr v => (valid v = true <-> interval_accepted kv)
                  /\ (valid v = true -> v = validation_start)
                  /\ (valid v = false -> exists msg rest, errors v = msg :: rest)
       end.
Proof.
  unfold validate_interval, interval_accepted, data_get.
  rewrite !lift_inr, !bind_ret.
  set (chromosome := py_get kv "chromosome" (PyStr EmptyString)).
  set (start := py_get kv "start" PyNone).
  set (end_ := py_get kv "end" PyNone).
  pose proof (interval_comparisons start end_) as Hcmp.
  destruct (is_none start || is_none end_) eqn:Hnone.
  { do 2 eexists. split; [reflexivity|]. simpl. repeat split; try discriminate.
    - intros [_ [s [e [Hs [He _]]]]].
      apply as_number_not_none in Hs, He. rewrite Hs, He in Hnone. discriminate.
    - intros _. destruct (negb (truthy chromosome)); simpl; eauto. }
  destruct (py_ge start end_) as [x|[|]] eqn:Hge; rewrite ?lift_inr, ?lift_inl.
  { rewrite bind_raise. do 2 eexists. split; [reflexivity|].
    intros [_ Hx]. apply Hcmp in Hx as [Hx _]. discriminate. }
  { rewrite bind_ret. do 2 eexists. split; [reflexivity|].
    simpl. repeat split; try discriminate.
    - intros [_ Hx]. apply Hcmp in Hx as [Hx _]. discriminate.
    - intros _. destruct (negb (truthy chromosome)); simpl; eauto. }
  rewrite bind_ret.
  destruct (py_lt start (PyInt 1)) as [x|[|]] eqn:Hlt; rewrite ?lift_inr, ?lift_inl.
  { rewrite bind_raise. do 2 eexists. split; [reflexivity|].
    intros [_ Hx]. apply Hcmp in Hx as [_ Hx]. discriminate. }
  { rewrite bind_ret. do 2 eexists. split; [reflexivity|].
    simpl. repeat split; try discriminate.
    - intros [_ Hx]. apply Hcmp in Hx as [_ Hx]. discriminate.
    - intros _. destruct (negb (truthy chromosome)); simpl; eauto. }
  rewrite bind_ret. do 2 eexists. split; [reflexivity|].
  destruct (truthy chromosome) eqn:Ht; simpl.
  - repeat split; try discriminate. now apply Hcmp.
  - repeat split; try discriminate; eauto. intros [[=] _].
Qed.

End Validate.


(** C7, as amended.  For every data dictionary, [validate_genomic_data]
    with data type ["interval"] returns success with [valid] true if and
    only if the chromosome field is true in a Boolean context (for a
    string: not empty) and [start] and [end] are numbers, hence not
    [None], for which neither [start >= end] nor [start < 1] is true:
    [start < end] and [start >= 1] for two numbers of the line, and
    also the bounds with a NaN or an infinity that [bounds_accepted]
    lists, which [json.loads] can produce (a NaN [start] is accepted
    with any [end]).  When [valid] is false, [errors] is not empty. *)
Theorem validate_interval_valid_iff (rt : PyRuntime) (L : Lib)
    (self : AlphaGenomeClient L) (kv : list (string * pyval)) :
  let r := validate_genomic_data rt L "interval" (PyDict kv) self in
  ((exists res, result_of r = inr (validated "interval" res)
                /\ dict_get "valid" res = Some (PyBool true))
   <-> interval_accepted kv)
  /\ (forall res, result_of r = inr (validated "interval" res) ->
                  dict_get "valid" res = Some (PyBool false) ->
                  exists msg rest,
                    dict_get "errors" res = Some (PyList (PyStr msg :: rest))).
Proof.
  intros r. subst r.
  change (validate_genomic_data rt L "interval" (PyDict kv))
    with (try_except L (validation_results <- validate_interval L (PyDict kv) ;;
                        ret (validated "interval"
                               [("valid", PyBool (valid validation_results));
                                ("warnings", PyList (map PyStr (warnings validation_results)));
                                ("errors", PyList (map PyStr (errors validation_results)))]))).
  destruct (validate_interval_spec L kv self) as [[e|v] [evs [Hrun Hspec]]];
    unfold try_except.
  - rewrite (bind_inl _ _ _ _ _ _ Hrun). unfold result_of. simpl. split.
    + split; [intros [res [[=] _]] | intros H; now apply Hspec in H].
    + intros res [=].
  - rewrite (bind_inr _ _ _ _ _ _ Hrun). unfold result_of. simpl.
    destruct Hspec as [Hiff [Hstart Herr]]. split.
    + split.
      * intros [res [[= <-] Hv]]. simpl in Hv. apply Hiff. congruence.
      * intros H. apply Hiff in H. eexists. split; [reflexivity|].
        simpl. now rewrite H.
    + intros res [= <-] Hv. simpl in Hv.
      destruct (Herr ltac:(congruence)) as [msg [rest Hm]].
      exists msg, (map PyStr rest). simpl. now rewrite Hm.
Qed.

(** C7, as stated, fails: a chromosome that is not a string, here the
    number 1, is accepted. *)
Lemma validate_interval_numeric_chromosome :
  let kv := [("chromosome", PyInt 1); ("start", PyInt 1); ("end", PyInt 5)] in
  result_of (validate_genomic_data Sample.runtime Sample.lib "interval" (PyDict kv)
               Sample.self)
  = inr (validated "interval"
           [("valid", PyBool true); ("warnings", PyList []); ("errors", PyList [])])
  /\ forall s, dict_get "chromosome" kv <> Some (PyStr s).
Proof. split; [reflexivity | intros s; discriminate]. Qed.

(** It fails in a second way: with NaN for [start], which [json.loads]
    yields for the literal [NaN], neither comparison is true and the
    interval is accepted. *)
Lemma validate_interval_nan_start :
  let kv := [("chromosome", PyStr "chr1"); ("start", PyNonFinite NaN);
             ("end", PyInt 5)] in
  result_of (validate_genomic_data Sample.runtime Sample.lib "interval" (PyDict kv)
               Sample.self)
  = inr (validated "interval"
           [("valid", PyBool true); ("warnings", PyList []); ("errors", PyList [])]).
Proof. reflexivity. Qed.

(** C10.  For a data type other than ["sequence"], ["interval"] and
    ["variant"], and any data, [validate_genomic_data] returns success
    with [valid] true and with empty [warnings] and [errors]. *)
Theorem validate_unknown_data_type (rt : PyRuntime) (L : Lib)
    (self : AlphaGenomeClient L) (data_type : string) (data : pyval) :
  data_type <> "sequence" -> data_type <> "interval" -> data_type <> "variant" ->
  result_of (validate_genomic_data rt L data_type data self)
  = inr (validated data_type
           [("valid", PyBool true); ("warnings", PyList []); ("errors", PyList [])]).
Proof.
  intros Hs Hi Hv. unfold validate_genomic_data.
  destruct (String.eqb_spec data_type "sequence"); [contradiction|].
  destruct (String.eqb_spec data_type "interval"); [contradiction|].
  destruct (String.eqb_spec data_type "variant"); [contradiction|].
  reflexivity.
Qed.

Lemma validate_unknown_data_type_witness :
  result_of (validate_genomic_data Sample.runtime Sample.lib "genome"
               (PyDict [("sequence", PyStr "not DNA")]) Sample.self)
  = inr (validated "genome"
           [("valid", PyBool true); ("warnings", PyList []); ("errors", PyList [])]).
Proof.
  apply (validate_unknown_data_type Sample.runtime Sample.lib Sample.self "genome");
    discriminate.
Defined.

(* ================================================================== *)
(** * [get_sequence_info] *)
(* ================================================================== *)

Lemma len_String (c : ascii) (s : string) : len (String c s) = 1 + len s.
Proof. unfold len. simpl String.length. lia. Qed.

Lemma len_nonneg (s : string) : 0 <= len s.
Proof. unfold len. lia. Qed.

Lemma len_positive (s : string) : s <> EmptyString -> 0 < len s.
Proof. destruct s; [contradiction | intros _; rewrite len_String; pose proof (len_nonneg s); lia]. Qed.

(** No character has an empty upper case. *)
Lemma upper_of_first (c : ascii) : exists d r, upper_of c = String d r.
Proof.
  destruct c as [[] [] [] [] [] [] [] []]; vm_compute; eexists; eexists; reflexivity.
Qed.

Lemma upper_empty (s : string) : upper s = EmptyString <-> s = EmptyString.
Proof.
  destruct s as [|c s]; [split; reflexivity|]. split; [|discriminate].
  unfold upper. cbn [flat_map_string].
  destruct (upper_of_first c) as [d [r ->]]. discriminate.
Qed.

Lemma count_nonneg (c : ascii) (s : string) : 0 <= count c s.
Proof. induction s as [|d s IH]; simpl; [lia|]. destruct (Ascii.eqb c d); lia. Qed.

Lemma count_absent (c : ascii) (s : string) : ~ In c (chars s) -> count c s = 0.
Proof.
  induction s as [|d s IH]; simpl; [reflexivity|].
  intros H. destruct (Ascii.eqb_spec c d) as [->|Hne]; [tauto|].
  rewrite IH; tauto.
Qed.

Lemma count_String (c d : ascii) (s : string) :
  count c (String d s) = (if Ascii.eqb c d then 1 else 0) + count c s.
Proof. reflexivity. Qed.

(** The five counts of a string over A, T, G, C, N add up to its
    length. *)
Lemma count_sum (s : string) :
  (forall c, In c (chars s) -> In c dna_alphabet) ->
  count "A" s + count "T" s + count "G" s + count "C" s + count "N" s = len s.
Proof.
  induction s as [|d s IH]; [reflexivity|].
  intros H. rewrite len_String, <- IH by (intros c Hc; apply H; now right).
  assert (Hd : In d dna_alphabet) by (apply H; now left).
  simpl in Hd. destruct Hd as [<-|[<-|[<-|[<-|[<-|[]]]]]];
    rewrite !count_String;
    repeat match goal with
           | |- context [Ascii.eqb ?x ?y] =>
               let v := eval vm_compute in (Ascii.eqb x y) in
               change (Ascii.eqb x y) with v
           end;
    cbv iota; lia.
Qed.

Section SequenceInfo.

Context (rt : PyRuntime) (L : Lib).

Lemma percentage_defined (a b : Z) : b <> 0 -> exists q, percentage a b = inr q.
Proof.
  intros Hb. unfold percentage, truediv.
  destruct (Z.eqb_spec b 0); [contradiction|]. eexists. reflexivity.
Qed.

Lemma closest_supported (length : Z) :
  closest length supported_lengths
  = inr (closest_from 2048 length [16384; 131072; 524288; 1048576]).
Proof. reflexivity. Qed.

(** The run on a non-empty string over A, T, G, C, N (in any case). *)
Lemma get_sequence_info_run (s : string) (self : AlphaGenomeClient L) :
  s <> EmptyString -> dna_only s ->
  exists gc_content n_content,
    get_sequence_info rt L s self
    = (inr (PyDict
              [("success", PyBool true);
               ("result",
                PyDict [("length", PyInt (len (upper s)));
                        ("base_counts",
                         int_dict [("A", count "A" (upper s)); ("T", count "T" (upper s));
                                   ("G", count "G" (upper s)); ("C", count "C" (upper s));
                                   ("N", count "N" (upper s))]);
                        ("gc_content", py_round2 gc_content);
                        ("at_content", py_round2 (hundred_minus gc_content));
                        ("n_content", PyFloat (round2 n_content));
                        ("is_valid", PyBool true);
                        ("invalid_characters", PyList []);
                        ("is_supported_length",
                         PyBool (existsb (Z.eqb (len (upper s))) supported_lengths));
                        ("closest_supported_length",
                         PyInt (closest_from 2048 (len (upper s))
                                  [16384; 131072; 524288; 1048576]));
                        ("supported_lengths", PyList (map PyInt supported_lengths))])]),
       self, [])
    /\ (count "G" (upper s) + count "C" (upper s)
        + (count "A" (upper s) + count "T" (upper s)) = 0 ->
        gc_content = PyInt 0).
Proof.
  intros Hne Hdna. unfold get_sequence_info, try_except.
  assert (Ht : truthy (PyStr s) = true) by now apply truthy_str.
  rewrite Ht. simpl negb. cbv iota. rewrite bind_ret. cbv zeta.
  assert (Hinv : set_diff (set_of (upper s)) valid_chars = []).
  { apply set_diff_nil. exact Hdna. }
  rewrite Hinv.
  assert (Hlen : len (upper s) <> 0).
  { assert (Hup : upper s <> EmptyString) by now rewrite upper_empty.
    pose proof (len_positive (upper s) Hup). lia. }
  destruct (percentage_defined (count "N" (upper s)) (len (upper s)) Hlen) as [pn Hpn].
  set (known := count "G" (upper s) + count "C" (upper s)
                + (count "A" (upper s) + count "T" (upper s))).
  destruct (known >? 0)%Z eqn:Hk.
  - assert (Hk0 : known <> 0) by lia.
    destruct (percentage_defined (count "G" (upper s) + count "C" (upper s)) known Hk0)
      as [pg Hpg].
    exists (PyFloat pg), pn. split; [|intros H0; contradiction].
    rewrite Hpg, lift_inr, bind_assoc, !bind_ret.
    rewrite closest_supported, lift_inr, bind_ret.
    rewrite Hpn, lift_inr, bind_ret. reflexivity.
  - exists (PyInt 0), pn. split; [|reflexivity].
    rewrite bind_ret, closest_supported, lift_inr, bind_ret.
    rewrite Hpn, lift_inr, bind_ret. reflexivity.
Qed.

End SequenceInfo.

(** C8.  On the empty string [get_sequence_info] returns the envelope
    of a [ValueError].  On a non-empty string whose upper-cased
    characters all lie in A, T, G, C, N it returns success with
    [is_valid] true and no invalid characters; the five base counts add
    up to the reported length; and when every character is N the
    [gc_content] is 0 (no division by the zero count of known bases
    takes place). *)
Theorem get_sequence_info_valid (rt : PyRuntime) (L : Lib) (self : AlphaGenomeClient L)
    (s : string) :
  result_of (get_sequence_info rt L EmptyString self)
  = inr (error_envelope (ValueError "Sequence cannot be empty"))
  /\ (s <> EmptyString -> dna_only s ->
      exists res a t g c n,
        result_of (get_sequence_info rt L s self)
        = inr (PyDict [("success", PyBool true); ("result", PyDict res)])
        /\ dict_get "is_valid" res = Some (PyBool true)
        /\ dict_get "invalid_characters" res = Some (PyList [])
        /\ dict_get "base_counts" res
           = Some (PyDict [("A", PyInt a); ("T", PyInt t); ("G", PyInt g);
                           ("C", PyInt c); ("N", PyInt n)])
        /\ dict_get "length" res = Some (PyInt (a + t + g + c + n))
        /\ ((forall ch, In ch (chars (upper s)) -> ch = "N"%char) ->
            dict_get "gc_content" res = Some (PyInt 0))).
Proof.
  split; [reflexivity|].
  intros Hne Hdna.
  destruct (get_sequence_info_run rt L s self Hne Hdna) as [gc [pn [Hrun Hgc]]].
  rewrite Hrun. unfold result_of, fst.
  do 6 eexists. split; [reflexivity|].
  split; [reflexivity|]. split; [reflexivity|]. split; [reflexivity|].
  split.
  - simpl. now rewrite (count_sum (upper s) Hdna).
  - intros HN. simpl. rewrite Hgc; [reflexivity|].
    rewrite !count_absent; [reflexivity| | | |];
      intros Hin; apply HN in Hin; discriminate.
Qed.

Lemma get_sequence_info_valid_witness :
  exists res a t g c n,
    result_of (get_sequence_info Sample.runtime Sample.lib "nnNN" Sample.self)
    = inr (PyDict [("success", PyBool true); ("result", PyDict res)])
    /\ dict_get "is_valid" res = Some (PyBool true)
    /\ dict_get "invalid_characters" res = Some (PyList [])
    /\ dict_get "base_counts" res
       = Some (PyDict [("A", PyInt a); ("T", PyInt t); ("G", PyInt g);
                       ("C", PyInt c); ("N", PyInt n)])
    /\ dict_get "length" res = Some (PyInt (a + t + g + c + n))
    /\ ((forall ch, In ch (chars (upper "nnNN")) -> ch = "N"%char) ->
        dict_get "gc_content" res = Some (PyInt 0)).
Proof.
  apply (get_sequence_info_valid Sample.runtime Sample.lib Sample.self "nnNN").
  - discriminate.
  - intros ch Hin. simpl in Hin. simpl. intuition.
Defined.

(* ================================================================== *)
(** * [calculate_genomic_overlap] *)
(* ================================================================== *)

Lemma inject_Z_nonzero (n : Z) : n <> 0 -> ~ (inject_Z n == 0)%Q.
Proof. intros Hn H. unfold Qeq in H. simpl in H. lia. Qed.

(** An interval that is covered completely is covered by 100 percent. *)
Lemma percentage_full (n : Z) : n <> 0 -> percentage n n = inr 100%Q.
Proof.
  intros Hn. unfold percentage, truediv.
  destruct (Z.eqb_spec n 0); [contradiction|].
  f_equal. unfold fmul.
  rewrite (Qred_complete (inject_Z n / inject_Z n) 1).
  - reflexivity.
  - unfold Qdiv. apply Qmult_inv_r. now apply inject_Z_nonzero.
Qed.

Section Overlap.

Context (rt : PyRuntime) (L : Lib).

Lemma bind_pure_run {A B} (m : M L A) (k : A -> M L B) (self : AlphaGenomeClient L) a :
  m self = (inr a, self, []) -> bind m k self = k a self.
Proof.
  intros H. rewrite (bind_inr _ _ _ _ _ _ H).
  now destruct (k a self) as [[r s] evs].
Qed.

Lemma interval_from_run d int (self : AlphaGenomeClient L) :
  interval_object L d = inr int -> interval_from L d self = (inr int, self, []).
Proof.
  unfold interval_object, interval_from. intros H.
  destruct (py_getitem d "chromosome") as [x|c]; [discriminate|].
  destruct (py_getitem d "start") as [x|s]; [discriminate|].
  destruct (py_getitem d "end") as [x|e]; [discriminate|].
  rewrite !lift_inr, !bind_ret, H. reflexivity.
Qed.

Lemma interval_text_from_run d int (self : AlphaGenomeClient L) :
  interval_object L d = inr int ->
  exists text, interval_text_from rt L d self = (inr text, self, []).
Proof.
  unfold interval_object, interval_text_from. intros H.
  destruct (py_getitem d "chromosome") as [x|c]; [discriminate|].
  destruct (py_getitem d "start") as [x|s]; [discriminate|].
  destruct (py_getitem d "end") as [x|e]; [discriminate|].
  rewrite !lift_inr, !bind_ret. eexists. reflexivity.
Qed.

End Overlap.

(** C6.  Let two interval dictionaries stand for [Interval] objects
    that overlap, whose intersection the library returns, and none of
    which spans zero positions ([end - start + 1] is not 0).  Then
    [calculate_genomic_overlap] returns success with [overlaps] true;
    [interval1_length] is [end1 - start1 + 1] and [interval2_length] is
    [end2 - start2 + 1]; the intersection is reported with [length]
    equal to its [end - start + 1], and [overlap_length] is that same
    number.  A percentage is 100 as soon as the intersection spans as
    many positions as the interval; so for two identical intervals,
    whose intersection is the interval itself, both are 100. *)
Theorem calculate_genomic_overlap_overlapping (rt : PyRuntime) (L : Lib)
    (self : AlphaGenomeClient L) (interval1 interval2 : pyval)
    (int1 int2 intersection : Interval) :
  interval_object L interval1 = inr int1 ->
  interval_object L interval2 = inr int2 ->
  Interval_overlaps L int1 int2 = true ->
  Interval_intersect L int1 int2 = Some intersection ->
  interval_end int1 - interval_start int1 + 1 <> 0 ->
  interval_end int2 - interval_start int2 + 1 <> 0 ->
  exists res inter stats p1 p2,
    result_of (calculate_genomic_overlap rt L interval1 interval2 self)
    = inr (PyDict [("success", PyBool true); ("result", PyDict res)])
    /\ dict_get "overlaps" res = Some (PyBool true)
    /\ dict_get "intersection" res = Some (PyDict inter)
    /\ dict_get "start" inter = Some (PyInt (interval_start intersection))
    /\ dict_get "end" inter = Some (PyInt (interval_end intersection))
    /\ dict_get "length" inter
       = Some (PyInt (interval_end intersection - interval_start intersection + 1))
    /\ dict_get "overlap_stats" res = Some (PyDict stats)
    /\ dict_get "overlap_length" stats
       = Some (PyInt (interval_end intersection - interval_start intersection + 1))
    /\ dict_get "interval1_length" stats
       = Some (PyInt (interval_end int1 - interval_start int1 + 1))
    /\ dict_get "interval2_length" stats
       = Some (PyInt (interval_end int2 - interval_start int2 + 1))
    /\ dict_get "overlap_percentage_int1" stats = Some (PyFloat p1)
    /\ dict_get "overlap_percentage_int2" stats = Some (PyFloat p2)
    /\ (interval_end intersection - interval_start intersection
        = interval_end int1 - interval_start int1 -> p1 = 100%Q)
    /\ (interval_end intersection - interval_start intersection
        = interval_end int2 - interval_start int2 -> p2 = 100%Q)
    /\ (interval1 = interval2 ->
        interval_start intersection = interval_start int1 ->
        interval_end intersection = interval_end int1 ->
        p1 = 100%Q /\ p2 = 100%Q).
Proof.
  intros H1 H2 Hov Hix Hl1 Hl2.
  destruct (interval_text_from_run rt L interval1 int1 self H1) as [text1 Ht1].
  destruct (interval_text_from_run rt L interval2 int2 self H2) as [text2 Ht2].
  set (ol := interval_end intersection - interval_start intersection + 1).
  destruct (percentage_defined ol _ Hl1) as [p1 Hp1].
  destruct (percentage_defined ol _ Hl2) as [p2 Hp2].
  assert (Hrun : calculate_genomic_overlap rt L interval1 interval2 self
                 = (inr (PyDict
                           [("success", PyBool true);
                            ("result",
                             PyDict
                               [("overlaps", PyBool true);
                                ("interval1", PyStr text1);
                                ("interval2", PyStr text2);
                                ("intersection",
                                 PyDict [("chromosome", PyStr (interval_chromosome intersection));
                                         ("start", PyInt (interval_start intersection));
                                         ("end", PyInt (interval_end intersection));
                                         ("length", PyInt ol)]);
                                ("overlap_stats",
                                 PyDict [("overlap_length", PyInt ol);
                                         ("interval1_length",
                                          PyInt (interval_end int1 - interval_start int1 + 1));
                                         ("interval2_length",
                                          PyInt (interval_end int2 - interval_start int2 + 1));
                                         ("overlap_percentage_int1", PyFloat p1);
                                         ("overlap_percentage_int2", PyFloat p2)])])]),
                    self, [])).
  { unfold calculate_genomic_overlap, try_except.
    rewrite (bind_pure_run L _ _ _ _ (interval_from_run L interval1 int1 self H1)).
    rewrite (bind_pure_run L _ _ _ _ (interval_from_run L interval2 int2 self H2)).
    cbv zeta. rewrite Hov, Hix.
    rewrite (bind_pure_run L _ _ _ _ Ht1), (bind_pure_run L _ _ _ _ Ht2).
    unfold overlap_entries. fold ol. rewrite Hp1, Hp2, !lift_inr.
    rewrite bind_assoc, bind_ret, bind_assoc, !bind_ret. reflexivity. }
  rewrite Hrun. unfold result_of, fst.
  do 5 eexists. split; [reflexivity|].
  do 11 (split; [reflexivity|]).
  assert (Hfull1 : interval_end intersection - interval_start intersection
                   = interval_end int1 - interval_start int1 -> p1 = 100%Q).
  { intros Heq. assert (Hol : ol = interval_end int1 - interval_start int1 + 1)
      by (unfold ol; lia).
    rewrite Hol, percentage_full in Hp1 by assumption. congruence. }
  assert (Hfull2 : interval_end intersection - interval_start intersection
                   = interval_end int2 - interval_start int2 -> p2 = 100%Q).
  { intros Heq. assert (Hol : ol = interval_end int2 - interval_start int2 + 1)
      by (unfold ol; lia).
    rewrite Hol, percentage_full in Hp2 by assumption. congruence. }
  split; [exact Hfull1|]. split; [exact Hfull2|].
  intros Hsame Hs He. subst interval2.
  assert (int1 = int2) by congruence. subst int2.
  split; [apply Hfull1 | apply Hfull2]; lia.
Qed.

Lemma calculate_genomic_overlap_overlapping_witness :
  let d := PyDict [("chromosome", PyStr "chr1"); ("start", PyInt 1000); ("end", PyInt 2000)] in
  exists res stats,
    result_of (calculate_genomic_overlap Sample.runtime Sample.lib d d Sample.self)
    = inr (PyDict [("success", PyBool true); ("result", PyDict res)])
    /\ dict_get "overlaps" res = Some (PyBool true)
    /\ dict_get "overlap_stats" res = Some (PyDict stats)
    /\ dict_get "overlap_length" stats = Some (PyInt 1001)
    /\ dict_get "interval1_length" stats = Some (PyInt 1001)
    /\ dict_get "overlap_percentage_int1" stats = Some (PyFloat 100)
    /\ dict_get "overlap_percentage_int2" stats = Some (PyFloat 100).
Proof.
  intros d.
  set (i := {| interval_chromosome := "chr1"; interval_start := 1000;
               interval_end := 2000 |}).
  destruct (calculate_genomic_overlap_overlapping Sample.runtime Sample.lib Sample.self
              d d i i i)
    as [res [inter [stats [p1 [p2 H]]]]]; try reflexivity; try discriminate.
  decompose [and] H. clear H.
  assert (Hp : p1 = 100%Q /\ p2 = 100%Q) by auto.
  destruct Hp as [-> ->].
  exists res, stats. repeat split; assumption.
Defined.

(* ================================================================== *)
(** * The dispatch of [main] *)
(* ================================================================== *)

(** A branch that reads only declared options works: with [--sequence]
    given, [get_sequence_info] is called on it and its result printed. *)
Lemma main_get_sequence_info (rt : PyRuntime) (L : Lib) (args : Args.Namespace)
    (self : AlphaGenomeClient L) (s : string) :
  init L (Args.api_key args) = inr self ->
  Args.command args = cmd_get_sequence_info ->
  Args.sequence args = Some s -> s <> EmptyString ->
  printed (main rt L args) = match result_of (get_sequence_info rt L s self) with
                               | inr v => v
                               | inl e => error_envelope e
                               end
  /\ exit_status (main rt L args) = 0.
Proof.
  intros Hinit Hcmd Hseq Hne. unfold main, dispatch. rewrite Hinit, Hcmd, Hseq.
  assert (Hgiven : missing (Some s) = false).
  { unfold missing, Args.of_str. now rewrite (proj2 (truthy_str s) Hne). }
  rewrite Hgiven. unfold given, result_of.
  pose proof (get_sequence_info_enveloped rt L s self) as Henv.
  destruct (get_sequence_info rt L s self) as [[[e|v] self1] evs]; [contradiction|].
  split; reflexivity.
Qed.

(** C2 fails on the code.  For the subcommands [parse_variant_string],
    [validate_genomic_data] and [calculate_genomic_overlap] the branch
    of [main] starts by reading an attribute of [args] that the parser
    never declares; whatever the command line, the read raises
    [AttributeError], the method is not called, and [main] prints the
    error envelope and exits with status 1. *)
Theorem main_undeclared_attribute (rt : PyRuntime) (L : Lib) (args : Args.Namespace)
    (self : AlphaGenomeClient L) (name : string) :
  init L (Args.api_key args) = inr self ->
  undeclared_attribute (Args.command args) = Some name ->
  main rt L args
  = {| printed := error_envelope (no_attribute name);
       exit_status := 1;
       trace := [Raised (no_attribute name)] |}.
Proof.
  intros Hinit Hcmd. unfold main, dispatch. rewrite Hinit.
  destruct (Args.command args); try discriminate; injection Hcmd as <-; reflexivity.
Qed.

Lemma main_undeclared_attribute_witness :
  main Sample.runtime Sample.lib (Sample.args cmd_parse_variant_string)
  = {| printed := error_envelope (no_attribute "variant_string");
       exit_status := 1;
       trace := [Raised (no_attribute "variant_string")] |}.
Proof.
  apply (main_undeclared_attribute Sample.runtime Sample.lib
           (Sample.args cmd_parse_variant_string) Sample.self "variant_string");
    reflexivity.
Defined.

(* ================================================================== *)
(** * How often the client is called *)
(* ================================================================== *)

Section CallRules.

Context {L : Lib}.

Lemma quiet_ret {A} (a : A) : quiet (L:=L) (ret a).
Proof. intros self. reflexivity. Qed.

Lemma quiet_raise {A} (e : exn) : quiet (L:=L) (raise (A:=A) e).
Proof. intros self. reflexivity. Qed.

Lemma quiet_lift {A} (r : exn + A) : quiet (L:=L) (lift r).
Proof. destruct r; [apply quiet_raise | apply quiet_ret]. Qed.

Lemma quiet_serializing {A} (body : exn + A) : quiet (L:=L) (serializing body).
Proof. intros self. unfold serializing, absorbing, events_of. now destruct body. Qed.

Lemma quiet_bind {A B} (m : M L A) (k : A -> M L B) :
  quiet m -> (forall a, quiet (k a)) -> quiet (bind m k).
Proof.
  intros Hm Hk self. specialize (Hm self). unfold bind, events_of in *.
  destruct (m self) as [[[e|a] self1] evs]; simpl in *; [assumption|].
  specialize (Hk a self1). unfold events_of in Hk.
  destruct (k a self1) as [[r self2] evs']; simpl in *.
  now rewrite calls_of_app, Hm, Hk.
Qed.

Lemma quiet_mapM {A B} (f : A -> M L B) (l : list A) :
  (forall x, quiet (f x)) -> quiet (mapM L f l).
Proof.
  intros Hf. induction l as [|x l IH]; simpl; [apply quiet_ret|].
  apply quiet_bind; [apply Hf|]. intros y.
  apply quiet_bind; [apply IH|]. intros ys. apply quiet_ret.
Qed.

Lemma quiet_try_except (body : M L pyval) : quiet body -> quiet (try_except L body).
Proof.
  intros Hb self. specialize (Hb self). unfold try_except, events_of in *.
  destruct (body self) as [[[e|v] self1] evs]; assumption.
Qed.

Lemma at_most_quiet {A} (n : nat) (m : M L A) : quiet m -> calls_at_most n m.
Proof. intros H self. rewrite (H self). simpl. lia. Qed.

Lemma at_most_call (c : client_call) : calls_at_most (L:=L) 1 (call_client c).
Proof.
  intros self. unfold call_client, events_of.
  destruct (invoke L (client self) c) as [cl [e|v]]; simpl; lia.
Qed.

Lemma at_most_bind {A B} (n p : nat) (m : M L A) (k : A -> M L B) :
  calls_at_most n m -> (forall a, calls_at_most p (k a)) ->
  calls_at_most (n + p) (bind m k).
Proof.
  intros Hm Hk self. specialize (Hm self). unfold bind, events_of in *.
  destruct (m self) as [[[e|a] self1] evs]; simpl in *; [lia|].
  specialize (Hk a self1). unfold events_of in Hk.
  destruct (k a self1) as [[r self2] evs']; simpl in *.
  rewrite calls_of_app, length_app. lia.
Qed.

Lemma at_most_bind_quiet {A B} (n : nat) (m : M L A) (k : A -> M L B) :
  quiet m -> (forall a, calls_at_most n (k a)) -> calls_at_most n (bind m k).
Proof.
  intros Hm Hk. apply (at_most_bind 0 n); [now apply at_most_quiet | assumption].
Qed.

Lemma at_most_bind_then_quiet {A B} (n : nat) (m : M L A) (k : A -> M L B) :
  calls_at_most n m -> (forall a, quiet (k a)) -> calls_at_most n (bind m k).
Proof.
  intros Hm Hk. rewrite <- (Nat.add_0_r n).
  apply at_most_bind; [assumption|]. intros a. now apply at_most_quiet.
Qed.

Lemma at_most_try_except (n : nat) (body : M L pyval) :
  calls_at_most n body -> calls_at_most n (try_except L body).
Proof.
  intros Hb self. specialize (Hb self). unfold try_except, events_of in *.
  destruct (body self) as [[[e|v] self1] evs]; assumption.
Qed.

End CallRules.

Ltac quiet_step :=
  match goal with
  | |- quiet (try_except _ _) => apply quiet_try_except
  | |- quiet (bind _ _) => apply quiet_bind; [ | intros ? ]
  | |- quiet (ret _) => apply quiet_ret
  | |- quiet (raise _) => apply quiet_raise
  | |- quiet (lift _) => apply quiet_lift
  | |- quiet (serializing _) => apply quiet_serializing
  | |- quiet (mapM _ _ _) => apply quiet_mapM; intros ?
  | |- quiet (if ?b then _ else _) => destruct b
  | |- quiet (match ?x with _ => _ end) => destruct x
  | |- quiet (let (_, _) := ?x in _) => destruct x
  | |- quiet _ => progress cbv zeta
  | |- quiet _ => progress autounfold with cmds
  end.

Ltac quiet_auto := repeat quiet_step.

Ltac at_most_step :=
  match goal with
  | |- calls_at_most _ (try_except _ _) => apply at_most_try_except
  | |- calls_at_most _ (call_client _) => apply at_most_call
  | |- calls_at_most _ (bind (call_client _) _) =>
      apply at_most_bind_then_quiet; [apply at_most_call | intros ?; solve [quiet_auto]]
  | |- calls_at_most _ (bind _ _) =>
      apply at_most_bind_quiet; [solve [quiet_auto] | intros ?]
  | |- calls_at_most _ (if ?b then _ else _) => destruct b
  | |- calls_at_most _ (match ?x with _ => _ end) => destruct x
  | |- calls_at_most _ _ => progress cbv zeta
  | |- calls_at_most _ _ => progress autounfold with cmds
  | |- calls_at_most _ _ => progress autounfold with methods
  | |- calls_at_most _ _ => apply at_most_quiet; solve [quiet_auto]
  end.

Section CallBudget.

Context (rt : PyRuntime) (L : Lib).

Lemma predict_sequence_one_call s o ots terms :
  calls_at_most 1 (predict_sequence L s o ots terms).
Proof. unfold predict_sequence. repeat at_most_step. Qed.

Lemma score_variants_one_call vs i o w : calls_at_most 1 (score_variants rt L vs i o w).
Proof. unfold score_variants. repeat at_most_step. Qed.

Lemma compare_sequences_two_calls s1 s2 o ots :
  calls_at_most 2 (compare_sequences L s1 s2 o ots).
Proof.
  unfold compare_sequences. apply at_most_try_except.
  apply (at_most_bind 1 1); [apply predict_sequence_one_call|]. intros r1.
  apply at_most_bind_then_quiet; [apply predict_sequence_one_call|].
  intros r2. quiet_auto.
Qed.

Lemma rank_variants_by_impact_one_call vs i o metric w :
  calls_at_most 1 (rank_variants_by_impact rt L vs i o metric w).
Proof.
  unfold rank_variants_by_impact. apply at_most_try_except.
  apply at_most_bind_then_quiet; [apply score_variants_one_call|].
  intros r. quiet_auto.
Qed.

End CallBudget.

(** X1.  No public method calls the client more than once in a run,
    except [compare_sequences], which calls it at most twice (once for
    each sequence). *)
Theorem client_call_budget (rt : PyRuntime) (L : Lib) (q : request)
    (self : AlphaGenomeClient L) :
  (List.length (calls_of (events_of (perform rt L q self))) <= call_budget q)%nat.
Proof.
  revert self. change (calls_at_most (call_budget q) (perform rt L q)).
  destruct q; unfold call_budget; simpl;
    try apply compare_sequences_two_calls;
    try apply rank_variants_by_impact_one_call;
    repeat at_most_step.
Qed.

(* ================================================================== *)
(** * The methods that stay local *)
(* ================================================================== *)

Lemma local_pure (rt : PyRuntime) (L : Lib) (q : request) :
  is_local q = true -> pure_cmd (perform rt L q).
Proof. destruct q; simpl; intros Hq; try discriminate; repeat pure_step. Qed.

(** X2.  [parse_variant_string], [validate_genomic_data],
    [get_supported_outputs], [calculate_genomic_overlap],
    [get_sequence_info] and [analyze_gene_region] never call the client
    and leave the object as it was; what they return and raise does not
    depend on the state of the client. *)
Theorem local_methods_offline (rt : PyRuntime) (L : Lib) (q : request)
    (self self' : AlphaGenomeClient L) :
  is_local q = true ->
  calls_of (events_of (perform rt L q self)) = []
  /\ self_of (perform rt L q self) = self
  /\ result_of (perform rt L q self) = result_of (perform rt L q self')
  /\ events_of (perform rt L q self) = events_of (perform rt L q self').
Proof.
  intros Hq. destruct (local_pure rt L q Hq) as [r [evs [Hc Hrun]]].
  rewrite (Hrun self), (Hrun self'). unfold result_of, self_of, events_of. simpl. auto.
Qed.

Lemma local_methods_offline_witness :
  let d := PyDict [("chromosome", PyStr "chr2"); ("start", PyInt 10); ("end", PyInt 20)] in
  let q := req_calculate_genomic_overlap d d in
  let self' := Build_AlphaGenomeClient Sample.lib 3%nat in
  calls_of (events_of (perform Sample.runtime Sample.lib q Sample.self)) = []
  /\ self_of (perform Sample.runtime Sample.lib q Sample.self) = Sample.self
  /\ result_of (perform Sample.runtime Sample.lib q Sample.self)
     = result_of (perform Sample.runtime Sample.lib q self')
  /\ events_of (perform Sample.runtime Sample.lib q Sample.self)
     = events_of (perform Sample.runtime Sample.lib q self').
Proof.
  intros d q self'.
  apply (local_methods_offline Sample.runtime Sample.lib q Sample.self self').
  reflexivity.
Defined.

(* ================================================================== *)
(** * The serializers *)
(* ================================================================== *)

Lemma dict_get_track_entry (name n t : string) (o : extval) (rest : list (string * pyval)) :
  dict_get name (track_entry n t o ++ rest)%list
  = if String.eqb name n && has_attr n o then Some (PyStr t) else dict_get name rest.
Proof.
  unfold track_entry. destruct (has_attr n o); simpl.
  - destruct (String.eqb name n); reflexivity.
  - now rewrite andb_false_r.
Qed.

Lemma dict_get_track_entry_last (name n t : string) (o : extval) :
  dict_get name (track_entry n t o)
  = if String.eqb name n && has_attr n o then Some (PyStr t) else None.
Proof. rewrite <- (app_nil_r (track_entry n t o)). apply dict_get_track_entry. Qed.

(** One read: it raises, or gives the entry of the track. *)
Lemma data_entry_read (n t : string) (o : extval) :
  data_entry n t o = match read_attr n o with
                     | inl e => inl e
                     | inr _ => inr (track_entry n t o)
                     end.
Proof.
  unfold data_entry, track_entry, has_attr, and_then.
  now destruct (read_attr n o) as [e|[|]].
Qed.

Lemma available_read (n : string) (o : extval) :
  available n o = match read_attr n o with
                  | inl e => inl e
                  | inr _ => inr (track_name n o)
                  end.
Proof.
  unfold available, track_name, has_attr, and_then.
  now destruct (read_attr n o) as [e|[|]].
Qed.

Ltac reads_of o :=
  repeat match goal with
         | |- context [read_attr ?n o] => destruct (read_attr n o) as [?|?]
         end.

(** The body of [_serialize_output]: the exception of the first read
    that raises, or the tracks that are there. *)
Lemma serialize_output_body_spec (o : extval) :
  serialize_output_body o
  = match failing_read output_tracks o with
    | Some e => inl e
    | None =>
        inr (PyDict [("type", PyStr "prediction_output");
                     ("data",
                      PyDict (track_entry "atac" "ATAC-seq data available" o
                              ++ track_entry "cage" "CAGE data available" o
                              ++ track_entry "dnase" "DNase data available" o
                              ++ track_entry "histone_marks" "Histone marks data available" o
                              ++ track_entry "gene_expression"
                                   "Gene expression data available" o)%list)])
    end.
Proof.
  unfold serialize_output_body, output_tracks, failing_read, and_then.
  rewrite !data_entry_read. reads_of o; reflexivity.
Qed.

Lemma serialize_variant_output_body_spec (o : extval) :
  serialize_variant_output_body o
  = match failing_read variant_tracks o with
    | Some e => inl e
    | None =>
        inr (PyDict [("type", PyStr "variant_prediction_output");
                     ("data",
                      PyDict (track_entry "reference" "Reference prediction data available" o
                              ++ track_entry "alternate"
                                   "Alternate prediction data available" o
                              ++ track_entry "difference"
                                   "Difference prediction data available" o)%list)])
    end.
Proof.
  unfold serialize_variant_output_body, variant_tracks, failing_read, and_then.
  rewrite !data_entry_read. reads_of o; reflexivity.
Qed.

Lemma serialize_metadata_body_spec (o : extval) :
  serialize_metadata_body o
  = match failing_read output_tracks o with
    | Some e => inl e
    | None =>
        inr (PyDict [("type", PyStr "output_metadata");
                     ("available_outputs",
                      PyList (track_name "atac" o ++ track_name "cage" o
                              ++ track_name "dnase" o ++ track_name "histone_marks" o
                              ++ track_name "gene_expression" o)%list)])
    end.
Proof.
  unfold serialize_metadata_body, output_tracks, failing_read, and_then.
  rewrite !available_read. reads_of o; reflexivity.
Qed.

Ltac track_cases name :=
  repeat match goal with
         | |- context [String.eqb name ?k] =>
             destruct (String.eqb_spec name k) as [->|?]
         end.

Ltac tracks_solve name output :=
  rewrite ?dict_get_track_entry, dict_get_track_entry_last;
  unfold output_tracks, variant_tracks; simpl In;
  track_cases name; simpl;
  repeat match goal with
         | |- context [has_attr ?k output] => destruct (has_attr k output) eqn:?
         end;
  simpl; split; intros H; try congruence; try discriminate;
  try (split; [tauto | congruence]);
  try (destruct H as [H1 H2]; intuition congruence).

(** X3.  When one of the attribute reads of [_serialize_output] raises
    (the first that does, in the order atac, cage, dnase, histone_marks,
    gene_expression), the serializer returns a dictionary with the
    single key ["error"], "Serialization failed: " followed by the
    message: no ["type"] and no ["data"].  When none raises, a track is
    under ["data"] exactly when it is one of the five and the output has
    it with a value that is not [None]; whatever else the output
    carries is left out.  [_serialize_variant_output] does the same for
    reference, alternate and difference. *)
Theorem serialized_tracks (output : extval) :
  (forall e, failing_read output_tracks output = Some e ->
     _serialize_output output = serialization_error "Serialization failed: " e)
  /\ (failing_read output_tracks output = None ->
      exists data,
        _serialize_output output
        = PyDict [("type", PyStr "prediction_output"); ("data", PyDict data)]
        /\ forall name, dict_get name data <> None
                        <-> In name output_tracks /\ has_attr name output = true)
  /\ (forall e, failing_read variant_tracks output = Some e ->
        _serialize_variant_output output
        = serialization_error "Variant output serialization failed: " e)
  /\ (failing_read variant_tracks output = None ->
      exists data,
        _serialize_variant_output output
        = PyDict [("type", PyStr "variant_prediction_output"); ("data", PyDict data)]
        /\ forall name, dict_get name data <> None
                        <-> In name variant_tracks /\ has_attr name output = true).
Proof.
  unfold _serialize_output, _serialize_variant_output.
  rewrite serialize_output_body_spec, serialize_variant_output_body_spec.
  split; [|split; [|split]].
  - intros e ->. reflexivity.
  - intros ->. eexists. split; [reflexivity|]. intros name. tracks_solve name output.
  - intros e ->. reflexivity.
  - intros ->. eexists. split; [reflexivity|]. intros name. tracks_solve name output.
Qed.

Lemma serialized_tracks_witness :
  let output := ExtObj [("atac", AttrValue);
                        ("cage", AttrRaises (Exn "RuntimeError" "track not loaded"));
                        ("dnase", AttrValue)] in
  failing_read output_tracks output = Some (Exn "RuntimeError" "track not loaded")
  /\ _serialize_output output
     = PyDict [("error", PyStr "Serialization failed: track not loaded")].
Proof.
  intros output. split; [reflexivity|].
  exact (proj1 (serialized_tracks output) (Exn "RuntimeError" "track not loaded") eq_refl).
Defined.

Lemma nth_error_enumerate_from {A} (k : Z) (l : list A) (i : nat) :
  nth_error (enumerate_from k l) i
  = option_map (fun x => (k + Z.of_nat i, x)) (nth_error l i).
Proof.
  revert k i. induction l as [|x l IH]; intros k [|i]; simpl; try reflexivity.
  - now rewrite Z.add_0_r.
  - rewrite IH. destruct (nth_error l i); simpl; [|reflexivity].
    do 2 f_equal. lia.
Qed.

Lemma length_enumerate_from {A} (k : Z) (l : list A) :
  List.length (enumerate_from k l) = List.length l.
Proof. revert k. induction l as [|x l IH]; intros k; simpl; [reflexivity | now rewrite IH]. Qed.

(** X4.  For a list of scores [_serialize_scores] writes one entry for
    each score, in order, the entry at position [i] carrying
    [scorer_index] [i]; the scores themselves are not looked at.  For
    anything that is not a list it writes no entry. *)
Theorem serialized_scores (scores : extval) :
  exists entries,
    _serialize_scores scores
    = PyDict [("type", PyStr "variant_scores"); ("scores", PyList entries)]
    /\ match scores with
       | ExtList items =>
           List.length entries = List.length items
           /\ forall i, (i < List.length items)%nat ->
                        nth_error entries i = Some (score_entry i)
       | ExtObj _ => entries = []
       end.
Proof.
  destruct scores as [attrs|items]; eexists; (split; [reflexivity|]); [reflexivity|].
  unfold enumerate. split.
  - now rewrite length_map, length_enumerate_from.
  - intros i Hi. rewrite nth_error_map, nth_error_enumerate_from.
    destruct (nth_error items i) eqn:E.
    + reflexivity.
    + apply nth_error_None in E. lia.
Qed.

Lemma In_track_name (name n : string) (metadata : extval) (rest : list pyval) :
  In (PyStr name) (track_name n metadata ++ rest)%list
  <-> (name = n /\ has_attr n metadata = true) \/ In (PyStr name) rest.
Proof.
  unfold track_name. destruct (has_attr n metadata); simpl.
  - split.
    + intros [[= <-]|H]; auto.
    + intros [[-> _]|H]; auto.
  - split; [auto | intros [[_ [=]]|H]; assumption].
Qed.

(** X5.  When one of the attribute reads of [_serialize_metadata]
    raises, it returns a dictionary with the single key ["error"],
    "Metadata serialization failed: " followed by the message.  When
    none raises, it lists under ["available_outputs"] exactly the names
    among atac, cage, dnase, histone_marks and gene_expression that the
    metadata has with a value that is not [None]. *)
Theorem serialized_metadata (metadata : extval) :
  (forall e, failing_read output_tracks metadata = Some e ->
     _serialize_metadata metadata
     = serialization_error "Metadata serialization failed: " e)
  /\ (failing_read output_tracks metadata = None ->
      exists outputs,
        _serialize_metadata metadata
        = PyDict [("type", PyStr "output_metadata");
                  ("available_outputs", PyList outputs)]
        /\ forall name, In (PyStr name) outputs
                        <-> In name output_tracks /\ has_attr name metadata = true).
Proof.
  unfold _serialize_metadata. rewrite serialize_metadata_body_spec. split.
  - intros e ->. reflexivity.
  - intros ->. eexists. split; [reflexivity|]. intros name.
    rewrite !In_track_name.
    rewrite <- (app_nil_r (track_name "gene_expression" metadata)), In_track_name.
    unfold output_tracks. simpl In. split.
    + intros [[-> H]|[[-> H]|[[-> H]|[[-> H]|[[-> H]|[]]]]]]; split; auto 10.
    + intros [[<-|[<-|[<-|[<-|[<-|[]]]]]] H]; auto 10.
Qed.

Lemma serialized_metadata_witness :
  let metadata := ExtObj [("atac", AttrValue); ("cage", AttrNone);
                          ("rna_seq", AttrValue)] in
  failing_read output_tracks metadata = None
  /\ exists outputs,
       _serialize_metadata metadata
       = PyDict [("type", PyStr "output_metadata");
                 ("available_outputs", PyList outputs)]
       /\ forall name, In (PyStr name) outputs
                       <-> In name output_tracks /\ has_attr name metadata = true.
Proof.
  intros metadata. split; [reflexivity|].
  exact (proj2 (serialized_metadata metadata) eq_refl).
Defined.

(* ================================================================== *)
(** * Batches *)
(* ================================================================== *)

Section Runs.

Context {L : Lib}.

Implicit Types self : AlphaGenomeClient L.

Lemma events_try_except (body : M L pyval) self :
  events_of (try_except L body self) = events_of (body self).
Proof. unfold try_except, events_of. now destruct (body self) as [[[e|v] s] evs]. Qed.

Lemma result_try_except (body : M L pyval) self :
  result_of (try_except L body self)
  = match result_of (body self) with
    | inl e => inr (error_envelope e)
    | inr v => inr v
    end.
Proof. unfold try_except, result_of. now destruct (body self) as [[[e|v] s] evs]. Qed.

(** A call followed by code that makes none. *)
Lemma calls_bind_call {B} (c : client_call) (k : extval -> M L B) self :
  (forall v, quiet (k v)) ->
  calls_of (events_of (bind (call_client c) k self)) = [c].
Proof.
  intros Hk. unfold bind, call_client, events_of.
  destruct (invoke L (client self) c) as [cl [e|v]]; [reflexivity|].
  specialize (Hk v {| client := cl |}). unfold events_of in Hk.
  destruct (k v {| client := cl |}) as [[r s] evs]. simpl in *. now rewrite Hk.
Qed.

Lemma bind_lift_inl {A B} (e : exn) (k : A -> M L B) self :
  bind (lift (inl e)) k self = (inl e, self, [Raised e]).
Proof. reflexivity. Qed.

Lemma interval_from_lift (d : pyval) self :
  interval_from L d self = lift (interval_object L d) self.
Proof.
  unfold interval_from, interval_object.
  destruct (py_getitem d "chromosome") as [x|c]; [reflexivity|].
  rewrite lift_inr, bind_ret.
  destruct (py_getitem d "start") as [x|s]; [reflexivity|].
  rewrite lift_inr, bind_ret.
  destruct (py_getitem d "end") as [x|e]; [reflexivity|].
  now rewrite lift_inr, bind_ret.
Qed.

(** Building the objects of a batch: all of them, or the exception of
    the first dictionary that has none. *)
Lemma mapM_interval_from (items : list pyval) self :
  (exists objs, mapM L (interval_from L) items self = (inr objs, self, [])
                /\ Forall2 (fun d i => interval_object L d = inr i) items objs)
  \/ (exists e d, mapM L (interval_from L) items self = (inl e, self, [Raised e])
                  /\ In d items /\ interval_object L d = inl e).
Proof.
  induction items as [|d items IH]; simpl.
  - left. exists []. split; [reflexivity | constructor].
  - destruct (interval_object L d) as [e|i] eqn:Hd.
    + right. exists e, d. split; [|auto].
      unfold bind at 1. rewrite interval_from_lift, Hd. reflexivity.
    + assert (Hrun : interval_from L d self = (inr i, self, []))
        by now rewrite interval_from_lift, Hd.
      rewrite (bind_inr _ _ _ _ _ _ Hrun).
      destruct IH as [[objs [Hm Hf]] | [e [d' [Hm [Hin He]]]]].
      * left. exists (i :: objs). split; [|now constructor].
        rewrite (bind_inr _ _ _ _ _ _ Hm). reflexivity.
      * right. exists e, d'. split; [|auto].
        rewrite (bind_inl _ _ _ _ _ _ Hm). reflexivity.
Qed.

Lemma mapM_upper (l : list string) self :
  mapM L (fun seq => lift (py_upper seq)) (map PyStr l) self
  = (inr (map upper l), self, []).
Proof.
  induction l as [|s l IH]; [reflexivity|].
  cbn [map mapM]. change (py_upper (PyStr s)) with (inr (upper s) : exn + string).
  rewrite lift_inr, bind_ret.
  rewrite (bind_inr _ _ _ _ _ _ IH). reflexivity.
Qed.

Lemma mapM_upper_fails (items : list pyval) (v : pyval) self :
  In v items -> (forall s, v <> PyStr s) ->
  exists e, exn_type e = "AttributeError"
            /\ mapM L (fun seq => lift (py_upper seq)) items self
               = (inl e, self, [Raised e]).
Proof.
  induction items as [|x items IH]; [intros []|].
  intros Hin Hv. cbn [mapM].
  destruct x as [ | b | z | q | nf | s | l | kv ];
    try (eexists; split; [|reflexivity]; reflexivity).
  destruct Hin as [<-|Hin]; [now contradiction (Hv s)|].
  destruct (IH Hin Hv) as [e [He Hm]].
  exists e. split; [assumption|].
  change (py_upper (PyStr s)) with (inr (upper s) : exn + string).
  rewrite lift_inr, bind_ret.
  rewrite (bind_inl _ _ _ _ _ _ Hm). reflexivity.
Qed.

End Runs.

(** X6.  [predict_sequences] rejects anything but a non-empty list with
    "Sequences must be a non-empty list" and a list with an item that is
    not a string with an [AttributeError], in both cases without calling
    the client.  A non-empty list of strings is sent in one call,
    upper-cased and in order; unlike [predict_sequence], the characters
    are not checked. *)
Theorem predict_sequences_batch (L : Lib) (self : AlphaGenomeClient L)
    (sequences : pyval) (organism : string)
    (output_types ontology_terms : option (list string)) (max_workers : Z) :
  let r := predict_sequences L sequences organism output_types ontology_terms
             max_workers self in
  ((forall x l, sequences <> PyList (x :: l)) ->
   result_of r = inr (error_envelope (ValueError "Sequences must be a non-empty list"))
   /\ calls_of (events_of r) = [])
  /\ (forall items v, sequences = PyList items -> In v items ->
      (forall s, v <> PyStr s) ->
      calls_of (events_of r) = []
      /\ exists e, exn_type e = "AttributeError"
                   /\ result_of r = inr (error_envelope e))
  /\ (forall l, sequences = PyList (map PyStr l) -> l <> [] ->
      calls_of (events_of r)
      = [call_predict_sequences (map upper l) HOMO_SAPIENS
           (requested_outputs_of L output_types) ontology_terms max_workers]).
Proof.
  intros r. subst r. unfold predict_sequences.
  rewrite events_try_except, result_try_except.
  split; [|split].
  - intros Hno.
    assert (H : match sequences with
                | PyList ((_ :: _) as l) => ret (L:=L) l
                | _ => raise (ValueError "Sequences must be a non-empty list")
                end = raise (ValueError "Sequences must be a non-empty list")).
    { destruct sequences as [ | | | | | | [|x l] | ]; try reflexivity.
      now contradiction (Hno x l). }
    rewrite H. split; reflexivity.
  - intros items v -> Hin Hv.
    destruct items as [|x items]; [destruct Hin|].
    rewrite bind_ret. cbv beta zeta.
    destruct (mapM_upper_fails (x :: items) v self Hin Hv) as [e [He Hm]].
    rewrite (bind_inl _ _ _ _ _ _ Hm). unfold result_of, events_of. simpl.
    split; [reflexivity|]. exists e. auto.
  - intros l -> Hne.
    destruct l as [|s l]; [contradiction|].
    change (map PyStr (s :: l)) with (PyStr s :: map PyStr l). cbv iota.
    rewrite bind_ret. cbv beta zeta.
    change (PyStr s :: map PyStr l) with (map PyStr (s :: l)).
    rewrite (bind_inr _ _ _ _ _ _ (mapM_upper (s :: l) self)).
    rewrite organism_enum_of_human.
    destruct (bind (call_client _) _ self) as [[r s'] evs] eqn:Hrun.
    assert (Hc : calls_of (events_of (r, s', evs))
                 = [call_predict_sequences (map upper (s :: l)) HOMO_SAPIENS
                      (requested_outputs_of L output_types) ontology_terms max_workers]).
    { rewrite <- Hrun. apply calls_bind_call. intros v. quiet_auto. }
    exact Hc.
Qed.

(** X7.  [predict_intervals] and [score_intervals] send a batch whole
    or not at all: the one call they make carries an [Interval] object
    for every item, in order; if the object of any item cannot be built
    (a key is missing, the constructor refuses) the client is not called
    and an error envelope is returned. *)
Theorem interval_batches_whole (L : Lib) (self : AlphaGenomeClient L)
    (intervals : pyval) (organism : string)
    (output_types ontology_terms : option (list string)) (max_workers : Z) :
  let r1 := predict_intervals L intervals organism output_types ontology_terms
              max_workers self in
  let r2 := score_intervals L intervals organism max_workers self in
  let built items objs := Forall2 (fun d i => interval_object L d = inr i) items objs in
  (forall c, In c (calls_of (events_of r1)) ->
   exists items objs,
     py_iter intervals = inr items /\ built items objs
     /\ calls_of (events_of r1)
        = [call_predict_intervals objs HOMO_SAPIENS
             (requested_outputs_of L output_types) ontology_terms max_workers])
  /\ (forall c, In c (calls_of (events_of r2)) ->
      exists items objs,
        py_iter intervals = inr items /\ built items objs
        /\ calls_of (events_of r2)
           = [call_score_intervals objs [] HOMO_SAPIENS max_workers])
  /\ (forall items d e, py_iter intervals = inr items -> In d items ->
      interval_object L d = inl e ->
      calls_of (events_of r1) = [] /\ calls_of (events_of r2) = []
      /\ (exists e1, result_of r1 = inr (error_envelope e1))
      /\ (exists e2, result_of r2 = inr (error_envelope e2))).
Proof.
  intros r1 r2 built. subst r1 r2.
  unfold predict_intervals, score_intervals.
  rewrite !events_try_except, !result_try_except.
  destruct (py_iter intervals) as [e0|items] eqn:Hiter.
  { rewrite !bind_lift_inl. unfold events_of, result_of. simpl.
    split; [intros c []|]. split; [intros c []|]. intros ? ? ? [=]. }
  rewrite !lift_inr, !bind_ret. cbv beta.
  destruct (mapM_interval_from items self) as [[objs [Hm Hf]] | [e [d [Hm [Hin He]]]]].
  - rewrite !(bind_inr _ _ _ _ _ _ Hm). cbv beta zeta. rewrite organism_enum_of_human.
    destruct (bind (call_client (call_predict_intervals _ _ _ _ _)) _ self)
      as [[ra sa] evsa] eqn:Hruna.
    destruct (bind (call_client (call_score_intervals _ _ _ _)) _ self)
      as [[rb sb] evsb] eqn:Hrunb.
    assert (Hca : calls_of (events_of (ra, sa, evsa))
                  = [call_predict_intervals objs HOMO_SAPIENS
                       (requested_outputs_of L output_types) ontology_terms max_workers]).
    { rewrite <- Hruna. apply calls_bind_call. intros v. quiet_auto. }
    assert (Hcb : calls_of (events_of (rb, sb, evsb))
                  = [call_score_intervals objs [] HOMO_SAPIENS max_workers]).
    { rewrite <- Hrunb. apply calls_bind_call. intros v. quiet_auto. }
    unfold events_of in *. simpl in *. rewrite ?app_nil_l.
    split; [|split].
    + intros c _. exists items, objs. auto.
    + intros c _. exists items, objs. auto.
    + intros items' d' e' [= <-] Hin' He'. exfalso.
      clear -Hf Hin' He'. induction Hf as [|x y xs ys Hxy Hf IH]; [destruct Hin'|].
      destruct Hin' as [<-|Hin']; [congruence | now apply IH].
  - rewrite !(bind_inl _ _ _ _ _ _ Hm). unfold events_of, result_of. simpl.
    split; [intros c []|]. split; [intros c []|].
    intros _ _ _ _ _ _. repeat split; eauto.
Qed.

(* ================================================================== *)
(** * [parse_variant_string]: the paths besides the two notations *)
(* ================================================================== *)

(** X8.  When the string splits into four parts on its separator (['-']
    if it has one, else [':']) but [int] refuses the second part,
    [parse_variant_string] returns the envelope of the [ValueError]
    that [int] raised (for a malformed literal, or for one of more than
    4300 digits); the library's parser is not tried. *)
Theorem parse_variant_string_bad_position (L : Lib) (self : AlphaGenomeClient L)
    (sep : ascii) (vs fmt c p r a : string) (e : exn) :
  (sep = "-"%char /\ contains "-" vs = true)
  \/ (sep = ":"%char /\ contains "-" vs = false /\ contains ":" vs = true) ->
  split sep vs = [c; p; r; a] ->
  int p = inl e ->
  parse_variant_string L vs fmt self = (inr (error_envelope e), self, [Raised e])
  /\ exn_type e = "ValueError"
  /\ (e = invalid_literal p
      \/ exists digits, (max_str_digits < digits)%nat /\ e = too_many_digits digits).
Proof.
  intros Hsep Hsplit Hint. split; [|split].
  - assert (Hm : parse_manual L sep vs fmt self = (inl e, self, [Raised e])).
    { unfold parse_manual. rewrite Hsplit, Hint. reflexivity. }
    unfold parse_variant_string, try_except.
    destruct Hsep as [[-> Hd] | [-> [Hd Hc]]].
    + rewrite Hd, (bind_inl _ _ _ _ _ _ Hm). reflexivity.
    + rewrite Hd, Hc, (bind_inl _ _ _ _ _ _ Hm). reflexivity.
  - unfold int in Hint.
    destruct (int_of_chars (chars p)) as [[|digits]|z]; [| |discriminate];
      injection Hint as <-; reflexivity.
  - unfold int, int_of_chars, int_of_ascii in Hint. cbv zeta in Hint.
    destruct (scan_digits 0 0 true _) as [[[value digits] rest]|];
      [|injection Hint as <-; now left].
    destruct (max_str_digits <? digits)%nat eqn:Hlimit.
    + injection Hint as <-. right. exists digits.
      split; [now apply Nat.ltb_lt | reflexivity].
    + destruct (lstrip rest); [discriminate | injection Hint as <-; now left].
Qed.

Lemma parse_variant_string_bad_position_witness :
  parse_variant_string Sample.lib "chr1:5':A:G" "default" Sample.self
  = (inr (error_envelope (invalid_literal "5'")), Sample.self,
     [Raised (invalid_literal "5'")])
  /\ exn_msg (invalid_literal "5'")
     = "invalid literal for int() with base 10: "
       ++ String double_quote ("5'" ++ String double_quote EmptyString).
Proof.
  split; [|reflexivity].
  apply (parse_variant_string_bad_position Sample.lib Sample.self ":"
           "chr1:5':A:G" "default" "chr1" "5'" "A" "G").
  - right. repeat split; reflexivity.
  - reflexivity.
  - reflexivity.
Defined.

(** X9.  A string that has a separator but not exactly four parts, or
    no separator at all, is handed to [Variant.from_str] with the format
    named by [variant_format], looked up without regard to case and
    [DEFAULT] when unknown; what is returned is built from the library's
    variant, or is the envelope of the library's exception. *)
Theorem parse_variant_string_fallback (L : Lib) (self : AlphaGenomeClient L)
    (vs fmt : string) :
  (if contains "-" vs then List.length (split "-" vs) <> 4%nat
   else if contains ":" vs then List.length (split ":" vs) <> 4%nat else True) ->
  result_of (parse_variant_string L vs fmt self)
  = match Variant_from_str L vs (format_map_get (lower fmt)) with
    | inl e => inr (error_envelope e)
    | inr v => inr (parsed_variant (PyStr (variant_chromosome v))
                      (PyInt (variant_position v)) (PyStr (reference_bases v))
                      (PyStr (alternate_bases v)) (PyStr (variant_name v)) fmt vs)
    end
  /\ calls_of (events_of (parse_variant_string L vs fmt self)) = []
  /\ (In (lower fmt) ["default"; "gnomad"; "gtex"; "open_targets"; "open_targets_bigquery"]
      \/ format_map_get (lower fmt) = DEFAULT).
Proof.
  intros H. split; [now apply parse_variant_string_delegates|]. split.
  - assert (Hq : quiet (parse_variant_string L vs fmt)).
    { unfold parse_variant_string. quiet_auto. }
    apply Hq.
  - unfold format_map_get. simpl In.
    repeat match goal with
           | |- context [String.eqb ?x ?k] => destruct (String.eqb_spec x k)
           end; auto 10.
Qed.

Lemma parse_variant_string_fallback_witness :
  result_of (parse_variant_string Sample.lib "rs12345" "GnomAD" Sample.self)
  = match Variant_from_str Sample.lib "rs12345" (format_map_get (lower "GnomAD")) with
    | inl e => inr (error_envelope e)
    | inr v => inr (parsed_variant (PyStr (variant_chromosome v))
                      (PyInt (variant_position v)) (PyStr (reference_bases v))
                      (PyStr (alternate_bases v)) (PyStr (variant_name v))
                      "GnomAD" "rs12345")
    end
  /\ calls_of (events_of (parse_variant_string Sample.lib "rs12345" "GnomAD" Sample.self))
     = []
  /\ (In (lower "GnomAD")
         ["default"; "gnomad"; "gtex"; "open_targets"; "open_targets_bigquery"]
      \/ format_map_get (lower "GnomAD") = DEFAULT).
Proof.
  apply (parse_variant_string_fallback Sample.lib Sample.self "rs12345" "GnomAD").
  exact I.
Defined.

(* ================================================================== *)
(** * [validate_genomic_data]: sequences and variants *)
(* ================================================================== *)

Lemma supported_length_In (n : Z) :
  existsb (Z.eqb n) supported_lengths = true <-> In n supported_lengths.
Proof.
  rewrite existsb_exists. split.
  - intros [x [Hx He]]. apply Z.eqb_eq in He. now subst.
  - intros H. exists n. split; [assumption | apply Z.eqb_refl].
Qed.

(** X10.  With data type ["sequence"] and a string under ["sequence"]
    (an absent key counts as the empty string), the sequence is valid
    exactly when it is not empty and has only A, T, G, C, N in any case.
    A length outside the supported ones only adds a warning: it never
    makes the sequence invalid.  An invalid sequence has exactly one
    error. *)
Theorem validate_sequence_string (rt : PyRuntime) (L : Lib) (self : AlphaGenomeClient L)
    (kv : list (string * pyval)) (s : string) :
  py_get kv "sequence" (PyStr EmptyString) = PyStr s ->
  exists res,
    result_of (validate_genomic_data rt L "sequence" (PyDict kv) self)
    = inr (validated "sequence" res)
    /\ (dict_get "valid" res = Some (PyBool true) <-> s <> EmptyString /\ dna_only s)
    /\ (dict_get "warnings" res = Some (PyList [])
        <-> s = EmptyString \/ In (len s) supported_lengths)
    /\ (dict_get "valid" res = Some (PyBool false) ->
        exists msg, dict_get "errors" res = Some (PyList [PyStr msg])).
Proof.
  intros Hs.
  change (validate_genomic_data rt L "sequence" (PyDict kv))
    with (try_except L (validation_results <- validate_sequence rt L (PyDict kv) ;;
                        ret (validated "sequence"
                               [("valid", PyBool (valid validation_results));
                                ("warnings", PyList (map PyStr (warnings validation_results)));
                                ("errors", PyList (map PyStr (errors validation_results)))]))).
  unfold validate_sequence, data_get. rewrite Hs, lift_inr.
  rewrite result_try_except, bind_assoc, bind_ret.
  destruct s as [|c s].
  - simpl truthy. simpl negb. cbv iota. rewrite bind_ret. unfold result_of. simpl.
    eexists. split; [reflexivity|]. simpl. repeat split; try discriminate; eauto.
    + now intros [H _].
  - set (t := String c s) in *.
    assert (Ht : truthy (PyStr t) = true) by reflexivity.
    rewrite Ht. simpl negb. cbv iota.
    change (py_upper (PyStr t)) with (inr (upper t) : exn + string).
    change (py_len (PyStr t)) with (inr (len t) : exn + Z).
    rewrite lift_inr, bind_assoc, bind_ret, lift_inr, bind_assoc, !bind_ret.
    unfold result_of, fst.
    assert (Hnil : set_diff (set_of (upper t)) valid_chars = [] <-> dna_only t)
      by exact (set_diff_nil (upper t) "ATGCN").
    pose proof (supported_length_In (len t)) as Hlen.
    eexists. split; [reflexivity|].
    destruct (set_diff (set_of (upper t)) valid_chars) as [|x inv];
      destruct (existsb (Z.eqb (len t)) supported_lengths); simpl;
      repeat split; try discriminate; eauto;
      try (intros _; right; now apply Hlen);
      try (intros [_ Hd]; apply Hnil in Hd; discriminate);
      try (now apply Hnil);
      try (intros [[=]|Hin]; apply Hlen in Hin; discriminate).
Qed.

Lemma validate_sequence_string_witness :
  exists res,
    result_of (validate_genomic_data Sample.runtime Sample.lib "sequence"
                 (PyDict [("sequence", PyStr "acgtn")]) Sample.self)
    = inr (validated "sequence" res)
    /\ (dict_get "valid" res = Some (PyBool true) <-> "acgtn" <> EmptyString /\ dna_only "acgtn")
    /\ (dict_get "warnings" res = Some (PyList [])
        <-> "acgtn" = EmptyString \/ In (len "acgtn") supported_lengths)
    /\ (dict_get "valid" res = Some (PyBool false) ->
        exists msg, dict_get "errors" res = Some (PyList [PyStr msg])).
Proof.
  apply (validate_sequence_string Sample.runtime Sample.lib Sample.self
           [("sequence", PyStr "acgtn")] "acgtn").
  reflexivity.
Defined.

Lemma issubset_alleles (s : string) :
  issubset (set_of (upper s)) valid_alleles = true <-> alleles_only s.
Proof. unfold valid_alleles. rewrite issubset_spec. reflexivity. Qed.

Lemma py_upper_inr (v : pyval) (u : string) :
  py_upper v = inr u -> exists s, v = PyStr s /\ u = upper s.
Proof. destruct v; try discriminate. intros [= <-]. eauto. Qed.

Lemma valid_add_error (msg : string) (v : validation) : valid (add_error msg v) = false.
Proof. reflexivity. Qed.

Section ValidateVariant.

Context (L : Lib).

Lemma validate_variant_spec (kv : list (string * pyval)) (self : AlphaGenomeClient L) :
  exists out evs,
    validate_variant L (PyDict kv) self = (out, self, evs)
    /\ match out with
       | inl _ => ~ variant_accepted kv
       | inr v => valid v = true <-> variant_accepted kv
       end.
Proof.
  unfold validate_variant, variant_accepted, data_get.
  rewrite !lift_inr, !bind_ret.
  set (chromosome := py_get kv "chromosome" (PyStr EmptyString)).
  set (position := py_get kv "position" PyNone).
  set (ref := py_get kv "ref" (PyStr EmptyString)).
  set (alt := py_get kv "alt" (PyStr EmptyString)).
  set (v1 := if negb (truthy chromosome)
             then add_error "Chromosome is required" validation_start
             else validation_start).
  assert (Hv1 : valid v1 = truthy chromosome).
  { unfold v1. now destruct (truthy chromosome). }
  (* the position *)
  assert (Hpos : exists bad evs0 r0,
             (if is_none position then ret (L:=L) true
              else lift (py_lt position (PyInt 1))) self = (r0, self, evs0)
             /\ match r0 with
                | inl _ => ~ exists q, as_number position = Some q /\ position_accepted q
                | inr b => b = bad
                end
             /\ (bad = false <-> exists q, as_number position = Some q /\ position_accepted q)).
  { destruct (is_none position) eqn:Hnone.
    - exists true. do 2 eexists. split; [reflexivity|]. split; [reflexivity|].
      split; [discriminate|]. intros [q [Hq _]].
      apply as_number_not_none in Hq. congruence.
    - unfold py_lt. rewrite py_compare_int.
      destruct (as_number position) as [q|] eqn:Hq.
      + exists (cmp_number OpLt q (Finite (inject_Z 1))). do 2 eexists.
        split; [reflexivity|]. split; [reflexivity|].
        rewrite position_comparison. split.
        * intros Hle. now exists q.
        * intros [q' [[= <-] Hle]]. exact Hle.
      + exists true. do 2 eexists. split; [reflexivity|]. split.
        * intros [q [[=] _]].
        * split; [discriminate | intros [q [[=] _]]]. }
  destruct Hpos as [bad [evs0 [r0 [Hrun [Hr0 Hbad]]]]].
  destruct r0 as [e|b].
  { rewrite (bind_inl _ _ _ _ _ _ Hrun). do 2 eexists. split; [reflexivity|].
    intros [_ [Hq _]]. now apply Hr0. }
  subst b.
  assert (Hrun' : (if is_none position then ret (L:=L) true
                   else lift (py_lt position (PyInt 1))) self = (inr bad, self, [])).
  { rewrite Hrun. f_equal.
    destruct (is_none position); [now inversion Hrun|].
    unfold lift in Hrun. destruct (py_lt position (PyInt 1)); now inversion Hrun. }
  clear Hrun.
  rewrite (bind_inr _ _ _ _ _ _ Hrun').
  set (v2 := if bad then add_error "Position must be a positive integer" v1 else v1).
  assert (Hv2 : valid v2 = truthy chromosome && negb bad).
  { unfold v2. destruct bad; simpl; [now rewrite andb_false_r | now rewrite andb_true_r]. }
  (* the alleles *)
  destruct (negb (truthy ref) || negb (truthy alt)) eqn:Hmissing.
  { do 2 eexists. split; [reflexivity|]. split; [discriminate|].
    intros [_ [_ [r [a [Hr [Ha [Hrne [Hane _]]]]]]]].
    rewrite Hr, Ha in Hmissing.
    rewrite (proj2 (truthy_str r) Hrne), (proj2 (truthy_str a) Hane) in Hmissing.
    discriminate. }
  apply orb_false_iff in Hmissing as [Htr Hta].
  apply negb_false_iff in Htr, Hta.
  destruct (py_upper ref) as [e|ref_up] eqn:Hru.
  { rewrite lift_inl. do 2 eexists. split; [reflexivity|].
    intros [_ [_ [r [a [Hr _]]]]]. rewrite Hr in Hru. discriminate. }
  rewrite lift_inr, bind_ret.
  destruct (py_upper alt) as [e|alt_up] eqn:Hau.
  { rewrite lift_inl. do 2 eexists. split; [reflexivity|].
    intros [_ [_ [r [a [_ [Ha _]]]]]]. rewrite Ha in Hau. discriminate. }
  rewrite lift_inr, bind_ret.
  apply py_upper_inr in Hru as [r [Hr ->]], Hau as [a [Ha ->]].
  rewrite Hr in Htr. rewrite Ha in Hta.
  apply truthy_str in Htr, Hta.
  do 2 eexists. split; [reflexivity|].
  pose proof (issubset_alleles r) as Hsr. pose proof (issubset_alleles a) as Hsa.
  rewrite Hr, Ha.
  assert (Hacc : truthy chromosome = true /\ bad = false
                 /\ issubset (set_of (upper r)) valid_alleles = true
                 /\ issubset (set_of (upper a)) valid_alleles = true
                 <-> truthy chromosome = true
                     /\ (exists q, as_number position = Some q /\ position_accepted q)
                     /\ exists r' a', PyStr r = PyStr r' /\ PyStr a = PyStr a'
                                      /\ r' <> EmptyString /\ a' <> EmptyString
                                      /\ alleles_only r' /\ alleles_only a').
  { split.
    - intros [Hc [Hb [Hir Hia]]]. split; [assumption|]. split; [now apply Hbad|].
      exists r, a. repeat split; try assumption; [now apply Hsr | now apply Hsa].
    - intros [Hc [Hq [r' [a' [[= <-] [[= <-] [_ [_ [Hor Hoa]]]]]]]]].
      split; [assumption|]. split; [now apply Hbad|].
      split; [now apply Hsr | now apply Hsa]. }
  rewrite <- Hacc. clear Hacc Hsr Hsa Hbad.
  destruct (issubset (set_of (upper r)) valid_alleles),
    (issubset (set_of (upper a)) valid_alleles); simpl;
    rewrite ?valid_add_error, ?Hv2;
    destruct (truthy chromosome), bad; simpl; intuition congruence.
Qed.

End ValidateVariant.

(** X11.  With data type ["variant"], [valid] is true if and only if
    the chromosome is true in a Boolean context, the position is a
    number for which [position < 1] is not true (a rational that is at
    least 1, but also NaN and positive infinity, which [json.loads]
    can produce), and the reference and alternate alleles are non-empty
    strings whose upper case has only A, T, G, C (N, which a sequence
    may have, is refused here). *)
Theorem validate_variant_valid_iff (rt : PyRuntime) (L : Lib)
    (self : AlphaGenomeClient L) (kv : list (string * pyval)) :
  (exists res,
     result_of (validate_genomic_data rt L "variant" (PyDict kv) self)
     = inr (validated "variant" res)
     /\ dict_get "valid" res = Some (PyBool true))
  <-> variant_accepted kv.
Proof.
  change (validate_genomic_data rt L "variant" (PyDict kv))
    with (try_except L (validation_results <- validate_variant L (PyDict kv) ;;
                        ret (validated "variant"
                               [("valid", PyBool (valid validation_results));
                                ("warnings", PyList (map PyStr (warnings validation_results)));
                                ("errors", PyList (map PyStr (errors validation_results)))]))).
  rewrite result_try_except.
  destruct (validate_variant_spec L kv self) as [[e|v] [evs [Hrun Hspec]]].
  - rewrite (bind_inl _ _ _ _ _ _ Hrun). unfold result_of. simpl. split.
    + intros [res [[=] _]].
    + intros H. now apply Hspec in H.
  - rewrite (bind_inr _ _ _ _ _ _ Hrun). unfold result_of. simpl. split.
    + intros [res [[= <-] Hv]]. simpl in Hv. apply Hspec. congruence.
    + intros H. apply Hspec in H. eexists. split; [reflexivity|]. simpl. now rewrite H.
Qed.

(** A position that is no number of the line: NaN is accepted. *)
Lemma validate_variant_nan_position :
  let kv := [("chromosome", PyStr "chr1"); ("position", PyNonFinite NaN);
             ("ref", PyStr "A"); ("alt", PyStr "g")] in
  result_of (validate_genomic_data Sample.runtime Sample.lib "variant" (PyDict kv)
               Sample.self)
  = inr (validated "variant"
           [("valid", PyBool true); ("warnings", PyList []); ("errors", PyList [])]).
Proof. reflexivity. Qed.

(* ================================================================== *)
(** * [get_sequence_info] on any non-empty string *)
(* ================================================================== *)

Lemma len_app (s t : string) : len (s ++ t) = len s + len t.
Proof.
  induction s as [|c s IH]; [reflexivity|].
  change (String c s ++ t) with (String c (s ++ t)). rewrite !len_String, IH. lia.
Qed.

(** Upper-casing never shortens a string, and keeps the length of an
    ASCII string. *)
Lemma len_upper_ge (s : string) : len s <= len (upper s).
Proof.
  induction s as [|c s IH]; [reflexivity|].
  unfold upper in *. cbn [flat_map_string].
  destruct (upper_of_first c) as [d [r ->]].
  rewrite len_app, !len_String. pose proof (len_nonneg r). lia.
Qed.

Lemma len_upper_ascii (s : string) :
  forallb is_ascii (chars s) = true -> len (upper s) = len s.
Proof.
  induction s as [|c s IH]; [reflexivity|].
  change (chars (String c s)) with (c :: chars s). cbn [forallb].
  intros H. apply andb_true_iff in H as [Hc Hs].
  unfold upper in *. cbn [flat_map_string].
  unfold upper_of at 1, case_of. rewrite Hc.
  change (String (upper_char c) EmptyString ++ flat_map_string upper_of s)
    with (String (upper_char c) (flat_map_string upper_of s)).
  rewrite !len_String, (IH Hs). reflexivity.
Qed.

Lemma NoDup_dedup (l : list ascii) : NoDup (dedup l).
Proof.
  induction l as [|c l IH]; simpl; constructor.
  - intros H. apply filter_In in H as [_ H]. now rewrite Ascii.eqb_refl in H.
  - now apply NoDup_filter.
Qed.

Lemma In_set_diff (c : ascii) (a b : list ascii) :
  In c (set_diff a b) <-> In c a /\ ~ In c b.
Proof.
  unfold set_diff. rewrite filter_In, negb_true_iff, <- not_true_iff_false, mem_char_In.
  reflexivity.
Qed.

(** The five counted characters are distinct, so no position is counted
    twice. *)
Lemma count_sum_le (s : string) :
  count "A" s + count "T" s + count "G" s + count "C" s + count "N" s <= len s.
Proof.
  induction s as [|d s IH]; [reflexivity|].
  rewrite len_String, !count_String.
  destruct (Ascii.eqb_spec "A" d); destruct (Ascii.eqb_spec "T" d);
    destruct (Ascii.eqb_spec "G" d); destruct (Ascii.eqb_spec "C" d);
    destruct (Ascii.eqb_spec "N" d); try congruence; lia.
Qed.

Lemma closest_from_spec (best length : Z) (l : list Z) :
  In (closest_from best length l) (best :: l)
  /\ forall x, In x (best :: l) ->
               Z.abs (closest_from best length l - length) <= Z.abs (x - length).
Proof.
  revert best. induction l as [|y l IH]; intros best; simpl.
  - split; [now left|]. intros x [<-|[]]. lia.
  - set (best' := if (Z.abs (y - length) <? Z.abs (best - length))%Z then y else best).
    destruct (IH best') as [Hin Hmin]. split.
    + destruct Hin as [Hb|Hin]; [|now right; right].
      rewrite <- Hb. unfold best'.
      destruct (Z.abs (y - length) <? Z.abs (best - length))%Z; auto.
    + assert (Hb : Z.abs (best' - length) <= Z.abs (best - length)
                   /\ Z.abs (best' - length) <= Z.abs (y - length)).
      { unfold best'. destruct (Z.ltb_spec (Z.abs (y - length)) (Z.abs (best - length))); lia. }
      pose proof (Hmin best' (or_introl eq_refl)) as Hc.
      intros x [<-|[<-|Hx]]; [lia | lia |].
      apply Hmin. now right.
Qed.

Section SequenceInfoAny.

Context (rt : PyRuntime) (L : Lib).

(** The run on any non-empty string. *)
Lemma get_sequence_info_run_any (s : string) (self : AlphaGenomeClient L) :
  s <> EmptyString ->
  exists gc_content n_content,
    get_sequence_info rt L s self
    = (inr (PyDict
              [("success", PyBool true);
               ("result",
                PyDict [("length", PyInt (len (upper s)));
                        ("base_counts",
                         int_dict [("A", count "A" (upper s)); ("T", count "T" (upper s));
                                   ("G", count "G" (upper s)); ("C", count "C" (upper s));
                                   ("N", count "N" (upper s))]);
                        ("gc_content", py_round2 gc_content);
                        ("at_content", py_round2 (hundred_minus gc_content));
                        ("n_content", PyFloat (round2 n_content));
                        ("is_valid",
                         PyBool (Nat.eqb (List.length
                                            (set_diff (set_of (upper s)) valid_chars)) 0));
                        ("invalid_characters",
                         PyList (map (fun c => PyStr (String c EmptyString))
                                     (match set_diff (set_of (upper s)) valid_chars with
                                      | [] => []
                                      | _ => set_order rt
                                               (set_diff (set_of (upper s)) valid_chars)
                                      end)));
                        ("is_supported_length",
                         PyBool (existsb (Z.eqb (len (upper s))) supported_lengths));
                        ("closest_supported_length",
                         PyInt (closest_from 2048 (len (upper s))
                                  [16384; 131072; 524288; 1048576]));
                        ("supported_lengths", PyList (map PyInt supported_lengths))])]),
       self, []).
Proof.
  intros Hne. unfold get_sequence_info, try_except.
  assert (Ht : truthy (PyStr s) = true) by now apply truthy_str.
  rewrite Ht. unfold negb. cbv iota. rewrite bind_ret. cbv zeta.
  assert (Hlen : len (upper s) <> 0).
  { pose proof (len_upper_ge s). pose proof (len_positive s Hne). lia. }
  destruct (percentage_defined (count "N" (upper s)) (len (upper s)) Hlen) as [pn Hpn].
  set (known := count "G" (upper s) + count "C" (upper s)
                + (count "A" (upper s) + count "T" (upper s))).
  destruct (known >? 0)%Z eqn:Hk.
  - assert (Hk0 : known <> 0) by lia.
    destruct (percentage_defined (count "G" (upper s) + count "C" (upper s)) known Hk0)
      as [pg Hpg].
    exists (PyFloat pg), pn.
    rewrite Hpg, lift_inr, bind_assoc, !bind_ret.
    rewrite closest_supported, lift_inr, bind_ret.
    rewrite Hpn, lift_inr, bind_ret. reflexivity.
  - exists (PyInt 0), pn.
    rewrite bind_ret, closest_supported, lift_inr, bind_ret.
    rewrite Hpn, lift_inr, bind_ret. reflexivity.
Qed.

End SequenceInfoAny.

(** X12.  On every non-empty string, with or without invalid
    characters, [get_sequence_info] succeeds.  The reported length is
    that of the upper-cased string, which is never less than the length
    of the string and equal to it for an ASCII string; [is_valid] is
    true exactly when every character of the upper-cased string is one
    of A, T, G, C, N; the invalid characters listed are the characters
    of the upper-cased string outside that alphabet, each once; and the
    five base counts are not negative and add up to at most the
    reported length. *)
Theorem get_sequence_info_any (rt : PyRuntime) (L : Lib) (self : AlphaGenomeClient L)
    (s : string) :
  s <> EmptyString ->
  exists res length a t g c n invalid,
    result_of (get_sequence_info rt L s self)
    = inr (PyDict [("success", PyBool true); ("result", PyDict res)])
    /\ dict_get "length" res = Some (PyInt length)
    /\ length = len (upper s)
    /\ len s <= length
    /\ (forallb is_ascii (chars s) = true -> length = len s)
    /\ (dict_get "is_valid" res = Some (PyBool true) <-> dna_only s)
    /\ dict_get "invalid_characters" res
       = Some (PyList (map (fun ch => PyStr (String ch EmptyString)) invalid))
    /\ NoDup invalid
    /\ (forall ch, In ch invalid <-> In ch (chars (upper s)) /\ ~ In ch dna_alphabet)
    /\ dict_get "base_counts" res
       = Some (PyDict [("A", PyInt a); ("T", PyInt t); ("G", PyInt g);
                       ("C", PyInt c); ("N", PyInt n)])
    /\ 0 <= a /\ 0 <= t /\ 0 <= g /\ 0 <= c /\ 0 <= n
    /\ a + t + g + c + n <= length.
Proof.
  intros Hne.
  destruct (get_sequence_info_run_any rt L s self Hne) as [gc [pn Hrun]].
  rewrite Hrun. unfold result_of, fst.
  assert (Hnil : set_diff (set_of (upper s)) valid_chars = [] <-> dna_only s)
    by exact (set_diff_nil (upper s) "ATGCN").
  assert (Hin : forall ch, In ch (set_diff (set_of (upper s)) valid_chars)
                           <-> In ch (chars (upper s)) /\ ~ In ch dna_alphabet).
  { intros ch. rewrite In_set_diff. unfold set_of. rewrite In_dedup. reflexivity. }
  assert (Hnd : NoDup (set_diff (set_of (upper s)) valid_chars)).
  { unfold set_diff, set_of. apply NoDup_filter, NoDup_dedup. }
  do 8 eexists. split; [reflexivity|].
  split; [reflexivity|]. split; [reflexivity|].
  split; [apply len_upper_ge|].
  split; [apply len_upper_ascii|].
  split.
  { simpl. destruct (set_diff (set_of (upper s)) valid_chars) as [|x inv]; simpl.
    - split; [intros _; now apply Hnil | reflexivity].
    - split; [discriminate | intros Hd; apply Hnil in Hd; discriminate]. }
  split; [reflexivity|].
  split.
  { destruct (set_diff (set_of (upper s)) valid_chars) as [|x inv] eqn:E; [constructor|].
    rewrite <- E in *.
    apply (Permutation_NoDup (Permutation_sym (set_order_elements rt _)) Hnd). }
  split.
  { intros ch. rewrite <- Hin.
    destruct (set_diff (set_of (upper s)) valid_chars) as [|x inv] eqn:E; [reflexivity|].
    rewrite <- E. split; apply Permutation_in;
      [apply set_order_elements | apply Permutation_sym, set_order_elements]. }
  split; [reflexivity|].
  pose proof (count_sum_le (upper s)) as Hsum.
  repeat split; try apply count_nonneg. exact Hsum.
Qed.

Lemma get_sequence_info_any_witness :
  let s := String "a" (String sharp_s "x") in
  exists res length a t g c n invalid,
    result_of (get_sequence_info Sample.runtime Sample.lib s Sample.self)
    = inr (PyDict [("success", PyBool true); ("result", PyDict res)])
    /\ dict_get "length" res = Some (PyInt length)
    /\ length = len (upper s)
    /\ len s <= length
    /\ (forallb is_ascii (chars s) = true -> length = len s)
    /\ (dict_get "is_valid" res = Some (PyBool true) <-> dna_only s)
    /\ dict_get "invalid_characters" res
       = Some (PyList (map (fun ch => PyStr (String ch EmptyString)) invalid))
    /\ NoDup invalid
    /\ (forall ch, In ch invalid <-> In ch (chars (upper s)) /\ ~ In ch dna_alphabet)
    /\ dict_get "base_counts" res
       = Some (PyDict [("A", PyInt a); ("T", PyInt t); ("G", PyInt g);
                       ("C", PyInt c); ("N", PyInt n)])
    /\ 0 <= a /\ 0 <= t /\ 0 <= g /\ 0 <= c /\ 0 <= n
    /\ a + t + g + c + n <= length.
Proof.
  intros s.
  apply (get_sequence_info_any Sample.runtime Sample.lib Sample.self s).
  discriminate.
Defined.

(** X13.  The [closest_supported_length] that [get_sequence_info]
    reports is one of the five supported lengths and none of them is
    nearer to the reported length, which is the length of the
    upper-cased string; [is_supported_length] is true exactly when that
    length is one of the five, and then the closest length is the
    length itself. *)
Theorem get_sequence_info_closest_length (rt : PyRuntime) (L : Lib)
    (self : AlphaGenomeClient L) (s : string) :
  s <> EmptyString ->
  exists res length closest_length,
    result_of (get_sequence_info rt L s self)
    = inr (PyDict [("success", PyBool true); ("result", PyDict res)])
    /\ dict_get "length" res = Some (PyInt length)
    /\ length = len (upper s)
    /\ dict_get "closest_supported_length" res = Some (PyInt closest_length)
    /\ In closest_length supported_lengths
    /\ (forall x, In x supported_lengths ->
                  Z.abs (closest_length - length) <= Z.abs (x - length))
    /\ (dict_get "is_supported_length" res = Some (PyBool true)
        <-> In length supported_lengths)
    /\ (In length supported_lengths -> closest_length = length).
Proof.
  intros Hne.
  destruct (get_sequence_info_run_any rt L s self Hne) as [gc [pn Hrun]].
  rewrite Hrun. unfold result_of, fst.
  destruct (closest_from_spec 2048 (len (upper s)) [16384; 131072; 524288; 1048576])
    as [Hin Hmin].
  do 3 eexists. split; [reflexivity|]. split; [reflexivity|]. split; [reflexivity|].
  split; [reflexivity|].
  split; [exact Hin|]. split; [exact Hmin|]. split.
  - change (Some (PyBool (existsb (Z.eqb (len (upper s))) supported_lengths))
            = Some (PyBool true)
            <-> In (len (upper s)) supported_lengths).
    rewrite <- supported_length_In.
    destruct (existsb (Z.eqb (len (upper s))) supported_lengths); split; congruence.
  - intros Hs. specialize (Hmin (len (upper s)) Hs). lia.
Qed.

Lemma get_sequence_info_closest_length_witness :
  let s := String sharp_s "ACGT" in
  exists res length closest_length,
    result_of (get_sequence_info Sample.runtime Sample.lib s Sample.self)
    = inr (PyDict [("success", PyBool true); ("result", PyDict res)])
    /\ dict_get "length" res = Some (PyInt length)
    /\ length = len (upper s)
    /\ dict_get "closest_supported_length" res = Some (PyInt closest_length)
    /\ In closest_length supported_lengths
    /\ (forall x, In x supported_lengths ->
                  Z.abs (closest_length - length) <= Z.abs (x - length))
    /\ (dict_get "is_supported_length" res = Some (PyBool true)
        <-> In length supported_lengths)
    /\ (In length supported_lengths -> closest_length = length).
Proof.
  intros s.
  apply (get_sequence_info_closest_length Sample.runtime Sample.lib Sample.self s).
  discriminate.
Defined.

(* ================================================================== *)
(** * [compare_sequences] *)
(* ================================================================== *)

(** X14.  [compare_sequences] always runs both predictions, the second
    one also when the first has failed, and never passes ontology terms.
    If one of them returned an error envelope the answer is the failure
    dictionary around both results; otherwise it is the success
    dictionary with the two ["result"] values, the two lengths and the
    absolute difference of the lengths. *)
Theorem compare_sequences_both_predicted (L : Lib) (self : AlphaGenomeClient L)
    (sequence1 sequence2 organism : string) (output_types : option (list string)) :
  let r1 := predict_sequence L sequence1 organism output_types None self in
  let r2 := predict_sequence L sequence2 organism output_types None (self_of r1) in
  let r := compare_sequences L sequence1 sequence2 organism output_types self in
  events_of r = (events_of r1 ++ events_of r2)%list
  /\ self_of r = self_of r2
  /\ exists v1 v2,
       result_of r1 = inr v1 /\ result_of r2 = inr v2
       /\ (((exists e, v1 = error_envelope e) \/ (exists e, v2 = error_envelope e))
           /\ result_of r = inr (comparison_failed v1 v2)
           \/ (exists x1 x2,
                 py_getitem v1 "success" = inr (PyBool true)
                 /\ py_getitem v2 "success" = inr (PyBool true)
                 /\ py_getitem v1 "result" = inr x1
                 /\ py_getitem v2 "result" = inr x2
                 /\ result_of r = inr (comparison_done sequence1 sequence2 x1 x2))).
Proof.
  intros r1 r2 r. subst r r2 r1. unfold compare_sequences, try_except.
  destruct (predict_sequence_cases L sequence1 organism output_types None self)
    as [self1 [evs1 H1]].
  destruct H1 as [[e1 [H1 Hr1]] | [x1 [n1 [H1 Hr1]]]];
    rewrite (bind_inr _ _ _ _ _ _ H1), H1; cbn [self_of fst snd];
    destruct (predict_sequence_cases L sequence2 organism output_types None self1)
      as [self2 [evs2 H2]];
    destruct H2 as [[e2 [H2 Hr2]] | [x2 [n2 [H2 Hr2]]]];
    rewrite (bind_inr _ _ _ _ _ _ H2), H2;
    cbn; rewrite ?app_nil_r;
    (split; [reflexivity|]); (split; [reflexivity|]);
    do 2 eexists; (split; [reflexivity|]); (split; [reflexivity|]).
  - left. split; [left; eauto | reflexivity].
  - left. split; [left; eauto | reflexivity].
  - left. split; [right; eauto | reflexivity].
  - right. do 2 eexists. repeat split; reflexivity.
Qed.

(* ================================================================== *)
(** * [rank_variants_by_impact] *)
(* ================================================================== *)

Section YieldRules.

Context {L : Lib}.

Lemma yields_ret {A} (P : A -> Prop) (a : A) : P a -> yields (L:=L) P (ret a).
Proof. intros H self. exact H. Qed.

Lemma yields_raise {A} (P : A -> Prop) (e : exn) : yields (L:=L) P (raise e).
Proof. intros self. exact I. Qed.

Lemma yields_lift {A} (r : exn + A) : yields (L:=L) (fun a => r = inr a) (lift r).
Proof. destruct r; intros self; simpl; auto. Qed.

Lemma yields_bind {A B} (Q : A -> Prop) (P : B -> Prop) (m : M L A) (k : A -> M L B) :
  yields Q m -> (forall a, Q a -> yields P (k a)) -> yields P (bind m k).
Proof.
  intros Hm Hk self. specialize (Hm self). unfold bind, result_of in *.
  destruct (m self) as [[[e|a] self1] evs]; simpl in *; [exact I|].
  specialize (Hk a Hm self1). unfold result_of in Hk.
  destruct (k a self1) as [[r self2] evs']; simpl in *. exact Hk.
Qed.

Lemma yields_any {A} (m : M L A) : yields (fun _ => True) m.
Proof. intros self. now destruct (result_of (m self)). Qed.

Lemma yields_try_except (P : pyval -> Prop) (body : M L pyval) :
  yields P body -> (forall e, P (error_envelope e)) -> yields P (try_except L body).
Proof.
  intros Hb He self. specialize (Hb self). rewrite result_try_except.
  destruct (result_of (body self)); [apply He | exact Hb].
Qed.

End YieldRules.

Lemma py_len_iter (v : pyval) (n : Z) (items : list pyval) :
  py_len v = inr n -> py_iter v = inr items -> n = Z.of_nat (List.length items).
Proof.
  destruct v; try discriminate; simpl; intros [= <-] [= <-].
  - unfold len, chars. rewrite length_map. f_equal.
    induction s as [|c s IH]; simpl; [reflexivity | now rewrite IH].
  - reflexivity.
  - now rewrite length_map.
Qed.

Section Rank.

Context (rt : PyRuntime) (L : Lib).

Lemma variant_info_yields (scores : list pyval) (i : Z) (d : pyval) :
  yields (fun out =>
            exists info c p r a,
              out = PyDict info
              /\ dict_get "rank" info = Some (PyInt (i + 1))
              /\ py_getitem d "chromosome" = inr c /\ dict_get "chromosome" info = Some c
              /\ py_getitem d "position" = inr p /\ dict_get "position" info = Some p
              /\ py_getitem d "ref" = inr r /\ dict_get "ref" info = Some r
              /\ py_getitem d "alt" = inr a /\ dict_get "alt" info = Some a
              /\ dict_get "impact_category" info = Some (PyStr "unknown"))
         (variant_info rt L scores (i, d)).
Proof.
  unfold variant_info.
  eapply yields_bind; [apply yields_lift|]. intros c Hc.
  eapply yields_bind; [apply yields_lift|]. intros p Hp.
  eapply yields_bind; [apply yields_lift|]. intros r Hr.
  eapply yields_bind; [apply yields_lift|]. intros a Ha.
  apply yields_ret. eexists _, c, p, r, a.
  split; [reflexivity|]. repeat split; try assumption; reflexivity.
Qed.

Lemma mapM_variant_info_yields (scores : list pyval) (first : Z) (items : list pyval) :
  yields (ranked_in_order first items)
         (mapM L (variant_info rt L scores) (enumerate_from first items)).
Proof.
  revert first. induction items as [|d items IH]; intros first; cbn [enumerate_from mapM].
  - apply yields_ret. split; [reflexivity|]. intros [|k] x; discriminate.
  - eapply yields_bind; [apply variant_info_yields|].
    intros out [info [c [p [r [a [-> Hinfo]]]]]].
    eapply yields_bind; [apply (IH (first + 1))|].
    intros outs [Hlen Hnth]. apply yields_ret. split.
    + simpl. now rewrite Hlen.
    + intros [|k] x Hx; simpl in Hx.
      * injection Hx as <-. exists info, c, p, r, a.
        split; [reflexivity|]. rewrite Z.add_0_r. exact Hinfo.
      * destruct (Hnth k x Hx) as [info' [c' [p' [r' [a' [Hk [Hrank Hrest]]]]]]].
        exists info', c', p', r', a'. split; [exact Hk|]. split; [|exact Hrest].
        rewrite Hrank. do 2 f_equal. lia.
Qed.

Lemma rank_continuation_yields (variants interval score_result : pyval)
    (ranking_metric : string) :
  yields (ranking_shown variants)
    (failed <- item_falsy L score_result "success" ;;
     if failed then ret score_result
     else
       items <- lift (py_iter variants) ;;
       results <- lift (py_getitem score_result "results") ;;
       scores <- lift (py_iter results) ;;
       ranked_variants <- mapM L (variant_info rt L scores) (enumerate items) ;;
       n <- lift (py_len variants) ;;
       text <- interval_text_from rt L interval ;;
       ret (PyDict [("success", PyBool true);
                    ("result",
                     PyDict [("ranked_variants", PyList ranked_variants);
                             ("total_variants", PyInt n);
                             ("ranking_metric", PyStr ranking_metric);
                             ("interval", PyStr text);
                             ("note", PyStr "Variants are returned with scores. Detailed ranking requires score interpretation based on specific algorithms.")])])).
Proof.
  unfold item_falsy.
  eapply yields_bind.
  { eapply yields_bind; [apply yields_lift|]. intros x Hx.
    apply (yields_ret (fun failed => exists x, py_getitem score_result "success" = inr x
                                               /\ failed = negb (truthy x))).
    now exists x. }
  intros failed [x [Hx ->]].
  destruct (truthy x) eqn:Htx; simpl negb; cbv iota.
  - eapply yields_bind; [apply yields_lift|]. intros items Hitems.
    eapply yields_bind; [apply yields_any|]. intros results _.
    eapply yields_bind; [apply yields_any|]. intros scores _.
    eapply yields_bind; [apply mapM_variant_info_yields|]. intros ranked Hranked.
    eapply yields_bind; [apply yields_lift|]. intros n Hn.
    eapply yields_bind; [apply yields_any|]. intros text _.
    apply yields_ret. intros res [= <-].
    exists items, ranked. split; [assumption|]. split; [reflexivity|].
    split; [|assumption].
    simpl. now rewrite (py_len_iter variants n items Hn Hitems).
  - apply yields_ret. intros res ->. simpl in Hx. injection Hx as <-. discriminate.
Qed.

End Rank.

(** X15.  [rank_variants_by_impact] does not rank: whenever it
    succeeds, [ranked_variants] lists the variants in the order they
    were given, the entry at position [k] (from 0) carrying rank [k + 1],
    the four fields of that variant and impact category "unknown";
    [total_variants] is their number.  Neither the scores nor
    [ranking_metric] change the order. *)
Theorem rank_variants_keeps_order (rt : PyRuntime) (L : Lib)
    (self : AlphaGenomeClient L) (variants interval : pyval)
    (organism ranking_metric : string) (max_workers : Z)
    (res : list (string * pyval)) :
  result_of (rank_variants_by_impact rt L variants interval organism ranking_metric
               max_workers self)
  = inr (PyDict [("success", PyBool true); ("result", PyDict res)]) ->
  exists items ranked,
    py_iter variants = inr items
    /\ dict_get "ranked_variants" res = Some (PyList ranked)
    /\ dict_get "total_variants" res = Some (PyInt (Z.of_nat (List.length items)))
    /\ ranked_in_order 0 items ranked.
Proof.
  intros Hres.
  assert (Hy : yields (ranking_shown variants)
                 (rank_variants_by_impact rt L variants interval organism
                    ranking_metric max_workers)).
  { unfold rank_variants_by_impact. apply yields_try_except.
    - eapply yields_bind; [apply yields_any|]. intros score_result _.
      apply rank_continuation_yields.
    - intros e res' [=]. }
  specialize (Hy self). rewrite Hres in Hy. now apply Hy.
Qed.

Lemma rank_variants_keeps_order_witness :
  let v p := PyDict [("chromosome", PyStr "chr1"); ("position", PyInt p);
                     ("ref", PyStr "A"); ("alt", PyStr "G")] in
  let variants := PyList [v 30; v 10; v 20] in
  let interval := PyDict [("chromosome", PyStr "chr1"); ("start", PyInt 1);
                          ("end", PyInt 50)] in
  exists res items ranked,
    result_of (rank_variants_by_impact Sample.runtime Sample.lib variants interval
                 "human" "composite" 5 Sample.self)
    = inr (PyDict [("success", PyBool true); ("result", PyDict res)])
    /\ py_iter variants = inr items
    /\ dict_get "ranked_variants" res = Some (PyList ranked)
    /\ dict_get "total_variants" res = Some (PyInt (Z.of_nat (List.length items)))
    /\ ranked_in_order 0 items ranked.
Proof.
  intros v variants interval.
  assert (H : exists res,
             result_of (rank_variants_by_impact Sample.runtime Sample.lib variants
                          interval "human" "composite" 5 Sample.self)
             = inr (PyDict [("success", PyBool true); ("result", PyDict res)]))
    by (eexists; reflexivity).
  destruct H as [res Hres].
  destruct (rank_variants_keeps_order Sample.runtime Sample.lib Sample.self variants
              interval "human" "composite" 5 res Hres) as [items [ranked H]].
  exists res, items, ranked. split; [exact Hres | exact H].
Defined.

Lemma pure_mapM {L A B} (f : A -> M L B) (l : list A) :
  (forall x, pure_cmd (f x)) -> pure_cmd (mapM L f l).
Proof.
  intros Hf. induction l as [|x l IH]; simpl; [apply pure_ret|].
  apply pure_bind; [apply Hf|]. intros y.
  apply pure_bind; [apply IH|]. intros ys. apply pure_ret.
Qed.

Lemma bind_then_pure {L A B} (m : M L A) (k : A -> M L B)
    (self : AlphaGenomeClient L) (a : A) (self1 : AlphaGenomeClient L) (evs : list event) :
  m self = (inr a, self1, evs) -> pure_cmd (k a) ->
  exists r' evs',
    calls_of evs' = [] /\ k a self1 = (r', self1, evs')
    /\ bind m k self = (r', self1, (evs ++ evs')%list).
Proof.
  intros Hm [r' [evs' [Hc Hk]]]. exists r', evs'.
  split; [assumption|]. split; [apply Hk|].
  now rewrite (bind_inr _ _ _ _ _ _ Hm), Hk.
Qed.

(** X16.  [rank_variants_by_impact] contacts the client exactly as
    [score_variants] does on the same arguments and leaves the object in
    the same state; when the scoring ends in an error envelope, that
    envelope is returned as it is. *)
Theorem rank_follows_scoring (rt : PyRuntime) (L : Lib) (self : AlphaGenomeClient L)
    (variants interval : pyval) (organism ranking_metric : string) (max_workers : Z) :
  let scored := score_variants rt L variants interval organism max_workers self in
  let r := rank_variants_by_impact rt L variants interval organism ranking_metric
             max_workers self in
  calls_of (events_of r) = calls_of (events_of scored)
  /\ self_of r = self_of scored
  /\ (forall e, result_of scored = inr (error_envelope e) ->
                result_of r = inr (error_envelope e)
                /\ events_of r = events_of scored).
Proof.
  intros scored r. subst scored r.
  pose proof (score_variants_enveloped rt L variants interval organism max_workers self)
    as Henv.
  unfold rank_variants_by_impact, try_except.
  destruct (score_variants rt L variants interval organism max_workers self)
    as [[[e|v] self1] evs1] eqn:Hsc; [contradiction|].
  match goal with
  | |- context [bind _ ?k] =>
      destruct (bind_then_pure _ k self v self1 evs1 Hsc) as [r' [evs' [Hc [Hk Hb]]]]
  end.
  { repeat first [ apply pure_mapM; intros ? | pure_step
                 | match goal with
                   | |- pure_cmd (let (_, _) := ?x in _) => destruct x
                   end ]. }
  rewrite Hb. unfold result_of, self_of, events_of. simpl.
  split; [|split].
  - destruct r'; simpl; now rewrite calls_of_app, Hc, app_nil_r.
  - now destruct r'.
  - intros e [= ->].
    unfold item_falsy, bind, lift, ret in Hk. simpl in Hk.
    injection Hk as <- <-. rewrite app_nil_r. auto.
Qed.

(* ================================================================== *)
(** * What [main] prints and how it exits *)
(* ================================================================== *)

Lemma enveloped_yields {L} (m : M L pyval) : enveloped m -> yields has_success m.
Proof.
  intros Hm self. specialize (Hm self). unfold result_of.
  destruct (m self) as [[[e|v] self1] evs]; simpl; [exact I|].
  destruct Hm as [[_ [Hv _]] | [e [_ ->]]]; [assumption | apply has_success_envelope].
Qed.

Lemma compare_sequences_yields (L : Lib) s1 s2 o ots :
  yields has_success (compare_sequences L s1 s2 o ots).
Proof.
  intros self. destruct (compare_sequences_has_success L s1 s2 o ots self) as [v [-> Hv]].
  exact Hv.
Qed.

Ltac method_yields :=
  first [ apply compare_sequences_yields
        | apply enveloped_yields;
          first [ apply predict_sequence_enveloped | apply predict_interval_enveloped
                | apply predict_variant_enveloped | apply score_variant_enveloped
                | apply get_output_metadata_enveloped | apply predict_sequences_enveloped
                | apply predict_intervals_enveloped | apply predict_variants_enveloped
                | apply score_variants_enveloped | apply score_interval_enveloped
                | apply score_intervals_enveloped | apply score_ism_variants_enveloped
                | apply parse_variant_string_enveloped
                | apply validate_genomic_data_enveloped
                | apply get_supported_outputs_enveloped
                | apply calculate_genomic_overlap_enveloped
                | apply get_sequence_info_enveloped | apply analyze_gene_region_enveloped
                | apply rank_variants_by_impact_enveloped ] ].

Ltac yields_step :=
  match goal with
  | |- yields _ (raise _) => apply yields_raise
  | |- yields _ (bind _ _) => eapply yields_bind; [apply yields_any | intros ? _]
  | |- yields _ (if ?b then _ else _) => destruct b
  | |- yields _ (match ?x with _ => _ end) => destruct x
  | |- yields _ _ => method_yields
  end.

Lemma dispatch_yields (rt : PyRuntime) (L : Lib) (args : Args.Namespace) :
  yields has_success (dispatch rt L args).
Proof. unfold dispatch. cbv zeta. destruct (Args.command args); repeat yields_step. Qed.

Section RaiseRules.

Context {L : Lib}.

Lemma traced_raise {A} (e : exn) : raise_traced (L:=L) (raise (A:=A) e).
Proof. intros self. simpl. now left. Qed.

Lemma traced_ret {A} (a : A) : raise_traced (L:=L) (ret a).
Proof. intros self. exact I. Qed.

Lemma traced_lift {A} (r : exn + A) : raise_traced (L:=L) (lift r).
Proof. destruct r; [apply traced_raise | apply traced_ret]. Qed.

Lemma traced_bind {A B} (m : M L A) (k : A -> M L B) :
  raise_traced m -> (forall a, raise_traced (k a)) -> raise_traced (bind m k).
Proof.
  intros Hm Hk self. specialize (Hm self). unfold bind.
  destruct (m self) as [[[e|a] self1] evs]; [exact Hm|].
  specialize (Hk a self1).
  destruct (k a self1) as [[[e|b] self2] evs']; [|exact I].
  rewrite raised_of_app. apply in_or_app. now right.
Qed.

Lemma traced_try_except (body : M L pyval) : raise_traced (try_except L body).
Proof. intros self. unfold try_except. now destruct (body self) as [[[e|v] s] evs]. Qed.

End RaiseRules.

Ltac traced_step :=
  match goal with
  | |- raise_traced (try_except _ _) => apply traced_try_except
  | |- raise_traced (raise _) => apply traced_raise
  | |- raise_traced (ret _) => apply traced_ret
  | |- raise_traced (lift _) => apply traced_lift
  | |- raise_traced (bind _ _) => apply traced_bind; [ | intros ? ]
  | |- raise_traced (if ?b then _ else _) => destruct b
  | |- raise_traced (match ?x with _ => _ end) => destruct x
  | |- raise_traced _ => progress autounfold with methods
  end.

Lemma dispatch_traced (rt : PyRuntime) (L : Lib) (args : Args.Namespace) :
  raise_traced (dispatch rt L args).
Proof. unfold dispatch. cbv zeta. destruct (Args.command args); repeat traced_step. Qed.

(** X17.  Whatever the command line, [main] prints a dictionary with a
    boolean under ["success"] and exits with status 0 or 1; status 1
    goes with the error envelope of the exception that ended [main],
    status 0 with what the method returned (which may itself report a
    failure). *)
Theorem main_prints_envelope (rt : PyRuntime) (L : Lib) (args : Args.Namespace) :
  has_success (printed (main rt L args))
  /\ (exit_status (main rt L args) = 0 \/ exit_status (main rt L args) = 1)
  /\ (exit_status (main rt L args) = 1 ->
      exists e, printed (main rt L args) = error_envelope e
                /\ In e (raised_of (trace (main rt L args))))
  /\ (exit_status (main rt L args) = 0 ->
      exists self, init L (Args.api_key args) = inr self
                   /\ result_of (dispatch rt L args self) = inr (printed (main rt L args))).
Proof.
  unfold main. destruct (init L (Args.api_key args)) as [e|self] eqn:Hinit; simpl.
  - split; [apply has_success_envelope|]. split; [now right|].
    split; [intros _; exists e; auto | discriminate].
  - pose proof (dispatch_yields rt L args self) as Hy.
    pose proof (dispatch_traced rt L args self) as Hl.
    unfold result_of in *.
    destruct (dispatch rt L args self) as [[[e|v] self1] evs] eqn:Hrun; simpl in *.
    + split; [apply has_success_envelope|]. split; [now right|].
      split; [intros _; exists e; auto | discriminate].
    + split; [exact Hy|]. split; [now left|]. split; [discriminate|].
      intros _. exists self. split; [reflexivity|]. now rewrite Hrun.
Qed.

(* ================================================================== *)
(** * Overlap of intervals that do not meet *)
(* ================================================================== *)

(** X18.  [calculate_genomic_overlap] answers with the error envelope of
    the exception when one of the two dictionaries does not make an
    [Interval] (the first dictionary is tried first).  When both do and
    the library reports no overlap, or no intersection, the result has
    the three keys ["overlaps"], ["interval1"] and ["interval2"] only:
    neither ["intersection"] nor ["overlap_stats"], and no division is
    made. *)
Theorem calculate_genomic_overlap_apart (rt : PyRuntime) (L : Lib)
    (self : AlphaGenomeClient L) (interval1 interval2 : pyval) :
  (forall e, interval_object L interval1 = inl e ->
     result_of (calculate_genomic_overlap rt L interval1 interval2 self)
     = inr (error_envelope e))
  /\ (forall int1 e,
        interval_object L interval1 = inr int1 ->
        interval_object L interval2 = inl e ->
        result_of (calculate_genomic_overlap rt L interval1 interval2 self)
        = inr (error_envelope e))
  /\ (forall int1 int2,
        interval_object L interval1 = inr int1 ->
        interval_object L interval2 = inr int2 ->
        Interval_overlaps L int1 int2 = false
        \/ Interval_intersect L int1 int2 = None ->
        exists text1 text2,
          result_of (interval_text_from rt L interval1 self) = inr text1
          /\ result_of (interval_text_from rt L interval2 self) = inr text2
          /\ result_of (calculate_genomic_overlap rt L interval1 interval2 self)
             = inr (PyDict
                      [("success", PyBool true);
                       ("result",
                        PyDict [("overlaps", PyBool (Interval_overlaps L int1 int2));
                                ("interval1", PyStr text1);
                                ("interval2", PyStr text2)])])).
Proof.
  split; [|split].
  - intros e H. unfold calculate_genomic_overlap. rewrite result_try_except.
    unfold result_of. erewrite bind_inl; [reflexivity|].
    rewrite interval_from_lift, H. reflexivity.
  - intros int1 e H1 H2. unfold calculate_genomic_overlap. rewrite result_try_except.
    unfold result_of.
    rewrite (bind_pure_run L _ _ _ _ (interval_from_run L interval1 int1 self H1)).
    erewrite bind_inl; [reflexivity|].
    rewrite interval_from_lift, H2. reflexivity.
  - intros int1 int2 H1 H2 Hno.
    destruct (interval_text_from_run rt L interval1 int1 self H1) as [text1 Ht1].
    destruct (interval_text_from_run rt L interval2 int2 self H2) as [text2 Ht2].
    exists text1, text2.
    split; [now rewrite Ht1|]. split; [now rewrite Ht2|].
    unfold calculate_genomic_overlap. rewrite result_try_except.
    rewrite (bind_pure_run L _ _ _ _ (interval_from_run L interval1 int1 self H1)).
    rewrite (bind_pure_run L _ _ _ _ (interval_from_run L interval2 int2 self H2)).
    cbv zeta.
    rewrite (bind_pure_run L _ _ _ _ Ht1).
    rewrite (bind_pure_run L _ _ _ _ Ht2).
    destruct Hno as [Hov | Hix].
    + rewrite Hov. rewrite bind_ret. reflexivity.
    + rewrite Hix. destruct (Interval_overlaps L int1 int2); rewrite bind_ret; reflexivity.
Qed.

(* ================================================================== *)
(** * The calls of a run of [main] *)
(* ================================================================== *)

Section EarlyRules.

Context {L : Lib}.

Lemma at_most_mono {A} (n p : nat) (m : M L A) :
  calls_at_most n m -> (n <= p)%nat -> calls_at_most p m.
Proof. intros H Hnp self. specialize (H self). lia. Qed.

Lemma early_quiet {A} (m : M L A) : quiet m -> fails_early m.
Proof. intros H self. rewrite (H self). now destruct (result_of (m self)). Qed.

Lemma early_bind {A B} (m : M L A) (k : A -> M L B) :
  quiet m -> (forall a, fails_early (k a)) -> fails_early (bind m k).
Proof.
  intros Hm Hk self. specialize (Hm self). unfold bind, result_of, events_of in *.
  destruct (m self) as [[[e|a] self1] evs]; simpl in *; [assumption|].
  specialize (Hk a self1). unfold result_of, events_of in Hk.
  destruct (k a self1) as [[[e|b] self2] evs']; simpl in *; [|exact I].
  now rewrite calls_of_app, Hm, Hk.
Qed.

Lemma early_try_except (body : M L pyval) : fails_early (try_except L body).
Proof.
  intros self. unfold try_except, result_of.
  now destruct (body self) as [[[e|v] s] evs].
Qed.

End EarlyRules.

Ltac early_step :=
  match goal with
  | |- fails_early (try_except _ _) => apply early_try_except
  | |- fails_early (raise _) => apply early_quiet, quiet_raise
  | |- fails_early (bind _ _) => apply early_bind; [solve [quiet_auto] | intros ?]
  | |- fails_early (if ?b then _ else _) => destruct b
  | |- fails_early (match ?x with _ => _ end) => destruct x
  | |- fails_early _ => progress autounfold with methods
  end.

Ltac dispatch_calls_step :=
  match goal with
  | |- calls_at_most _ (raise _) => apply at_most_quiet, quiet_raise
  | |- calls_at_most _ (bind _ _) =>
      apply at_most_bind_quiet; [solve [quiet_auto] | intros ?]
  | |- calls_at_most _ (if ?b then _ else _) => destruct b
  | |- calls_at_most _ (match ?x with _ => _ end) => destruct x
  | |- calls_at_most 2 (compare_sequences _ _ _ _ _) => apply compare_sequences_two_calls
  | |- calls_at_most 2 (rank_variants_by_impact _ _ _ _ _ _ _) =>
      apply (at_most_mono 1 2); [apply rank_variants_by_impact_one_call | lia]
  | |- calls_at_most 2 _ =>
      apply (at_most_mono 1 2); [autounfold with methods; repeat at_most_step | lia]
  end.

Lemma dispatch_fails_early (rt : PyRuntime) (L : Lib) (args : Args.Namespace) :
  fails_early (dispatch rt L args).
Proof. unfold dispatch. cbv zeta. destruct (Args.command args); repeat early_step. Qed.

Lemma dispatch_two_calls (rt : PyRuntime) (L : Lib) (args : Args.Namespace) :
  calls_at_most 2 (dispatch rt L args).
Proof.
  unfold dispatch. cbv zeta. destruct (Args.command args); repeat dispatch_calls_step.
Qed.

(** X19.  When [main] exits with status 1, the client has not been
    called: the failures that end [main] (a missing key, a missing
    option, an attribute the parser does not declare, text that is not
    JSON) all come before the method runs, and a failure inside a method
    is printed with status 0. *)
Theorem main_exit_one_no_call (rt : PyRuntime) (L : Lib) (args : Args.Namespace) :
  exit_status (main rt L args) = 1 -> calls_of (trace (main rt L args)) = [].
Proof.
  unfold main. destruct (init L (Args.api_key args)) as [e|self]; [reflexivity|].
  pose proof (dispatch_fails_early rt L args self) as H.
  unfold result_of, events_of in H.
  destruct (dispatch rt L args self) as [[[e|v] self1] evs]; simpl in *.
  - intros _. exact H.
  - discriminate.
Qed.

Lemma main_exit_one_no_call_witness :
  calls_of (trace (main Sample.runtime Sample.lib (Sample.args cmd_predict_sequence))) = [].
Proof.
  apply (main_exit_one_no_call Sample.runtime Sample.lib (Sample.args cmd_predict_sequence)).
  reflexivity.
Defined.

(** X20.  A run of [main] calls the client at most twice. *)
Theorem main_call_budget (rt : PyRuntime) (L : Lib) (args : Args.Namespace) :
  (List.length (calls_of (trace (main rt L args))) <= 2)%nat.
Proof.
  unfold main. destruct (init L (Args.api_key args)) as [e|self]; [simpl; lia|].
  pose proof (dispatch_two_calls rt L args self) as H. unfold events_of in H.
  destruct (dispatch rt L args self) as [[[e|v] self1] evs]; exact H.
Qed.

(* ================================================================== *)
(** * Batches of variants *)
(* ================================================================== *)

Section VariantBatches.

Context {L : Lib}.

Implicit Types self : AlphaGenomeClient L.

Lemma variant_from_lift (d : pyval) self :
  variant_from L d self = lift (variant_object L d) self.
Proof.
  unfold variant_from, variant_object.
  destruct (py_getitem d "chromosome") as [x|c]; [reflexivity|].
  rewrite lift_inr, bind_ret.
  destruct (py_getitem d "position") as [x|p]; [reflexivity|].
  rewrite lift_inr, bind_ret.
  destruct (py_getitem d "ref") as [x|r]; [reflexivity|].
  rewrite lift_inr, bind_ret.
  destruct (py_getitem d "alt") as [x|a]; [reflexivity|].
  now rewrite lift_inr, bind_ret.
Qed.

Lemma mapM_variant_from (items : list pyval) self :
  (exists objs, mapM L (variant_from L) items self = (inr objs, self, [])
                /\ Forall2 (fun d v => variant_object L d = inr v) items objs)
  \/ (exists e d, mapM L (variant_from L) items self = (inl e, self, [Raised e])
                  /\ In d items /\ variant_object L d = inl e).
Proof.
  induction items as [|d items IH]; simpl.
  - left. exists []. split; [reflexivity | constructor].
  - destruct (variant_object L d) as [e|v] eqn:Hd.
    + right. exists e, d. split; [|auto].
      unfold bind at 1. rewrite variant_from_lift, Hd. reflexivity.
    + assert (Hrun : variant_from L d self = (inr v, self, []))
        by now rewrite variant_from_lift, Hd.
      rewrite (bind_inr _ _ _ _ _ _ Hrun).
      destruct IH as [[objs [Hm Hf]] | [e [d' [Hm [Hin He]]]]].
      * left. exists (v :: objs). split; [|now constructor].
        rewrite (bind_inr _ _ _ _ _ _ Hm). reflexivity.
      * right. exists e, d'. split; [|auto].
        rewrite (bind_inl _ _ _ _ _ _ Hm). reflexivity.
Qed.

End VariantBatches.

(** X21.  [predict_variants] and [score_variants] build the interval
    first: when its dictionary makes no [Interval], that exception is
    the one reported, whatever the variants are.  Otherwise the one call
    they make carries the interval and a [Variant] object for every item,
    in order; if the object of any item cannot be built the client is not
    called.  An empty list of variants is sent as it is. *)
Theorem variant_batches_whole (rt : PyRuntime) (L : Lib) (self : AlphaGenomeClient L)
    (variants interval : pyval) (organism : string)
    (output_types ontology_terms : option (list string)) (max_workers : Z) :
  let r1 := predict_variants rt L variants interval organism output_types ontology_terms
              max_workers self in
  let r2 := score_variants rt L variants interval organism max_workers self in
  let built items objs := Forall2 (fun d v => variant_object L d = inr v) items objs in
  (forall c, In c (calls_of (events_of r1)) ->
   exists iv items objs,
     interval_object L interval = inr iv /\ py_iter variants = inr items
     /\ built items objs
     /\ calls_of (events_of r1)
        = [call_predict_variants iv objs HOMO_SAPIENS
             (requested_outputs_of L output_types) ontology_terms max_workers])
  /\ (forall c, In c (calls_of (events_of r2)) ->
      exists iv items objs,
        interval_object L interval = inr iv /\ py_iter variants = inr items
        /\ built items objs
        /\ calls_of (events_of r2) = [call_score_variants iv objs HOMO_SAPIENS max_workers])
  /\ (forall e, interval_object L interval = inl e ->
      calls_of (events_of r1) = [] /\ calls_of (events_of r2) = []
      /\ result_of r1 = inr (error_envelope e)
      /\ result_of r2 = inr (error_envelope e))
  /\ (forall items d e, py_iter variants = inr items -> In d items ->
      variant_object L d = inl e ->
      calls_of (events_of r1) = [] /\ calls_of (events_of r2) = []
      /\ (exists e1, result_of r1 = inr (error_envelope e1))
      /\ (exists e2, result_of r2 = inr (error_envelope e2)))
  /\ (forall iv, interval_object L interval = inr iv -> py_iter variants = inr [] ->
      calls_of (events_of r1)
      = [call_predict_variants iv [] HOMO_SAPIENS
           (requested_outputs_of L output_types) ontology_terms max_workers]
      /\ calls_of (events_of r2) = [call_score_variants iv [] HOMO_SAPIENS max_workers]).
Proof.
  intros r1 r2 built. subst r1 r2.
  unfold predict_variants, score_variants.
  rewrite !events_try_except, !result_try_except.
  destruct (interval_object L interval) as [e0|iv] eqn:Hiv.
  { assert (Hrun : interval_from L interval self = (inl e0, self, [Raised e0]))
      by now rewrite interval_from_lift, Hiv.
    rewrite !(bind_inl _ _ _ _ _ _ Hrun). unfold events_of, result_of. simpl.
    split; [intros c []|]. split; [intros c []|].
    split; [intros e [= <-]; auto|].
    split; [intros _ _ _ _ _ _; repeat split; eauto|].
    intros ? [=]. }
  rewrite !(bind_pure_run L _ _ _ _ (interval_from_run L interval iv self Hiv)).
  destruct (py_iter variants) as [e0|items] eqn:Hiter.
  { rewrite !bind_lift_inl. unfold events_of, result_of. simpl.
    split; [intros c []|]. split; [intros c []|].
    split; [intros ? [=]|]. split; [intros ? ? ? [=]|]. intros ? _ [=]. }
  rewrite !lift_inr, !bind_ret. cbv beta.
  destruct (mapM_variant_from items self) as [[objs [Hm Hf]] | [e [d [Hm [Hin He]]]]].
  - rewrite !(bind_inr _ _ _ _ _ _ Hm). cbv beta zeta. rewrite organism_enum_of_human.
    destruct (bind (call_client (call_predict_variants _ _ _ _ _ _)) _ self)
      as [[ra sa] evsa] eqn:Hruna.
    destruct (bind (call_client (call_score_variants _ _ _ _)) _ self)
      as [[rb sb] evsb] eqn:Hrunb.
    assert (Hca : calls_of (events_of (ra, sa, evsa))
                  = [call_predict_variants iv objs HOMO_SAPIENS
                       (requested_outputs_of L output_types) ontology_terms max_workers]).
    { rewrite <- Hruna. apply calls_bind_call. intros v. quiet_auto. }
    assert (Hcb : calls_of (events_of (rb, sb, evsb))
                  = [call_score_variants iv objs HOMO_SAPIENS max_workers]).
    { rewrite <- Hrunb. apply calls_bind_call. intros v. quiet_auto. }
    unfold events_of in *. simpl in *. rewrite ?app_nil_l.
    split; [intros c _; exists iv, items, objs; auto|].
    split; [intros c _; exists iv, items, objs; auto|].
    split; [intros ? [=]|].
    split.
    + intros items' d' e' [= <-] Hin' He'. exfalso.
      clear -Hf Hin' He'. induction Hf as [|x y xs ys Hxy Hf IH]; [destruct Hin'|].
      destruct Hin' as [<-|Hin']; [congruence | now apply IH].
    + intros iv' [= <-] [= ->]. inversion Hf; subst. auto.
  - rewrite !(bind_inl _ _ _ _ _ _ Hm). unfold events_of, result_of. simpl.
    split; [intros c []|]. split; [intros c []|].
    split; [intros ? [=]|].
    split; [intros _ _ _ _ _ _; repeat split; eauto|].
    intros ? _ [= ->]. destruct Hin.
Qed.

(* ================================================================== *)
(** * What a call carries *)
(* ================================================================== *)

Section CallsAll.

Context {L : Lib} (P : client_call -> Prop).

Lemma all_ret {A} (a : A) : calls_all (L:=L) P (ret a).
Proof. intros self. constructor. Qed.

Lemma all_raise {A} (e : exn) : calls_all (L:=L) P (raise (A:=A) e).
Proof. intros self. constructor. Qed.

Lemma all_lift {A} (r : exn + A) : calls_all (L:=L) P (lift r).
Proof. destruct r; [apply all_raise | apply all_ret]. Qed.

Lemma all_call (c : client_call) : P c -> calls_all (L:=L) P (call_client c).
Proof.
  intros H self. unfold call_client, events_of.
  destruct (invoke L (client self) c) as [cl [e|v]]; simpl; now repeat constructor.
Qed.

Lemma all_serializing {A} (body : exn + A) : calls_all (L:=L) P (serializing body).
Proof. intros self. unfold serializing, absorbing, events_of. destruct body; constructor. Qed.

Lemma all_bind {A B} (m : M L A) (k : A -> M L B) :
  calls_all P m -> (forall a, calls_all P (k a)) -> calls_all P (bind m k).
Proof.
  intros Hm Hk self. unfold bind, events_of. specialize (Hm self). unfold events_of in Hm.
  destruct (m self) as [[[e|a] self1] evs]; simpl in *; [assumption|].
  specialize (Hk a self1). unfold events_of in Hk.
  destruct (k a self1) as [[r self2] evs']; simpl in *.
  rewrite calls_of_app. now apply Forall_app.
Qed.

Lemma all_mapM {A B} (f : A -> M L B) (l : list A) :
  (forall x, calls_all P (f x)) -> calls_all P (mapM L f l).
Proof.
  intros Hf. induction l as [|x l IH]; simpl; [apply all_ret|].
  apply all_bind; [apply Hf|]. intros y.
  apply all_bind; [apply IH|]. intros ys. apply all_ret.
Qed.

Lemma all_try_except (body : M L pyval) :
  calls_all P body -> calls_all P (try_except L body).
Proof.
  intros Hb self. specialize (Hb self). unfold try_except, events_of in *.
  destruct (body self) as [[[e|v] self1] evs]; assumption.
Qed.

End CallsAll.

Lemma requested_outputs_known (L : Lib) (output_types : option (list string))
    (ots : list OutputType) :
  requested_outputs_of L output_types = Some ots ->
  Forall (fun o => OutputType_hasattr L o = true) ots.
Proof.
  unfold requested_outputs_of. destruct output_types as [[|x l]|]; try discriminate.
  intros [= <-]. apply Forall_forall. intros o Ho.
  exact (proj2 (proj1 (filter_In (OutputType_hasattr L) o (map upper (x :: l))) Ho)).
Qed.

Ltac plain_call_auto :=
  split; simpl; intros ? Heq;
  first [ discriminate Heq
        | injection Heq as <-; reflexivity
        | eapply requested_outputs_known; exact Heq ].

Ltac all_step :=
  match goal with
  | |- calls_all _ (try_except _ _) => apply all_try_except
  | |- calls_all _ (bind _ _) => apply all_bind; [ | intros ? ]
  | |- calls_all _ (ret _) => apply all_ret
  | |- calls_all _ (raise _) => apply all_raise
  | |- calls_all _ (lift _) => apply all_lift
  | |- calls_all _ (serializing _) => apply all_serializing
  | |- calls_all _ (call_client _) => apply all_call; plain_call_auto
  | |- calls_all _ (mapM _ _ _) => apply all_mapM; intros ?
  | |- calls_all _ (if ?b then _ else _) => destruct b
  | |- calls_all _ (match ?x with _ => _ end) => destruct x
  | |- calls_all _ (let (_, _) := ?x in _) => destruct x
  | |- calls_all _ _ => progress cbv zeta
  | |- calls_all _ _ => progress autounfold with cmds
  | |- calls_all _ _ => progress autounfold with methods
  end.

(** X22.  Whatever their arguments, the calls a public method makes ask
    only for output types the package has (names it does not have are
    dropped without a word, so the list may be empty), and the two
    interval scoring methods always pass the empty list of scorers. *)
Theorem calls_are_plain (rt : PyRuntime) (L : Lib) (q : request)
    (self : AlphaGenomeClient L) :
  Forall (plain_call L) (calls_of (events_of (perform rt L q self))).
Proof.
  revert self. change (calls_all (plain_call L) (perform rt L q)).
  destruct q; simpl; repeat all_step.
Qed.

(* ================================================================== *)
(** * Verdicts of [validate_genomic_data] *)
(* ================================================================== *)

Ltac verdict_leaf :=
  cbv zeta;
  repeat match goal with
         | |- context [if ?b then _ else _] => destruct b
         | |- context [match ?l with [] => _ | _ :: _ => _ end] => destruct l
         end;
  unfold add_error, add_warning, validation_start; simpl;
  repeat split; intros; try discriminate; try reflexivity.

Ltac verdict_step :=
  match goal with
  | |- yields _ (ret _) => apply yields_ret; verdict_leaf
  | |- yields _ (bind _ _) => eapply yields_bind; [apply yields_any | intros ? _]
  | |- yields _ (if ?b then _ else _) => destruct b
  end.

Section Verdicts.

Context (rt : PyRuntime) (L : Lib).

Lemma validate_sequence_verdict (data : pyval) :
  yields (fun v => valid v = true <-> errors v = []) (validate_sequence rt L data).
Proof. unfold validate_sequence. repeat verdict_step. Qed.

Lemma validate_interval_verdict (data : pyval) :
  yields (fun v => (valid v = true <-> errors v = []) /\ warnings v = [])
         (validate_interval L data).
Proof. unfold validate_interval. repeat verdict_step. Qed.

Lemma validate_variant_verdict (data : pyval) :
  yields (fun v => (valid v = true <-> errors v = []) /\ warnings v = [])
         (validate_variant L data).
Proof. unfold validate_variant. repeat verdict_step. Qed.

End Verdicts.

(** X23.  [validate_genomic_data] answers with an error envelope or with
    a verdict in which ["valid"] is true exactly when ["errors"] is
    empty; warnings never change the verdict, and only a sequence gets
    any. *)
Theorem validation_verdict (rt : PyRuntime) (L : Lib) (self : AlphaGenomeClient L)
    (data_type : string) (data : pyval) :
  (exists e, result_of (validate_genomic_data rt L data_type data self)
             = inr (error_envelope e))
  \/ (exists v,
        result_of (validate_genomic_data rt L data_type data self)
        = inr (PyDict [("success", PyBool true);
                       ("result", validation_dict v);
                       ("data_type", PyStr data_type)])
        /\ (valid v = true <-> errors v = [])
        /\ (data_type <> "sequence" -> warnings v = [])).
Proof.
  unfold validate_genomic_data. rewrite result_try_except.
  set (m := if String.eqb data_type "sequence" then validate_sequence rt L data
            else if String.eqb data_type "interval" then validate_interval L data
            else if String.eqb data_type "variant" then validate_variant L data
            else ret validation_start).
  assert (Hm : yields (fun v => (valid v = true <-> errors v = [])
                                /\ (data_type <> "sequence" -> warnings v = [])) m).
  { subst m. destruct (String.eqb_spec data_type "sequence") as [Hs|Hs].
    - intros s. pose proof (validate_sequence_verdict rt L data s) as H.
      destruct (result_of _); [exact I|]. split; [exact H | contradiction].
    - destruct (String.eqb data_type "interval").
      + intros s. pose proof (validate_interval_verdict L data s) as H.
        destruct (result_of _); [exact I|]. split; [apply H | intros _; apply H].
      + destruct (String.eqb data_type "variant").
        * intros s. pose proof (validate_variant_verdict L data s) as H.
          destruct (result_of _); [exact I|]. split; [apply H | intros _; apply H].
        * apply yields_ret. split; [split; reflexivity | reflexivity]. }
  specialize (Hm self). unfold bind, result_of in *.
  destruct (m self) as [[[e|v] s] evs]; simpl in *.
  - left. now exists e.
  - right. exists v. split; [reflexivity | exact Hm].
Qed.

(* ================================================================== *)
(** * The object between calls *)
(* ================================================================== *)

Section SteadyRules.

Context {L : Lib}.

Lemma steady_ret {A} (a : A) : steady (L:=L) (ret a).
Proof. intros self _. reflexivity. Qed.

Lemma steady_raise {A} (e : exn) : steady (L:=L) (raise (A:=A) e).
Proof. intros self _. reflexivity. Qed.

Lemma steady_lift {A} (r : exn + A) : steady (L:=L) (lift r).
Proof. destruct r; [apply steady_raise | apply steady_ret]. Qed.

Lemma steady_call (c : client_call) : steady (L:=L) (call_client c).
Proof.
  intros self. unfold call_client, events_of, self_of.
  destruct (invoke L (client self) c) as [cl [e|v]]; simpl; discriminate.
Qed.

Lemma steady_serializing {A} (body : exn + A) : steady (L:=L) (serializing body).
Proof. intros self _. reflexivity. Qed.

Lemma steady_bind {A B} (m : M L A) (k : A -> M L B) :
  steady m -> (forall a, steady (k a)) -> steady (bind m k).
Proof.
  intros Hm Hk self. specialize (Hm self). unfold bind, events_of, self_of in *.
  destruct (m self) as [[[e|a] self1] evs]; simpl in *; [assumption|].
  specialize (Hk a self1). unfold events_of, self_of in Hk.
  destruct (k a self1) as [[r self2] evs']; simpl in *.
  rewrite calls_of_app. intros H. apply app_eq_nil in H. destruct H as [H1 H2].
  rewrite (Hk H2). now apply Hm.
Qed.

Lemma steady_mapM {A B} (f : A -> M L B) (l : list A) :
  (forall x, steady (f x)) -> steady (mapM L f l).
Proof.
  intros Hf. induction l as [|x l IH]; simpl; [apply steady_ret|].
  apply steady_bind; [apply Hf|]. intros y.
  apply steady_bind; [apply IH|]. intros ys. apply steady_ret.
Qed.

Lemma steady_try_except (body : M L pyval) : steady body -> steady (try_except L body).
Proof.
  intros Hb self. specialize (Hb self). unfold try_except, events_of, self_of in *.
  destruct (body self) as [[[e|v] self1] evs]; assumption.
Qed.

End SteadyRules.

Ltac steady_step :=
  match goal with
  | |- steady (try_except _ _) => apply steady_try_except
  | |- steady (bind _ _) => apply steady_bind; [ | intros ? ]
  | |- steady (ret _) => apply steady_ret
  | |- steady (raise _) => apply steady_raise
  | |- steady (lift _) => apply steady_lift
  | |- steady (serializing _) => apply steady_serializing
  | |- steady (call_client _) => apply steady_call
  | |- steady (mapM _ _ _) => apply steady_mapM; intros ?
  | |- steady (if ?b then _ else _) => destruct b
  | |- steady (match ?x with _ => _ end) => destruct x
  | |- steady (let (_, _) := ?x in _) => destruct x
  | |- steady _ => progress cbv zeta
  | |- steady _ => progress autounfold with cmds
  | |- steady _ => progress autounfold with methods
  end.

(** X24.  A public method that returns without having called the client
    (its arguments were refused, an object could not be built, or it is
    one of the local methods) leaves the object as it found it: the
    only way a method changes the object is through a call. *)
Theorem object_changes_by_calls_only (rt : PyRuntime) (L : Lib) (q : request)
    (self : AlphaGenomeClient L) :
  calls_of (events_of (perform rt L q self)) = [] ->
  self_of (perform rt L q self) = self.
Proof.
  revert self. change (steady (perform rt L q)).
  destruct q; simpl; repeat steady_step.
Qed.

Lemma object_changes_by_calls_only_witness :
  self_of (perform Sample.runtime Sample.lib
             (req_predict_sequence "ACGX" "human" None None) Sample.self)
  = Sample.self.
Proof.
  apply (object_changes_by_calls_only Sample.runtime Sample.lib
           (req_predict_sequence "ACGX" "human" None None) Sample.self).
  reflexivity.
Defined.
